(** * Verification of the quivr chat backend: headless question answering

    A shallow embedding of
      - [backend/routes/chat/utils.py]   (module [Utils]),
      - [backend/llm/qa_headless.py]     (module [QAHeadless]),
      - [backend/routes/chat_routes.py]  (module [ChatRoutes]),
    with the properties of the specification proved about it.

    Python objects are records, [Optional] fields are [option], exceptions
    are values of [Exc] carried by [Result], and the asyncio program of
    [generate_stream] is a transition system over the two cooperatively
    scheduled tasks. *)

From Stdlib Require Import Floats ZArith NArith Ascii String DecimalString
  List Bool Lia.
Import ListNotations.
Open Scope string_scope.

Set Implicit Arguments.
Set Warnings "-inexact-float".

(** ** Python values shared by the three files *)

Module Py.

(** The exception classes the code distinguishes.  [BaseExceptionOnly]
      stands for the classes that derive from [BaseException] without
      deriving from [Exception] (CancelledError, KeyboardInterrupt, ...):
      an [except Exception] clause lets them through. *)
Inductive ExcClass : Type :=
  | ValueError
  | HTTPException (status_code : Z)
  | OtherException (class_name : string)
  | BaseExceptionOnly (class_name : string).

Record Exc : Type := mkExc { exc_class : ExcClass; exc_detail : string }.

(** [isinstance(e, Exception)] *)
Definition isinstance_Exception (e : Exc) : bool :=
    match exc_class e with
    | BaseExceptionOnly _ => false
    | _ => true
    end.

(** [isinstance(e, ValueError)] *)
Definition isinstance_ValueError (e : Exc) : bool :=
    match exc_class e with
    | ValueError => true
    | _ => false
    end.

(** The outcome of a call: it returns a value or raises. *)
Inductive Result (A : Type) : Type :=
  | Return (a : A)
  | Raise (e : Exc).
Arguments Return {A} a.
Arguments Raise {A} e.

Definition bind {A B : Type} (r : Result A) (k : A -> Result B) : Result B :=
    match r with
    | Return a => k a
    | Raise e => Raise e
    end.

(** [uuid.UUID] keeps the identifier as a 128-bit integer. *)
Record UUID : Type := mkUUID { uuid_int : N }.

(** Truth value of the optional fields the handlers test with [not x] and
      [x or y]: [None], the empty string, [0] and [0.0] are false. *)
Definition truthy_str (x : option string) : bool :=
    match x with
    | Some s => negb (String.eqb s "")
    | None => false
    end.

Definition truthy_int (x : option Z) : bool :=
    match x with
    | Some n => negb (Z.eqb n 0)
    | None => false
    end.

Definition truthy_float (x : option float) : bool :=
    match x with
    | Some f => negb (PrimFloat.eqb f 0%float)
    | None => false
    end.

(** [x or y], by the truth value of [x]. *)
Definition or_ {A : Type} (truthy : option A -> bool) (x y : option A)
    : option A :=
    if truthy x then x else y.

(** [x in xs] for a list of strings; [None in xs] is false. *)
Definition in_ (x : option string) (xs : list string) : bool :=
    match x with
    | Some s => existsb (String.eqb s) xs
    | None => false
    end.

End Py.

(** ** Entities declared in [models], [modules] and [repository]

    Only the fields the three files read or write. *)

Module Models.
Import Py.

(** [UserIdentity] *)
Record UserIdentity : Type := mkUserIdentity {
  user_id : UUID;
  user_email : option string
}.

(** The settings dictionary returned by [UserUsage.get_user_settings]: a
    key that is absent is [None], and [d.get(k, default)] is [dict_get]. *)
Record UserSettings : Type := mkUserSettings {
  settings_models : option (list string);
  settings_daily_chat_credit : option Z
}.

Definition dict_get {A : Type} (entry : option A) (default : A) : A :=
  match entry with
  | Some a => a
  | None => default
  end.

(** [ChatQuestion]: the request body of the question endpoints. *)
Record ChatQuestion : Type := mkChatQuestion {
  question : string;
  q_model : option string;
  q_temperature : option float;
  q_max_tokens : option Z;
  q_prompt_id : option UUID
}.

(** [Prompt] *)
Record Prompt : Type := mkPrompt {
  prompt_title : string;
  prompt_content : string
}.

(** [CreateChatHistory]: the argument of [update_chat_history]. *)
Record CreateChatHistory : Type := mkCreateChatHistory {
  c_chat_id : UUID;
  c_user_message : string;
  c_assistant : string;
  c_brain_id : option UUID;
  c_prompt_id : option UUID
}.

(** [ChatHistory]: a persisted turn, as the repository returns it. *)
Record ChatHistory : Type := mkChatHistory {
  h_chat_id : string;
  h_message_id : string;
  h_user_message : string;
  h_assistant : string;
  h_message_time : string
}.

(** A field that receives a [UUID] at one call site and its [str] at
    another. *)
Inductive IdValue : Type :=
| IdUUID (u : UUID)
| IdStr (s : string).

(** [GetChatHistoryOutput] *)
Record GetChatHistoryOutput : Type := mkGetChatHistoryOutput {
  o_chat_id : IdValue;
  o_message_id : string;
  o_message_time : string;
  o_user_message : string;
  o_assistant : string;
  o_prompt_title : option string;
  o_brain_name : option string
}.

(** [streamed_chat_history.assistant = token] *)
Definition set_assistant (o : GetChatHistoryOutput) (a : string)
  : GetChatHistoryOutput :=
  mkGetChatHistoryOutput (o_chat_id o) (o_message_id o) (o_message_time o)
    (o_user_message o) a (o_prompt_title o) (o_brain_name o).

End Models.

(** ** routes/chat/utils.py *)

Module Utils.
Import Py Models.

(** *** NullableUUID *)

Section NullableUUID.

(** [UUID(v)], the constructor of the standard [uuid] module applied to a
        string: the parsed identifier, or the exception it raises. *)
Variable UUID_new : string -> Result UUID.

(** [NullableUUID.validate(cls, v)] *)
Definition validate (v : string) : Result (option UUID) :=
      if String.eqb v "" then Return None
      else
        match UUID_new v with
        | Return u => Return (Some u)
        | Raise e => if isinstance_ValueError e then Return None else Raise e
        end.

End NullableUUID.

(** *** check_user_requests_limit *)

(** The per-user usage table: one request counter per user and day, kept
      as an association list in insertion order. *)
Definition UsageKey : Type := (N * string)%type.
Definition UsageDB : Type := list (UsageKey * Z).

Definition key_eqb (k1 k2 : UsageKey) : bool :=
    N.eqb (fst k1) (fst k2) && String.eqb (snd k1) (snd k2).

Fixpoint requests_count (db : UsageDB) (k : UsageKey) : option Z :=
    match db with
    | [] => None
    | (k', n) :: rest => if key_eqb k' k then Some n else requests_count rest k
    end.

Fixpoint set_requests_count (db : UsageDB) (k : UsageKey) (n : Z) : UsageDB :=
    match db with
    | [] => [(k, n)]
    | (k', n') :: rest =>
        if key_eqb k' k then (k, n) :: rest
        else (k', n') :: set_requests_count rest k n
    end.

(** Modelled from the spec: [UserUsage.handle_increment_user_request_count]
    is a method of [models.UserUsage], whose file is not among those
    embedded here; the spec names it only as the per-user usage counter.
    The counter of the user for the day goes up by one, a day without a
    row counting from zero. *)
Definition handle_increment_user_request_count
    (db : UsageDB) (user : UserIdentity) (date : string) : UsageDB :=
  let k := (uuid_int (user_id user), date) in
  set_requests_count db k (dict_get (requests_count db k) 0%Z + 1)%Z.

(** What the function reads from its surroundings: the stored settings of
      the user, and the clock through [time.strftime("%Y%m%d")]. *)
Record Surroundings : Type := mkSurroundings {
    get_user_settings : UserIdentity -> UserSettings;
    strftime_Ymd : string
  }.

Definition banner : string :=
    "HEEEEERRRRRRRRRREEEEEEEEEEEEEEEEEEEEEEEEEEEEEEEEEEEEE".

(** The state the function acts on: the usage table and standard output. *)
Record World : Type := mkWorld {
    usage : UsageDB;
    stdout : list string
  }.

(** [check_user_requests_limit(user)].  The comparison of the request
      count with [daily_chat_credit] is commented out in the source: the
      credit is read and then unused, and the body ends in [pass]. *)
Definition check_user_requests_limit
      (env : Surroundings) (user : UserIdentity) (w : World)
    : Result unit * World :=
    let userSettings := get_user_settings env user in
    let date := strftime_Ymd env in
    let usage' := handle_increment_user_request_count (usage w) user date in
    let daily_chat_credit :=
      dict_get (settings_daily_chat_credit userSettings) 0%Z in
    let w' := mkWorld usage' (stdout w ++ [banner]) in
    (Return tt, w').

(** The status code of the error a call ended with, if it is an HTTP
      error. *)
Definition http_status {A : Type} (r : Result A) : option Z :=
    match r with
    | Raise (mkExc (HTTPException code) _) => Some code
    | _ => None
    end.

End Utils.

(** ** llm/qa_headless.py *)

Module QAHeadless.
Import Py Models.

Definition SYSTEM_MESSAGE : string :=
  "Your name is SpringerAI. You're a helpful assistant. If you don't know the answer, just say that you don't know, don't try to make up an answer.When answering use markdown or any other techniques to display the content in a nice and aerated way.".

(** An [AsyncIteratorCallbackHandler] object, named by its identity. *)
Definition HandlerRef : Type := nat.

(** The fields of [class HeadlessQA(BaseModel)]. *)
Record HeadlessQA : Type := mkHeadlessQA {
  model : string;
  temperature : float;
  max_tokens : Z;
  streaming : bool;
  chat_id : string;
  callbacks : option (list HandlerRef);
  prompt_id : option UUID
}.

(** [self.callbacks = cbs] *)
Definition set_callbacks (self : HeadlessQA) (cbs : option (list HandlerRef))
  : HeadlessQA :=
  mkHeadlessQA (model self) (temperature self) (max_tokens self)
    (streaming self) (chat_id self) cbs (prompt_id self).

(** [self.streaming = b] *)
Definition set_streaming (self : HeadlessQA) (b : bool) : HeadlessQA :=
  mkHeadlessQA (model self) (temperature self) (max_tokens self)
    b (chat_id self) (callbacks self) (prompt_id self).

(** The keyword arguments [ChatLiteLLM] is constructed with. *)
Record ChatLiteLLM : Type := mkChatLiteLLM {
  llm_temperature : float;
  llm_model : string;
  llm_streaming : bool;
  llm_verbose : bool;
  llm_callbacks : option (list HandlerRef)
}.

(** A role-tagged message of the list sent to the completion client. *)
Record Message : Type := mkMessage { role : string; content : string }.

(** [ChatPromptTemplate.from_messages(messages)] *)
Record ChatPromptTemplate : Type := from_messages {
  template_messages : list Message
}.

(** [LLMChain(llm=..., prompt=...)] *)
Record LLMChain : Type := mkLLMChain {
  chain_llm : ChatLiteLLM;
  chain_prompt : ChatPromptTemplate
}.

(** What one run of [headlessChain.acall({})] does, as seen through the
    callback handler: the tokens it hands to [on_llm_new_token], whether
    the client signals the end of generation on the handler itself
    ([on_llm_end], [on_llm_error]) before the call is over, and how the
    call ends. *)
Record Completion : Type := mkCompletion {
  produced_tokens : list string;
  signals_end : bool;
  outcome : Result unit
}.

(** The collaborators of the generator: prompt resolver, history
    repository, completion client and JSON encoder. *)
Record Env : Type := mkEnv {
  get_prompt_to_use : option UUID -> option Prompt;
  get_prompt_to_use_id : option UUID -> option UUID;
  get_chat_history : string -> list ChatHistory;
  format_chat_history : list ChatHistory -> list (string * string);
  format_history_to_openai_mesages :
    list (string * string) -> string -> string -> list Message;
  predict_messages : ChatLiteLLM -> list Message -> Result string;
  acall : LLMChain -> Completion;
  update_chat_history : CreateChatHistory -> ChatHistory;
  json_dumps : GetChatHistoryOutput -> string;
  UUID_str : UUID -> string;
  new_AsyncIteratorCallbackHandler : HandlerRef
}.

(** The effects of the generator, in the order they happen. *)
Inductive Event : Type :=
| EvPredict (llm : ChatLiteLLM) (messages : list Message)
| EvCreateTask (chain : LLMChain)
| EvUpdateChatHistory (entry : CreateChatHistory)
| EvUpdateMessageById (message_id user_message assistant : string)
| EvLogInfo (token : string)
| EvLogError (msg : string)
| EvYield (frame : string)
| EvQueuePut (token : string)
| EvDoneSet
| EvTaskFinished (raised : option Exc).

(** Where the generator of [generate_stream] stands: not started, inside
    the [async for] loop, at [await run], past the final update, abandoned
    by its consumer at a suspension point, or ended by an exception. *)
Inductive GenPc : Type :=
| Start
| Loop
| AwaitRun
| Finished
| Closed
| Crashed (e : Exc).

(** The background task [run]: what is left of the completion call, or the
    exception the finished task holds, if any. *)
Inductive TaskState : Type :=
| NotCreated
| Running (todo : Completion)
| TaskDone (raised : option Exc).

(** The variables of one call of [generate_stream], the two halves of the
    callback handler ([callback.queue], [callback.done]) and the effects so
    far. *)
Record State : Type := mkState {
  pc : GenPc;
  self_ : HeadlessQA;
  run_task : TaskState;
  queue : list string;
  done : bool;
  response_tokens : list string;
  streamed_chat_history : option GetChatHistoryOutput;
  trace : list Event
}.

Definition initial (self : HeadlessQA) : State :=
  mkState Start self NotCreated [] false [] None [].

Definition set_pc (s : State) (p : GenPc) : State :=
  mkState p (self_ s) (run_task s) (queue s) (done s) (response_tokens s)
    (streamed_chat_history s) (trace s).

Definition set_queue (s : State) (q : list string) : State :=
  mkState (pc s) (self_ s) (run_task s) q (done s) (response_tokens s)
    (streamed_chat_history s) (trace s).

Definition set_done (s : State) : State :=
  mkState (pc s) (self_ s) (run_task s) (queue s) true (response_tokens s)
    (streamed_chat_history s) (trace s).

Definition set_run_task (s : State) (t : TaskState) : State :=
  mkState (pc s) (self_ s) t (queue s) (done s) (response_tokens s)
    (streamed_chat_history s) (trace s).

Definition emit (s : State) (evs : list Event) : State :=
  mkState (pc s) (self_ s) (run_task s) (queue s) (done s) (response_tokens s)
    (streamed_chat_history s) (trace s ++ evs).

(** What [async for token in callback.aiter()] gets when it asks for the
    next token. *)
Inductive AiterNext : Type :=
| NextToken (token : string) (rest : list string)
| StopAsyncIteration
| Pending.

(** Modelled from the spec: [AsyncIteratorCallbackHandler] belongs to the
    completion library, outside the files embedded here.  The spec gives
    its contract: a token queue with a done signal; the loop receives the
    next queued token, stays suspended while the queue is empty and the
    signal is not set, and ends when the signal is set with no more tokens
    queued. *)
Definition aiter_next (queue : list string) (done : bool) : AiterNext :=
  match queue with
  | token :: rest => NextToken token rest
  | [] => if done then StopAsyncIteration else Pending
  end.

(** The same instance with another [temperature]. *)
Definition with_temperature (self : HeadlessQA) (t : float) : HeadlessQA :=
  mkHeadlessQA (model self) t (max_tokens self) (streaming self)
    (chat_id self) (callbacks self) (prompt_id self).

(** The same state of a request, made by an instance with another
    [temperature]. *)
Definition retemp (t : float) (s : State) : State :=
  mkState (pc s) (with_temperature (self_ s) t) (run_task s) (queue s)
    (done s) (response_tokens s) (streamed_chat_history s) (trace s).

(** Who runs next on the event loop: the generator up to its next
    suspension point, the background task up to its next one, or the
    consumer going away while the generator is suspended. *)
Inductive Action : Type :=
| RunGenerator
| RunTask
| Disconnect.

Section WithEnv.

Variable env : Env.

(** [_determine_streaming] *)
Definition _determine_streaming (self : HeadlessQA) (streaming : bool) : bool :=
  streaming.

(** [_determine_callback_array] *)
Definition _determine_callback_array (self : HeadlessQA) (streaming : bool)
  : list HandlerRef :=
  if streaming then [new_AsyncIteratorCallbackHandler env] else [].

(** [__init__] *)
Definition __init__ (data : HeadlessQA) : HeadlessQA :=
  let self := data in
  let self := set_streaming self (_determine_streaming self (streaming self)) in
  set_callbacks self (Some (_determine_callback_array self (streaming self))).

(** [prompt_to_use] *)
Definition prompt_to_use (self : HeadlessQA) : option Prompt :=
  get_prompt_to_use env (prompt_id self).

(** [prompt_to_use_id] *)
Definition prompt_to_use_id (self : HeadlessQA) : option UUID :=
  get_prompt_to_use_id env (prompt_id self).

(** [_create_llm(self, model, temperature=0, streaming=False, callbacks=None)] *)
Definition _create_llm (self : HeadlessQA) (model : string)
    (temperature : float) (streaming : bool)
    (callbacks : option (list HandlerRef)) : ChatLiteLLM :=
  mkChatLiteLLM 0.1%float model streaming true callbacks.

(** The default of the [temperature] parameter of [_create_llm]. *)
Definition default_temperature : float := 0%float.

(** [self.prompt_to_use.content if self.prompt_to_use else SYSTEM_MESSAGE] *)
Definition prompt_content_of (self : HeadlessQA) : string :=
  match prompt_to_use self with
  | Some p => prompt_content p
  | None => SYSTEM_MESSAGE
  end.

(** [self.prompt_to_use.title if self.prompt_to_use else None] *)
Definition prompt_title_of (self : HeadlessQA) : option string :=
  match prompt_to_use self with
  | Some p => Some (prompt_title p)
  | None => None
  end.

(** The message list both methods build from the history of [self.chat_id],
    the prompt and the new question. *)
Definition build_messages (self : HeadlessQA) (question : ChatQuestion)
  : list Message :=
  let transformed_history :=
    format_chat_history env (get_chat_history env (chat_id self)) in
  format_history_to_openai_mesages env
    transformed_history (prompt_content_of self) (Models.question question).

(** [generate_answer(self, chat_id, question)]: the result and the effects. *)
Definition generate_answer (self : HeadlessQA) (chat_id : UUID)
    (question : ChatQuestion) : Result GetChatHistoryOutput * list Event :=
  let messages := build_messages self question in
  let answering_llm :=
    _create_llm self (model self) default_temperature false (callbacks self) in
  match predict_messages env answering_llm messages with
  | Raise e => (Raise e, [EvPredict answering_llm messages])
  | Return answer =>
      let entry :=
        mkCreateChatHistory chat_id (Models.question question) answer
          None (prompt_to_use_id self) in
      let new_chat := update_chat_history env entry in
      (Return
         (mkGetChatHistoryOutput (IdUUID chat_id) (h_message_id new_chat)
            (h_message_time new_chat) (Models.question question) answer
            (prompt_title_of self) None),
       [EvPredict answering_llm messages; EvUpdateChatHistory entry])
  end.


(** *** generate_stream *)

Section Stream.

Variable chat_id : UUID.
Variable question : ChatQuestion.

(** [self] once [self.callbacks = [callback]] has run. *)
Definition stream_self (self : HeadlessQA) : HeadlessQA :=
  set_callbacks self (Some [new_AsyncIteratorCallbackHandler env]).

(** [headlessChain], over the language model built with [streaming=True]. *)
Definition headlessChain (self : HeadlessQA) : LLMChain :=
  let messages := build_messages self question in
  let answering_llm :=
    _create_llm self (model self) default_temperature true (callbacks self) in
  let CHAT_PROMPT := from_messages messages in
  mkLLMChain answering_llm CHAT_PROMPT.

(** The argument of the first [update_chat_history]: the turn with an empty
    assistant text. *)
Definition placeholder (self : HeadlessQA) : CreateChatHistory :=
  mkCreateChatHistory chat_id (Models.question question) ""
    None (prompt_to_use_id self).

(** [streamed_chat_history] as built before the loop, from the persisted
    placeholder. *)
Definition streamed_output (self : HeadlessQA) : GetChatHistoryOutput :=
  let new_chat := update_chat_history env (placeholder self) in
  mkGetChatHistoryOutput (IdStr (UUID_str env chat_id))
    (h_message_id new_chat) (h_message_time new_chat)
    (Models.question question) "" (prompt_title_of self) None.

(** From the first line of [generate_stream] to the first suspension inside
    [callback.aiter()]: the handler and the chain are built, the task is
    created (it does not run before the generator suspends), the
    placeholder entry is written and the output object is built from it. *)
Definition prelude (s : State) : State :=
  let self := stream_self (self_ s) in
  let chain := headlessChain self in
  mkState Loop self (Running (acall env chain)) [] false []
    (Some (streamed_output self))
    (trace s ++ [EvCreateTask chain; EvUpdateChatHistory (placeholder self)]).

(** One turn of the loop body, from the token received to the [yield]. *)
Definition loop_body (token : string) (s : State) : option State :=
  match streamed_chat_history s with
  | Some h =>
      let h' := set_assistant h token in
      Some (mkState Loop (self_ s) (run_task s) (queue s) (done s)
              (response_tokens s ++ [token]) (Some h')
              (trace s ++ [EvLogInfo token;
                           EvYield ("data: " ++ json_dumps env h')]))
  | None => None
  end.

(** After [await run] has returned: the join and the final update. *)
Definition finalize (s : State) : option State :=
  match streamed_chat_history s with
  | Some h =>
      let assistant := String.concat "" (response_tokens s) in
      Some (mkState Finished (self_ s) (run_task s) (queue s) (done s)
              (response_tokens s) (Some h)
              (trace s ++ [EvUpdateMessageById (o_message_id h)
                             (Models.question question) assistant]))
  | None => None
  end.

(** The generator runs from one suspension point to the next; [None] when
    it cannot run (it waits for a token or for the task, or it is over). *)
Definition step_generator (s : State) : option State :=
  match pc s with
  | Start => Some (prelude s)
  | Loop =>
      match aiter_next (queue s) (done s) with
      | NextToken token rest => loop_body token (set_queue s rest)
      | StopAsyncIteration => Some (set_pc s AwaitRun)
      | Pending => None
      end
  | AwaitRun =>
      match run_task s with
      | TaskDone None => finalize s
      | TaskDone (Some e) => Some (set_pc s (Crashed e))
      | _ => None
      end
  | _ => None
  end.

(** [wrap_done(fn, event)] from the point where [await fn] is over with
    [fn_outcome]: [except Exception] logs, [finally] sets the event, and an
    exception that is not an [Exception] stays with the task. *)
Definition wrap_done (fn_outcome : Result unit) (s : State) : State :=
  let '(logged, raised) :=
    match fn_outcome with
    | Return _ => ([], None)
    | Raise e =>
        if isinstance_Exception e
        then ([EvLogError ("Caught exception: " ++ exc_detail e)], None)
        else ([], Some e)
    end in
  let s := emit s logged in
  let s := emit (set_done s) [EvDoneSet] in
  emit (set_run_task s (TaskDone raised)) [EvTaskFinished raised].

(** The background task runs to its next suspension point: the completion
    call hands over one more token, or signals the end on the handler, or
    is over and [wrap_done] concludes. *)
Definition step_task (s : State) : option State :=
  match run_task s with
  | Running todo =>
      match produced_tokens todo with
      | token :: rest =>
          let todo' := mkCompletion rest (signals_end todo) (outcome todo) in
          Some (emit (set_run_task (set_queue s (queue s ++ [token]))
                        (Running todo'))
                  [EvQueuePut token])
      | [] =>
          if signals_end todo
          then
            let todo' := mkCompletion [] false (outcome todo) in
            Some (emit (set_run_task (set_done s) (Running todo'))
                    [EvDoneSet])
          else Some (wrap_done (outcome todo) s)
      end
  | _ => None
  end.

Definition step (a : Action) (s : State) : option State :=
  match a with
  | RunGenerator => step_generator s
  | RunTask => step_task s
  | Disconnect =>
      match pc s with
      | Loop | AwaitRun => Some (set_pc s Closed)
      | _ => None
      end
  end.

(** A run of the event loop under a schedule; [None] when the schedule
    picks somebody who cannot run. *)
Fixpoint run (sched : list Action) (s : State) : option State :=
  match sched with
  | [] => Some s
  | a :: rest =>
      match step a s with
      | Some s' => run rest s'
      | None => None
      end
  end.

(** The schedule that lets the generator start, the task run to its end,
    and the generator consume everything. *)
Definition sequential_schedule (c : Completion) : list Action :=
  RunGenerator
    :: repeat RunTask
         (length (produced_tokens c) + (if signals_end c then 1 else 0) + 1)
    ++ repeat RunGenerator (length (produced_tokens c) + 2).

End Stream.

(** *** Readings of a trace *)

Definition yielded (tr : list Event) : list string :=
  flat_map (fun e => match e with EvYield f => [f] | _ => [] end) tr.

Definition logged_tokens (tr : list Event) : list string :=
  flat_map (fun e => match e with EvLogInfo t => [t] | _ => [] end) tr.

Definition queued_tokens (tr : list Event) : list string :=
  flat_map (fun e => match e with EvQueuePut t => [t] | _ => [] end) tr.

Definition created_entries (tr : list Event) : list CreateChatHistory :=
  flat_map (fun e => match e with EvUpdateChatHistory c => [c] | _ => [] end) tr.

Definition final_updates (tr : list Event) : list (string * string * string) :=
  flat_map
    (fun e =>
       match e with
       | EvUpdateMessageById i u a => [(i, u, a)]
       | _ => []
       end) tr.

Definition logged_errors (tr : list Event) : list string :=
  flat_map (fun e => match e with EvLogError m => [m] | _ => [] end) tr.

Definition is_yield (e : Event) : bool :=
  match e with EvYield _ => true | _ => false end.

Definition is_create (e : Event) : bool :=
  match e with EvUpdateChatHistory _ => true | _ => false end.

Definition is_final_update (e : Event) : bool :=
  match e with EvUpdateMessageById _ _ _ => true | _ => false end.

Definition is_task_finished (e : Event) : bool :=
  match e with EvTaskFinished _ => true | _ => false end.

Definition is_done_set (e : Event) : bool :=
  match e with EvDoneSet => true | _ => false end.

(** *** The objects of one streaming request *)

(** What the completion call of the request does. *)
Definition completion (question : ChatQuestion) (self : HeadlessQA)
  : Completion :=
  acall env (headlessChain question (stream_self self)).

(** The entry state before the loop. *)
Definition entry_state (chat_id : UUID) (question : ChatQuestion)
    (self : HeadlessQA) : GetChatHistoryOutput :=
  streamed_output chat_id question (stream_self self).

(** The frame of the loop body for [token]: the entry state with its
    assistant field set to [token], encoded and prefixed. *)
Definition frame (chat_id : UUID) (question : ChatQuestion)
    (self : HeadlessQA) (token : string) : string :=
  "data: "
  ++ json_dumps env (set_assistant (entry_state chat_id question self) token).

(** The final update of the placeholder entry with [tokens] joined. *)
Definition final_update (chat_id : UUID) (question : ChatQuestion)
    (self : HeadlessQA) (tokens : list string) : Event :=
  EvUpdateMessageById (o_message_id (entry_state chat_id question self))
    (Models.question question) (String.concat "" tokens).

(** The exception a finished task holds after [wrap_done]: none, unless the
    call raised outside [Exception]. *)
Definition task_exception (fn_outcome : Result unit) : option Exc :=
  match fn_outcome with
  | Return _ => None
  | Raise e => if isinstance_Exception e then None else Some e
  end.

(** What [wrap_done] logs. *)
Definition caught_log (fn_outcome : Result unit) : list string :=
  match fn_outcome with
  | Return _ => []
  | Raise e =>
      if isinstance_Exception e
      then ["Caught exception: " ++ exc_detail e]
      else []
  end.

(** A state is reachable when some schedule leads to it from the start of
    the request. *)
Definition reachable (chat_id : UUID) (question : ChatQuestion)
    (self : HeadlessQA) (s : State) : Prop :=
  exists sched, run chat_id question sched (initial self) = Some s.

End WithEnv.

End QAHeadless.

(** ** The invariant of a streaming request *)

Module StreamInvariant.
Import Py Models QAHeadless.

Section Request.

Variable env : Env.
Variable chat_id : UUID.
Variable question : ChatQuestion.
Variable self0 : HeadlessQA.

(** What holds in every state a request can reach: how the variables of
    the generator, the handler and the task relate to the effects so far
    and to what the completion call does. *)
Record Inv (s : State) : Prop := mkInv {
  inv_start : pc s = Start -> s = initial self0;
  inv_self : pc s <> Start -> self_ s = stream_self env self0;
  inv_streamed :
    pc s <> Start ->
    streamed_chat_history s
    = Some (set_assistant (entry_state env chat_id question self0)
              (last (response_tokens s) ""));
  inv_prefix :
    pc s <> Start ->
    exists tr,
      trace s
      = EvCreateTask (headlessChain env question (stream_self env self0))
          :: EvUpdateChatHistory
               (placeholder env chat_id question (stream_self env self0))
          :: tr
      /\ created_entries tr = [];
  inv_yielded :
    yielded (trace s)
    = map (frame env chat_id question self0) (response_tokens s);
  inv_logged : logged_tokens (trace s) = response_tokens s;
  inv_queued : queued_tokens (trace s) = (response_tokens s ++ queue s)%list;
  inv_final :
    final_updates (trace s)
    = match pc s with
      | Finished =>
          [(o_message_id (entry_state env chat_id question self0),
            Models.question question,
            String.concat "" (response_tokens s))]
      | _ => []
      end;
  inv_task :
    match run_task s with
    | NotCreated => pc s = Start
    | Running todo =>
        (queued_tokens (trace s) ++ produced_tokens todo)%list
        = produced_tokens (completion env question self0)
        /\ outcome todo = outcome (completion env question self0)
        /\ (done s = true -> produced_tokens todo = [])
        /\ (done s = true -> In EvDoneSet (trace s))
        /\ logged_errors (trace s) = []
        /\ existsb is_task_finished (trace s) = false
    | TaskDone r =>
        queued_tokens (trace s)
        = produced_tokens (completion env question self0)
        /\ done s = true
        /\ r = task_exception (outcome (completion env question self0))
        /\ logged_errors (trace s)
           = caught_log (outcome (completion env question self0))
        /\ In (EvTaskFinished r) (trace s)
        /\ In EvDoneSet (trace s)
    end;
  inv_after_loop :
    match pc s with
    | AwaitRun | Finished | Crashed _ => queue s = [] /\ done s = true
    | _ => True
    end;
  inv_finished :
    pc s = Finished ->
    run_task s = TaskDone None
    /\ exists tr',
         trace s
         = (tr' ++ [final_update env chat_id question self0
                      (response_tokens s)])%list
         /\ final_updates tr' = []
         /\ In (EvTaskFinished None) tr';
  inv_crashed : forall e, pc s = Crashed e -> run_task s = TaskDone (Some e)
}.

(** The steps the background task has left. *)
Definition task_steps_left (t : TaskState) : nat :=
  match t with
  | Running todo =>
      length (produced_tokens todo) + (if signals_end todo then 1 else 0) + 1
  | _ => 0
  end.

Definition tokens_to_come (t : TaskState) : nat :=
  match t with
  | Running todo => length (produced_tokens todo)
  | _ => 0
  end.

(** The steps the generator and the task have left together. *)
Definition steps_left (s : State) : nat :=
  match pc s with
  | Start =>
      1 + task_steps_left (Running (completion env question self0))
      + length (produced_tokens (completion env question self0)) + 2
  | Loop =>
      task_steps_left (run_task s)
      + tokens_to_come (run_task s) + length (queue s) + 2
  | AwaitRun => task_steps_left (run_task s) + 1
  | _ => task_steps_left (run_task s)
  end.

(** The request is over: the final update is made, or the generator ended
    with the exception of the task. *)
Definition over (s : State) : Prop :=
  pc s = Finished \/ exists e, pc s = Crashed e.

End Request.

End StreamInvariant.

(** ** routes/chat_routes.py *)

Module ChatRoutes.
Import Py Models.

(** The fields of a brain the handlers fall back on. *)
Record Brain : Type := mkBrain {
  brain_model : option string;
  brain_temperature : option float;
  brain_max_tokens : option Z
}.

(** The keyword arguments of [chat_instance.get_answer_generator]. *)
Record GeneratorArgs : Type := mkGeneratorArgs {
  arg_chat_id : string;
  arg_model : option string;
  arg_max_tokens : option Z;
  arg_temperature : option float;
  arg_brain_id : string;
  arg_streaming : bool;
  arg_prompt_id : option UUID;
  arg_user_id : UUID
}.

(** The answer generator, [HeadlessQA | QABaseBrainPicking], through the
    method the first handler calls on it. *)
Record Generator : Type := mkGenerator {
  generate_answer : UUID -> ChatQuestion -> Result GetChatHistoryOutput
}.

(** What [get_chat_strategy(brain_id)] returns: the two-method interface
    of the strategies. *)
Record ChatStrategy : Type := mkChatStrategy {
  validate_authorization : UUID -> option UUID -> Result unit;
  get_answer_generator : GeneratorArgs -> Result Generator
}.

(** The async generator [gpt_answer_generator.generate_stream(chat_id,
    chat_question)], not yet started, of the generator built with
    [stream_args]. *)
Record StreamCall : Type := mkStreamCall {
  stream_args : GeneratorArgs;
  stream_chat_id : UUID;
  stream_question : ChatQuestion
}.

Record StreamingResponse : Type := mkStreamingResponse {
  body : StreamCall;
  media_type : string
}.

Record Env : Type := mkEnv {
  get_chat_strategy : option UUID -> ChatStrategy;
  surroundings : Utils.Surroundings;
  get_brain_by_id : UUID -> option Brain;
  UUID_str : UUID -> string
}.

(** The calls a handler makes on its collaborators, in order. *)
Inductive Call : Type :=
| CallValidateAuthorization (user_id : UUID) (brain_id : option UUID)
| CallGetBrainById (brain_id : UUID)
| CallCheckUserRequestsLimit (user : UserIdentity)
| CallGetAnswerGenerator (args : GeneratorArgs)
| CallGenerateAnswer (chat_id : UUID) (q : ChatQuestion)
| CallGenerateStream (chat_id : UUID) (q : ChatQuestion)
| CallLogInfo (msg : string).

Record Fallbacks : Type := mkFallbacks {
  fallback_model : string;
  fallback_temperature : float;
  fallback_max_tokens : Z
}.

(** [x or d] where [d] is a plain value. *)
Definition or_val {A : Type} (truthy : option A -> bool) (x : option A) (d : A)
  : A :=
  match x with
  | Some a => if truthy x then a else d
  | None => d
  end.

(** [str(brain_id)] for [brain_id : UUID | None]. *)
Definition str_brain_id (env : Env) (brain_id : option UUID) : string :=
  match brain_id with
  | Some b => UUID_str env b
  | None => "None"
  end.

(** The inner [if brain_id: brain = get_brain_by_id(brain_id); if brain: ...]
    of both handlers. *)
Definition brain_fallbacks (env : Env) (brain_id : option UUID)
    (defaults : Fallbacks) : Fallbacks * list Call :=
  match brain_id with
  | Some b =>
      match get_brain_by_id env b with
      | Some brain =>
          (mkFallbacks
             (or_val truthy_str (brain_model brain) (fallback_model defaults))
             (or_val truthy_float (brain_temperature brain)
                (fallback_temperature defaults))
             (or_val truthy_int (brain_max_tokens brain)
                (fallback_max_tokens defaults)),
           [CallGetBrainById b])
      | None => (defaults, [CallGetBrainById b])
      end
  | None => (defaults, [])
  end.

(** The three assignments [chat_question.x = chat_question.x or fallback_x]. *)
Definition fill_question (q : ChatQuestion) (fb : Fallbacks) : ChatQuestion :=
  mkChatQuestion (question q)
    (Some (or_val truthy_str (q_model q) (fallback_model fb)))
    (Some (or_val truthy_float (q_temperature q) (fallback_temperature fb)))
    (Some (or_val truthy_int (q_max_tokens q) (fallback_max_tokens fb)))
    (q_prompt_id q).

Definition allowed_models (user_settings : UserSettings) : list string :=
  dict_get (settings_models user_settings) ["gpt-3.5-turbo"].

(** [chat_question.model if is_model_ok else "gpt-3.5-turbo"] *)
Definition model_argument (user_settings : UserSettings) (q : ChatQuestion)
  : option string :=
  let is_model_ok := in_ (q_model q) (allowed_models user_settings) in
  if is_model_ok then q_model q else Some "gpt-3.5-turbo".

(** [create_question_handler] *)
Definition create_question_handler (env : Env) (chat_question : ChatQuestion)
    (chat_id : UUID) (brain_id : option UUID) (current_user : UserIdentity)
    (w : Utils.World)
  : Result GetChatHistoryOutput * Utils.World * list Call :=
  let chat_instance := get_chat_strategy env brain_id in
  let calls := [CallValidateAuthorization (user_id current_user) brain_id] in
  match validate_authorization chat_instance (user_id current_user) brain_id with
  | Raise e => (Raise e, w, calls)
  | Return _ =>
      let defaults := mkFallbacks "gpt-3.5-turbo" 0.1%float 512%Z in
      let user_settings :=
        Utils.get_user_settings (surroundings env) current_user in
      let '(chat_question, calls) :=
        if negb (truthy_str (q_model chat_question))
           || negb (truthy_float (q_temperature chat_question))
           || negb (truthy_int (q_max_tokens chat_question))
        then
          let '(fb, looked_up) := brain_fallbacks env brain_id defaults in
          (fill_question chat_question fb, (calls ++ looked_up)%list)
        else (chat_question, calls) in
      let calls := (calls ++ [CallCheckUserRequestsLimit current_user])%list in
      match Utils.check_user_requests_limit (surroundings env) current_user w with
      | (Raise e, w) => (Raise e, w, calls)
      | (Return _, w) =>
          let args :=
            mkGeneratorArgs (UUID_str env chat_id)
              (model_argument user_settings chat_question)
              (q_max_tokens chat_question) (q_temperature chat_question)
              (str_brain_id env brain_id) false (q_prompt_id chat_question)
              (user_id current_user) in
          let calls := (calls ++ [CallGetAnswerGenerator args])%list in
          match get_answer_generator chat_instance args with
          | Raise e => (Raise e, w, calls)
          | Return gpt_answer_generator =>
              (generate_answer gpt_answer_generator chat_id chat_question, w,
               (calls ++ [CallGenerateAnswer chat_id chat_question])%list)
          end
      end
  end.

(** [f"{chat_question.model}"] *)
Definition fmt_model (m : option string) : string :=
  match m with
  | Some s => s
  | None => "None"
  end.

(** [create_stream_question_handler] *)
Definition create_stream_question_handler (env : Env)
    (chat_question : ChatQuestion) (chat_id : UUID) (brain_id : option UUID)
    (current_user : UserIdentity) (w : Utils.World)
  : Result StreamingResponse * Utils.World * list Call :=
  let chat_instance := get_chat_strategy env brain_id in
  let calls := [CallValidateAuthorization (user_id current_user) brain_id] in
  match validate_authorization chat_instance (user_id current_user) brain_id with
  | Raise e => (Raise e, w, calls)
  | Return _ =>
      let user_settings :=
        Utils.get_user_settings (surroundings env) current_user in
      let '(chat_question, calls) :=
        if negb (truthy_str (q_model chat_question))
           || match q_temperature chat_question with
              | None => true
              | Some _ => false
              end
           || negb (truthy_int (q_max_tokens chat_question))
        then
          let defaults := mkFallbacks "gpt-3.5-turbo" 0%float 256%Z in
          let '(fb, looked_up) := brain_fallbacks env brain_id defaults in
          (fill_question chat_question fb, (calls ++ looked_up)%list)
        else (chat_question, calls) in
      let calls :=
        (calls ++ [CallLogInfo ("Streaming request for "
                                ++ fmt_model (q_model chat_question))%string;
                   CallLogInfo "PASSSSSSS"])%list in
      let args :=
        mkGeneratorArgs (UUID_str env chat_id)
          (model_argument user_settings chat_question)
          (q_max_tokens chat_question) (q_temperature chat_question)
          (str_brain_id env brain_id) true (q_prompt_id chat_question)
          (user_id current_user) in
      let calls := (calls ++ [CallGetAnswerGenerator args])%list in
      match get_answer_generator chat_instance args with
      | Raise e => (Raise e, w, calls)
      | Return gpt_answer_generator =>
          (Return (mkStreamingResponse (mkStreamCall args chat_id chat_question)
                     "text/event-stream"),
           w, (calls ++ [CallGenerateStream chat_id chat_question])%list)
      end
  end.

(** Whether a handler got as far as asking for an answer generator. *)
Definition generator_invoked (calls : list Call) : bool :=
  existsb
    (fun c =>
       match c with
       | CallGetAnswerGenerator _ | CallGenerateAnswer _ _
       | CallGenerateStream _ _ => true
       | _ => false
       end) calls.

(** The [model] argument of each [get_answer_generator] call. *)
Definition generator_models (calls : list Call) : list (option string) :=
  flat_map
    (fun c =>
       match c with
       | CallGetAnswerGenerator args => [arg_model args]
       | _ => []
       end) calls.

(** An HTTP 400 or 429 error. *)
Definition is_400_or_429 {A : Type} (r : Result A) : bool :=
  match Utils.http_status r with
  | Some code => Z.eqb code 400 || Z.eqb code 429
  | None => false
  end.

End ChatRoutes.

(** ** Concrete collaborators

    One instance of each collaborator, on which the embedded functions can
    be run. *)

Module Demo.
Import Py Models.

Definition hex_digit (c : Ascii.ascii) : option N :=
  let n := Ascii.N_of_ascii c in
  if (48 <=? n)%N && (n <=? 57)%N then Some (n - 48)%N
  else if (97 <=? n)%N && (n <=? 102)%N then Some (n - 87)%N
  else if (65 <=? n)%N && (n <=? 70)%N then Some (n - 55)%N
  else None.

Fixpoint parse_hex (s : string) (acc : N) : option N :=
  match s with
  | EmptyString => Some acc
  | String c rest =>
      match hex_digit c with
      | Some d => parse_hex rest (16 * acc + d)%N
      | None => None
      end
  end.

Fixpoint drop_dashes (s : string) : string :=
  match s with
  | EmptyString => EmptyString
  | String c rest =>
      if Ascii.eqb c "-"%char then drop_dashes rest
      else String c (drop_dashes rest)
  end.

(** A constructor of identifiers in the manner of [uuid.UUID]: thirty-two
    hexadecimal digits once the dashes are gone, [ValueError] otherwise. *)
Definition UUID_of_hex (v : string) : Result UUID :=
  let hex := drop_dashes v in
  if Nat.eqb (String.length hex) 32
  then
    match parse_hex hex 0 with
    | Some n => Return (mkUUID n)
    | None => Raise (mkExc ValueError "invalid literal for int() with base 16")
    end
  else Raise (mkExc ValueError "badly formed hexadecimal UUID string").

Definition some_uuid : string := "123e4567-e89b-12d3-a456-426614174000".

Definition alice : UserIdentity :=
  mkUserIdentity (mkUUID 7) (Some "alice@example.org").

Definition chat_42 : UUID := mkUUID 42.

(** A repository that stores every turn as message [msg-1]. *)
Definition persist (c : CreateChatHistory) : ChatHistory :=
  mkChatHistory "chat-42" "msg-1" (c_user_message c) (c_assistant c)
    "2023-11-01 10:00:00".

(** An encoder that shows three fields of the entry state. *)
Definition encode (o : GetChatHistoryOutput) : string :=
  "{message_id: " ++ o_message_id o
  ++ ", message_time: " ++ o_message_time o
  ++ ", assistant: " ++ o_assistant o ++ "}".

(** The collaborators of the generator around a completion call that does
    [c]: no stored prompt, no prior history. *)
Definition headless_env (c : QAHeadless.Completion) : QAHeadless.Env :=
  QAHeadless.mkEnv
    (fun _ => None) (fun _ => None) (fun _ => []) (fun _ => [])
    (fun _ prompt q =>
       [QAHeadless.mkMessage "system" prompt; QAHeadless.mkMessage "user" q])
    (fun _ _ => Return "Hello") (fun _ => c) persist encode
    (fun _ => "0000002a") 0.

(** A completion of two tokens that ends well, the end being signalled on
    the handler first. *)
Definition hello : QAHeadless.Completion :=
  QAHeadless.mkCompletion ["Hel"; "lo"] true (Return tt).

(** A completion that fails after three tokens. *)
Definition failing : QAHeadless.Completion :=
  QAHeadless.mkCompletion ["Hel"; "lo"; "!"] true
    (Raise (mkExc (OtherException "APIError") "rate limit reached")).

Definition qa : QAHeadless.HeadlessQA :=
  QAHeadless.mkHeadlessQA "gpt-3.5-turbo" 0.7%float 256 true "chat-42"
    None None.

Definition hi : ChatQuestion :=
  mkChatQuestion "Hi?" (Some "gpt-3.5-turbo") (Some 0.7%float) (Some 256%Z)
    None.

(** The generator and the task taking turns over [hello]. *)
Definition interleaved : list QAHeadless.Action :=
  [QAHeadless.RunGenerator; QAHeadless.RunTask; QAHeadless.RunGenerator;
   QAHeadless.RunTask; QAHeadless.RunTask; QAHeadless.RunGenerator;
   QAHeadless.RunGenerator; QAHeadless.RunTask; QAHeadless.RunGenerator].

(** The generator and the task taking turns over [failing]. *)
Definition interleaved_failing : list QAHeadless.Action :=
  [QAHeadless.RunGenerator; QAHeadless.RunTask; QAHeadless.RunTask;
   QAHeadless.RunGenerator; QAHeadless.RunTask; QAHeadless.RunTask;
   QAHeadless.RunGenerator; QAHeadless.RunGenerator; QAHeadless.RunGenerator;
   QAHeadless.RunTask; QAHeadless.RunGenerator].

(** The state a run of the event loop ends in; the initial state when the
    schedule cannot be followed. *)
Definition final_state (c : QAHeadless.Completion)
    (sched : list QAHeadless.Action) : QAHeadless.State :=
  match QAHeadless.run (headless_env c) chat_42 hi sched (QAHeadless.initial qa)
  with
  | Some s => s
  | None => QAHeadless.initial qa
  end.

(** The answer of the generators of [open_strategy]. *)
Definition canned_answer : GetChatHistoryOutput :=
  mkGetChatHistoryOutput (IdUUID chat_42) "msg-1" "2023-11-01 10:00:00"
    "Hi?" "Hello" None None.

(** A strategy that authorizes everybody and answers [canned_answer]. *)
Definition open_strategy : ChatRoutes.ChatStrategy :=
  ChatRoutes.mkChatStrategy
    (fun _ _ => Return tt)
    (fun _ => Return (ChatRoutes.mkGenerator (fun _ _ => Return canned_answer))).

(** A user who is allowed the default model only. *)
Definition default_only : UserSettings :=
  mkUserSettings (Some ["gpt-3.5-turbo"]) (Some 0%Z).

Definition routes_env : ChatRoutes.Env :=
  ChatRoutes.mkEnv (fun _ => open_strategy)
    (Utils.mkSurroundings (fun _ => default_only) "20231101")
    (fun _ => None) (fun _ => "0000002a").

(** A question that names a model the user is not allowed. *)
Definition gpt4_question : ChatQuestion :=
  mkChatQuestion "Hi?" (Some "gpt-4") (Some 0.7%float) (Some 256%Z) None.

Definition empty_world : Utils.World := Utils.mkWorld [] [].

End Demo.

(** ** routes/chat/utils.py: deleting a chat *)

Module ChatDeletion.
Import Py Models.

(** The two methods of [SupabaseDB] the function calls, over a store [S]:
    each returns or raises, and leaves the store in some state. *)
Record SupabaseDB (S : Type) : Type := mkSupabaseDB {
  delete_chat_history : UUID -> S -> Result unit * S;
  delete_chat : UUID -> S -> Result unit * S
}.

(** The store and what has been printed. *)
Record DeletionWorld (S : Type) : Type := mkDeletionWorld {
  store : S;
  printed : list string
}.

(** [try: call except Exception as e: print(e); pass]: the outcome of the
    statement and the world after it. *)
Definition try_print {S : Type} (call : S -> Result unit * S)
    (w : DeletionWorld S) : Result unit * DeletionWorld S :=
  match call (store w) with
  | (Return _, st) => (Return tt, mkDeletionWorld st (printed w))
  | (Raise e, st) =>
      if isinstance_Exception e
      then (Return tt, mkDeletionWorld st (printed w ++ [exc_detail e]))
      else (Raise e, mkDeletionWorld st (printed w))
  end.

(** [delete_chat_from_db(supabase_db, chat_id)] *)
Definition delete_chat_from_db {S : Type} (supabase_db : SupabaseDB S)
    (chat_id : UUID) (w : DeletionWorld S) : Result unit * DeletionWorld S :=
  match try_print (delete_chat_history supabase_db chat_id) w with
  | (Raise e, w) => (Raise e, w)
  | (Return _, w) => try_print (delete_chat supabase_db chat_id) w
  end.

(** What a call printed when it raised an [Exception]. *)
Definition printed_by {S : Type} (r : Result unit * S) : list string :=
  match fst r with
  | Return _ => []
  | Raise e => [exc_detail e]
  end.

(** The call did not end in an exception outside [Exception]. *)
Definition no_base_exception {S : Type} (r : Result unit * S) : Prop :=
  match fst r with
  | Return _ => True
  | Raise e => isinstance_Exception e = true
  end.

End ChatDeletion.

(** ** routes/chat_routes.py: chat metadata, and readings of the calls *)

Module ChatMetadata.
Import Py Models ChatRoutes.

(** [Chat]: the fields the handler reads. *)
Record Chat : Type := mkChat {
  chat_user_id : string;
  chat_name : string
}.

(** [ChatUpdatableProperties] *)
Record ChatUpdatableProperties : Type := mkChatUpdatableProperties {
  upd_chat_name : option string
}.

Record MetadataEnv : Type := mkMetadataEnv {
  get_chat_by_id : UUID -> Chat;
  update_chat : UUID -> ChatUpdatableProperties -> Result Chat;
  str_UUID : UUID -> string
}.

Inductive MetadataCall : Type :=
| CallGetChatById (chat_id : UUID)
| CallUpdateChat (chat_id : UUID) (chat_data : ChatUpdatableProperties).

(** [update_chat_metadata_handler] *)
Definition update_chat_metadata_handler (env : MetadataEnv)
    (chat_data : ChatUpdatableProperties) (chat_id : UUID)
    (current_user : UserIdentity) : Result Chat * list MetadataCall :=
  let chat := get_chat_by_id env chat_id in
  if negb (String.eqb (str_UUID env (user_id current_user)) (chat_user_id chat))
  then
    (Raise (mkExc (HTTPException 403)
              "You should be the owner of the chat to update it."),
     [CallGetChatById chat_id])
  else
    (update_chat env chat_id chat_data,
     [CallGetChatById chat_id; CallUpdateChat chat_id chat_data]).

(** The arguments of each [get_answer_generator] call. *)
Definition generator_args (calls : list Call) : list GeneratorArgs :=
  flat_map
    (fun c =>
       match c with
       | CallGetAnswerGenerator args => [args]
       | _ => []
       end) calls.

(** The brains looked up for fallback values. *)
Definition brain_lookups (calls : list Call) : list UUID :=
  flat_map
    (fun c =>
       match c with
       | CallGetBrainById b => [b]
       | _ => []
       end) calls.

(** The question has the three values the handlers fall back for, by the
    test of the first handler ([not x]) and by that of the second
    ([temperature is None]). *)
Definition complete (q : ChatQuestion) : bool :=
  truthy_str (q_model q) && truthy_float (q_temperature q)
  && truthy_int (q_max_tokens q).

Definition complete_for_stream (q : ChatQuestion) : bool :=
  truthy_str (q_model q)
  && match q_temperature q with Some _ => true | None => false end
  && truthy_int (q_max_tokens q).

(** The fallback values each handler starts from. *)
Definition question_defaults : Fallbacks :=
  mkFallbacks "gpt-3.5-turbo" 0.1%float 512%Z.

Definition stream_defaults : Fallbacks :=
  mkFallbacks "gpt-3.5-turbo" 0%float 256%Z.

(** The question a handler goes on with, and the brain it has looked up
    for that: the question itself when it is complete, else the question
    filled from the fallback values. *)
Definition prepared (env : Env) (defaults : Fallbacks) (is_complete : bool)
    (q : ChatQuestion) (brain_id : option UUID) : ChatQuestion * list Call :=
  if is_complete then (q, [])
  else
    (fill_question q (fst (brain_fallbacks env brain_id defaults)),
     snd (brain_fallbacks env brain_id defaults)).

(** The arguments a handler asks the answer generator with, for the
    question [q] it goes on with. *)
Definition arguments_for (env : Env) (q : ChatQuestion) (chat_id : UUID)
    (brain_id : option UUID) (current_user : UserIdentity) (streaming : bool)
  : GeneratorArgs :=
  mkGeneratorArgs (UUID_str env chat_id)
    (model_argument
       (Utils.get_user_settings (surroundings env) current_user) q)
    (q_max_tokens q) (q_temperature q) (str_brain_id env brain_id) streaming
    (q_prompt_id q) (user_id current_user).

(** The users [check_user_requests_limit] was called for. *)
Definition limit_checks (calls : list Call) : list UserIdentity :=
  flat_map
    (fun c =>
       match c with
       | CallCheckUserRequestsLimit user => [user]
       | _ => []
       end) calls.

End ChatMetadata.

(** ** llm/qa_headless.py: what a request reads of its instance *)

Module InstanceFields.
Import Py Models QAHeadless.

(** Two instances with the same [model], [chat_id] and [prompt_id]. *)
Definition same_request (a b : HeadlessQA) : Prop :=
  model a = model b /\ chat_id a = chat_id b /\ prompt_id a = prompt_id b.

(** Two states of a request that differ in the instance at most, the two
    instances being the same request. *)
Definition same_but_instance (s1 s2 : State) : Prop :=
  pc s1 = pc s2
  /\ same_request (self_ s1) (self_ s2)
  /\ run_task s1 = run_task s2
  /\ queue s1 = queue s2
  /\ done s1 = done s2
  /\ response_tokens s1 = response_tokens s2
  /\ streamed_chat_history s1 = streamed_chat_history s2
  /\ trace s1 = trace s2.

(** Both runs are impossible, or both end in states that differ in the
    instance at most. *)
Definition same_outcome (r1 r2 : option State) : Prop :=
  match r1, r2 with
  | Some s1, Some s2 => same_but_instance s1 s2
  | None, None => True
  | _, _ => False
  end.

End InstanceFields.

(** ** routes/brain_routes.py *)

Module BrainRoutes.
Import Py Models.

Inductive RoleEnum : Type := Owner | Editor | Viewer.

(** A secret of a brain definition. *)
Record Secret : Type := mkSecret { secret_name : string }.

Record BrainDefinition : Type := mkBrainDefinition {
  definition_secrets : option (list Secret)
}.

(** What [get_brain_details] returns: the fields the handlers read. *)
Record BrainDetails : Type := mkBrainDetails {
  details_prompt_id : option UUID;
  details_status : option string;
  details_brain_definition : option BrainDefinition
}.

(** [BrainUpdatableProperties]: the fields the handler reads. *)
Record BrainUpdatableProperties : Type := mkBrainUpdatableProperties {
  update_prompt_id : option UUID;
  update_status : option string
}.

(** [CreateBrainProperties]: the field the handler reads. *)
Record CreateBrainProperties : Type := mkCreateBrainProperties {
  brain_name : string
}.

(** A stored prompt: the field the handler reads. *)
Record StoredPrompt : Type := mkStoredPrompt { prompt_status : string }.

(** The dictionary a handler returns. *)
Inductive Response : Type :=
| Message (message : string)
| BrainCreated (id : UUID) (name : string) (rights : string).

Record Env : Type := mkEnv {
  get_brain_details : UUID -> option BrainDetails;
  get_brain_for_user : UUID -> UUID -> bool;
  get_prompt_by_id : UUID -> option StoredPrompt;
  get_user_brains : UUID -> list UUID;
  settings_max_brains : UserIdentity -> option Z;
  create_brain : CreateBrainProperties -> UUID -> UUID;
  get_user_default_brain : UUID -> option UUID;
  UUID_str : UUID -> string
}.

(** The writes a handler makes, in order. *)
Inductive Write : Type :=
| UpdateBrainById (brain_id : UUID) (data : BrainUpdatableProperties)
| DeletePromptById (prompt_id : UUID)
| DeleteBrainUsers (brain_id : UUID)
| UpdateSecretValue (user_id brain_id : UUID) (secret_name secret_value : string)
| CreateBrain (brain : CreateBrainProperties) (user_id : UUID)
| CreateBrainUser (user_id brain_id : UUID) (rights : RoleEnum)
    (is_default_brain : bool).

Definition http_error {A : Type} (status : Z) (detail : string) : Result A :=
  Raise (mkExc (HTTPException status) detail).

(** [str(n)] for an integer. *)
Definition str_int (n : Z) : string :=
  NilZero.string_of_int (Z.to_int n).

(** [create_new_brain] *)
Definition create_new_brain (env : Env) (brain : CreateBrainProperties)
    (current_user : UserIdentity) : Result Response * list Write :=
  let user_brains := get_user_brains env (user_id current_user) in
  let max_brains := dict_get (settings_max_brains env current_user) 5%Z in
  if (Z.of_nat (length user_brains) >=? max_brains)%Z
  then
    (http_error 429
       ("Maximum number of brains reached (" ++ str_int max_brains ++ ")."),
     [])
  else
    let new_brain := create_brain env brain (user_id current_user) in
    let is_default_brain :=
      match get_user_default_brain env (user_id current_user) with
      | Some _ => false
      | None => true
      end in
    (Return (BrainCreated new_brain (brain_name brain) "Owner"),
     [CreateBrain brain (user_id current_user);
      CreateBrainUser (user_id current_user) new_brain Owner
        is_default_brain]).

(** [x == "private"] and the like, on an optional string. *)
Definition is_status (x : option string) (status : string) : bool :=
  match x with
  | Some s => String.eqb s status
  | None => false
  end.

(** [update_existing_brain] *)
Definition update_existing_brain (env : Env) (brain_id : UUID)
    (brain_update_data : BrainUpdatableProperties)
  : Result Response * list Write :=
  match get_brain_details env brain_id with
  | None => (http_error 404 "Brain not found", [])
  | Some existing_brain =>
      let writes := [UpdateBrainById brain_id brain_update_data] in
      let writes :=
        match update_prompt_id brain_update_data,
              details_prompt_id existing_brain with
        | None, Some old_prompt =>
            match get_prompt_by_id env old_prompt with
            | Some prompt =>
                if String.eqb (prompt_status prompt) "private"
                then (writes ++ [DeletePromptById old_prompt])%list
                else writes
            | None => writes
            end
        | _, _ => writes
        end in
      let writes :=
        if is_status (update_status brain_update_data) "private"
           && is_status (details_status existing_brain) "public"
        then (writes ++ [DeleteBrainUsers brain_id])%list
        else writes in
      (Return (Message ("Brain " ++ UUID_str env brain_id
                        ++ " has been updated.")),
       writes)
  end.

(** [key not in secrets_names] *)
Definition not_in (key : string) (secrets_names : list string) : bool :=
  negb (existsb (String.eqb key) secrets_names).

(** The loop [for key, value in secrets.items()], over the items in the
    order of the dictionary: the first key that is no secret of the brain
    ends it with an error, the values before it being updated already. *)
Fixpoint update_secrets (secrets_names : list string) (user brain : UUID)
    (items : list (string * string)) : Result unit * list Write :=
  match items with
  | [] => (Return tt, [])
  | (key, value) :: rest =>
      if not_in key secrets_names
      then
        (http_error 400 ("Secret " ++ key ++ " is not a valid secret."), [])
      else
        let updated :=
          if negb (String.eqb value "")
          then [UpdateSecretValue user brain key value]
          else [] in
        let '(r, more) := update_secrets secrets_names user brain rest in
        (r, (updated ++ more)%list)
  end.

(** [update_existing_brain_secrets] *)
Definition update_existing_brain_secrets (env : Env) (brain_id : UUID)
    (secrets : list (string * string)) (current_user : UserIdentity)
  : Result Response * list Write :=
  match get_brain_details env brain_id with
  | None => (http_error 404 "Brain not found", [])
  | Some existing_brain =>
      match details_brain_definition existing_brain with
      | None => (http_error 400 "This brain does not support secrets.", [])
      | Some definition =>
          match definition_secrets definition with
          | None =>
              (http_error 400 "This brain does not support secrets.", [])
          | Some brain_secrets =>
              let is_brain_user :=
                get_brain_for_user env (user_id current_user) brain_id in
              if negb is_brain_user
              then
                (http_error 403
                   "You are not authorized to update this brain.", [])
              else
                let secrets_names := map secret_name brain_secrets in
                match update_secrets secrets_names (user_id current_user)
                        brain_id secrets with
                | (Raise e, writes) => (Raise e, writes)
                | (Return _, writes) =>
                    (Return (Message ("Brain " ++ UUID_str env brain_id
                                      ++ " has been updated.")),
                     writes)
                end
          end
      end
  end.

(** The secret values a request asks to set: the items with a value that
    is not empty. *)
Definition updates_of (user brain : UUID) (items : list (string * string))
  : list Write :=
  flat_map
    (fun kv =>
       if negb (String.eqb (snd kv) "")
       then [UpdateSecretValue user brain (fst kv) (snd kv)]
       else []) items.

End BrainRoutes.

(** ** Further concrete collaborators *)

Module DemoMore.
Import Py Models.

(** A completion call that is cancelled after one token. *)
Definition cancelled : QAHeadless.Completion :=
  QAHeadless.mkCompletion ["Hel"] false
    (Raise (mkExc (BaseExceptionOnly "CancelledError") "")).

(** The generator and the task over [cancelled]. *)
Definition until_cancelled : list QAHeadless.Action :=
  [QAHeadless.RunGenerator; QAHeadless.RunTask; QAHeadless.RunGenerator;
   QAHeadless.RunTask; QAHeadless.RunGenerator; QAHeadless.RunGenerator].

(** The consumer goes away after the first frame of [Demo.hello]. *)
Definition until_disconnect : list QAHeadless.Action :=
  [QAHeadless.RunGenerator; QAHeadless.RunTask; QAHeadless.RunGenerator;
   QAHeadless.Disconnect].

(** The background task goes on to its end. *)
Definition task_goes_on : list QAHeadless.Action :=
  [QAHeadless.RunTask; QAHeadless.RunTask; QAHeadless.RunTask].

(** The instance of [Demo.qa] with other values in the fields a request
    does not read. *)
Definition other_qa : QAHeadless.HeadlessQA :=
  QAHeadless.mkHeadlessQA "gpt-3.5-turbo" 1.5%float 1 false "chat-42"
    (Some [5; 6]) None.

(** A question that names nothing but its text. *)
Definition bare_question : ChatQuestion :=
  mkChatQuestion "Hi?" None None None None.

(** A question with a temperature of zero. *)
Definition cold_question : ChatQuestion :=
  mkChatQuestion "Hi?" (Some "gpt-3.5-turbo") (Some 0%float) (Some 256%Z)
    None.

(** The surroundings of a user whose settings have no key at all. *)
Definition bare_env : ChatRoutes.Env :=
  ChatRoutes.mkEnv (fun _ => Demo.open_strategy)
    (Utils.mkSurroundings (fun _ => mkUserSettings None None) "20231101")
    (fun _ => None) (fun _ => "0000002a").

(** A strategy that authorizes nobody. *)
Definition closed_strategy : ChatRoutes.ChatStrategy :=
  ChatRoutes.mkChatStrategy
    (fun _ _ => Raise (mkExc (HTTPException 403) "Forbidden"))
    (fun _ =>
       Return (ChatRoutes.mkGenerator (fun _ _ => Return Demo.canned_answer))).

Definition closed_env : ChatRoutes.Env :=
  ChatRoutes.mkEnv (fun _ => closed_strategy)
    (Utils.mkSurroundings (fun _ => Demo.default_only) "20231101")
    (fun _ => None) (fun _ => "0000002a").

(** A store of rows by name, in which the history table cannot be
    reached: deleting the history raises, deleting the chat works. *)
Definition flaky_db : ChatDeletion.SupabaseDB (list string) :=
  ChatDeletion.mkSupabaseDB
    (fun _ st => (Raise (mkExc (OtherException "APIError") "history: timeout"),
                  st))
    (fun _ st => (Return tt, filter (fun row => negb (String.eqb row "chat-42")) st)).

(** A store in which the first deletion is interrupted. *)
Definition interrupted_db : ChatDeletion.SupabaseDB (list string) :=
  ChatDeletion.mkSupabaseDB
    (fun _ st => (Raise (mkExc (BaseExceptionOnly "KeyboardInterrupt") ""),
                  st))
    (fun _ st => (Return tt, filter (fun row => negb (String.eqb row "chat-42")) st)).

Definition two_rows : ChatDeletion.DeletionWorld (list string) :=
  ChatDeletion.mkDeletionWorld ["chat-42"; "chat-43"] [].

(** Chats that all belong to user [7]. *)
Definition metadata_env : ChatMetadata.MetadataEnv :=
  ChatMetadata.mkMetadataEnv
    (fun _ => ChatMetadata.mkChat "7" "old name")
    (fun _ data =>
       Return (ChatMetadata.mkChat "7"
                 (dict_get (ChatMetadata.upd_chat_name data) "old name")))
    (fun u => NilZero.string_of_uint (N.to_uint (uuid_int u))).

Definition bob : UserIdentity :=
  mkUserIdentity (mkUUID 8) (Some "bob@example.org").

Definition renaming : ChatMetadata.ChatUpdatableProperties :=
  ChatMetadata.mkChatUpdatableProperties (Some "new name").

(** Brains: every brain has the secrets [api_key] and [token], a public
    status and the private prompt [3]; user [7] is a user of every brain
    and owns two brains, nobody else owns or uses any. *)
Definition brain_env : BrainRoutes.Env :=
  BrainRoutes.mkEnv
    (fun _ =>
       Some (BrainRoutes.mkBrainDetails (Some (mkUUID 3)) (Some "public")
               (Some (BrainRoutes.mkBrainDefinition
                        (Some [BrainRoutes.mkSecret "api_key";
                               BrainRoutes.mkSecret "token"])))))
    (fun user _ => N.eqb (uuid_int user) 7)
    (fun _ => Some (BrainRoutes.mkStoredPrompt "private"))
    (fun user => if N.eqb (uuid_int user) 7 then [mkUUID 1; mkUUID 2] else [])
    (fun user => if N.eqb (uuid_int (user_id user)) 7 then Some 2%Z else None)
    (fun _ _ => mkUUID 9)
    (fun user => if N.eqb (uuid_int user) 7 then Some (mkUUID 1) else None)
    (fun _ => "0000002a").

Definition brain_1 : UUID := mkUUID 1.

Definition new_brain : BrainRoutes.CreateBrainProperties :=
  BrainRoutes.mkCreateBrainProperties "notes".

End DemoMore.

(** * Properties *)

(** ** routes/chat/utils.py *)

Module UtilsFacts.
Import Py Models Utils.

Lemma key_eqb_refl (k : UsageKey) : key_eqb k k = true.
Proof.
  unfold key_eqb. now rewrite N.eqb_refl, String.eqb_refl.
Qed.

Lemma requests_count_set (db : UsageDB) (k : UsageKey) (n : Z) :
  requests_count (set_requests_count db k n) k = Some n.
Proof.
  induction db as [|[k' n'] rest IH]; simpl.
  - now rewrite key_eqb_refl.
  - destruct (key_eqb k' k) eqn:E; simpl.
    + now rewrite key_eqb_refl.
    + now rewrite E.
Qed.

Lemma UUID_of_hex_only_ValueError (v : string) (e : Exc) :
  Demo.UUID_of_hex v = Raise e -> isinstance_ValueError e = true.
Proof.
  unfold Demo.UUID_of_hex.
  destruct (Nat.eqb _ 32).
  - destruct (Demo.parse_hex _ 0); intros H; inversion H; reflexivity.
  - intros H; inversion H; reflexivity.
Qed.

(** C8. [NullableUUID.validate] is total on strings: provided the [UUID]
    constructor fails on a string with no other exception than
    [ValueError], every call returns; the result is [None] for the empty
    string, [None] whenever the constructor raises, and the parsed
    identifier whenever the constructor returns one. *)
Theorem validate_total
    (UUID_new : string -> Result UUID)
    (only_ValueError :
       forall v e, UUID_new v = Raise e -> isinstance_ValueError e = true) :
  validate UUID_new "" = Return None
  /\ (forall v e, UUID_new v = Raise e -> validate UUID_new v = Return None)
  /\ (forall v u, v <> "" -> UUID_new v = Return u ->
      validate UUID_new v = Return (Some u))
  /\ (forall v, exists r, validate UUID_new v = Return r).
Proof.
  repeat split.
  - intros v e Hv. unfold validate.
    destruct (String.eqb v ""); [reflexivity|].
    rewrite Hv. now rewrite (only_ValueError _ _ Hv).
  - intros v u Hne Hv. unfold validate.
    destruct (String.eqb_spec v ""); [contradiction|].
    now rewrite Hv.
  - intros v. unfold validate.
    destruct (String.eqb v ""); [eauto|].
    destruct (UUID_new v) as [u|e] eqn:Hv; [eauto|].
    rewrite (only_ValueError _ _ Hv). eauto.
Qed.

Lemma validate_total_witness :
  validate Demo.UUID_of_hex "" = Return None
  /\ validate Demo.UUID_of_hex "not-a-uuid" = Return None
  /\ validate Demo.UUID_of_hex Demo.some_uuid
     = Return (Some (mkUUID 24249434048109030647017182301789831168)).
Proof.
  destruct (validate_total Demo.UUID_of_hex UUID_of_hex_only_ValueError)
    as [Hempty [Hbad [Hgood _]]].
  split; [exact Hempty|]. split.
  - apply (Hbad "not-a-uuid"
             (mkExc ValueError "badly formed hexadecimal UUID string")).
    reflexivity.
  - apply Hgood; [discriminate | reflexivity].
Defined.

(** C10. [check_user_requests_limit] rejects nobody: whatever the stored
    request count and the daily chat credit of the user are, the call
    returns normally (no HTTP error, in particular no 429), and the
    counter of the user for the current date has gone up by one. *)
Theorem check_user_requests_limit_never_rejects
    (env : Surroundings) (user : UserIdentity) (w : World) :
  let today := (uuid_int (user_id user), strftime_Ymd env) in
  fst (check_user_requests_limit env user w) = Return tt
  /\ http_status (fst (check_user_requests_limit env user w)) = None
  /\ requests_count (usage (snd (check_user_requests_limit env user w))) today
     = Some (dict_get (requests_count (usage w) today) 0 + 1)%Z.
Proof.
  simpl. repeat split.
  unfold handle_increment_user_request_count.
  apply requests_count_set.
Qed.

End UtilsFacts.

(** ** llm/qa_headless.py *)

Module StreamFacts.
Import Py Models QAHeadless StreamInvariant.

Section Run.

Variable env : Env.
Variable chat_id : UUID.
Variable question : ChatQuestion.
Variable self0 : HeadlessQA.

Local Abbreviation c0 := (completion env question self0).
Local Abbreviation base := (entry_state env chat_id question self0).
Local Abbreviation self1 := (stream_self env self0).
Local Abbreviation chain := (headlessChain env question self1).
Local Abbreviation ph := (placeholder env chat_id question self1).
Local Abbreviation step' := (step env chat_id question).
Local Abbreviation run' := (run env chat_id question).
Local Abbreviation Inv := (StreamInvariant.Inv env chat_id question self0).
Local Abbreviation steps_left := (StreamInvariant.steps_left env question self0).

Lemma run_snoc (sched : list Action) (a : Action) (s : State) :
  run' (sched ++ [a]) s =
  match run' sched s with
  | Some s' => step' a s'
  | None => None
  end.
Proof.
  revert s. induction sched as [|b sched IH]; intros s; simpl.
  - destruct (step' a s); reflexivity.
  - destruct (step' b s); [apply IH | reflexivity].
Qed.

Lemma run_app (sched1 sched2 : list Action) (s : State) :
  run' (sched1 ++ sched2) s =
  match run' sched1 s with
  | Some s' => run' sched2 s'
  | None => None
  end.
Proof.
  revert s. induction sched1 as [|b sched IH]; intros s; simpl.
  - reflexivity.
  - destruct (step' b s); [apply IH | reflexivity].
Qed.

Lemma inv_initial : Inv (initial self0).
Proof.
  constructor; simpl; try congruence; auto.
Qed.

Lemma yielded_app (a b : list Event) :
  yielded (a ++ b) = (yielded a ++ yielded b)%list.
Proof. apply flat_map_app. Qed.

Lemma logged_tokens_app (a b : list Event) :
  logged_tokens (a ++ b) = (logged_tokens a ++ logged_tokens b)%list.
Proof. apply flat_map_app. Qed.

Lemma queued_tokens_app (a b : list Event) :
  queued_tokens (a ++ b) = (queued_tokens a ++ queued_tokens b)%list.
Proof. apply flat_map_app. Qed.

Lemma created_entries_app (a b : list Event) :
  created_entries (a ++ b) = (created_entries a ++ created_entries b)%list.
Proof. apply flat_map_app. Qed.

Lemma final_updates_app (a b : list Event) :
  final_updates (a ++ b) = (final_updates a ++ final_updates b)%list.
Proof. apply flat_map_app. Qed.

Lemma logged_errors_app (a b : list Event) :
  logged_errors (a ++ b) = (logged_errors a ++ logged_errors b)%list.
Proof. apply flat_map_app. Qed.

Ltac readings :=
  rewrite ?yielded_app, ?logged_tokens_app, ?queued_tokens_app,
    ?created_entries_app, ?final_updates_app, ?logged_errors_app,
    ?existsb_app;
  simpl; rewrite ?app_nil_r, ?orb_false_r.

Lemma inv_prelude : Inv (prelude env chat_id question (initial self0)).
Proof.
  constructor; simpl; try congruence; auto.
  - intros _. eexists. split; reflexivity.
  - repeat split; try reflexivity; discriminate.
Qed.


Lemma set_assistant_twice (o : GetChatHistoryOutput) (a b : string) :
  set_assistant (set_assistant o a) b = set_assistant o b.
Proof. reflexivity. Qed.

Lemma last_snoc (l : list string) (t d : string) : last (l ++ [t]) d = t.
Proof. apply last_last. Qed.

Lemma in_snoc_l (A : Type) (x : A) (l l' : list A) : In x l -> In x (l ++ l').
Proof. intros; apply in_or_app; auto. Qed.

Lemma inv_step_generator (s s' : State) :
  Inv s -> step_generator env chat_id question s = Some s' -> Inv s'.
Proof.
  intros I. unfold step_generator.
  destruct (pc s) eqn:Hpc; try discriminate.
  - (* Start *)
    intros H; inversion H; subst s'; clear H.
    rewrite (inv_start I Hpc). apply inv_prelude.
  - (* Loop *)
    assert (Hne : pc s <> Start) by congruence.
    pose proof (inv_streamed I Hne) as Hst.
    pose proof (inv_self I Hne) as Hself.
    destruct (inv_prefix I Hne) as [tr [Htr Hcr]].
    pose proof (inv_yielded I) as Hy.
    pose proof (inv_logged I) as Hl.
    pose proof (inv_queued I) as Hq.
    pose proof (inv_final I) as Hf.
    pose proof (inv_task I) as Ht.
    rewrite Hpc in Hf.
    unfold aiter_next.
    destruct (queue s) as [|token rest] eqn:Hqueue.
    + destruct (done s) eqn:Hdone; try discriminate.
      intros H; inversion H; subst s'; clear H.
      constructor; simpl; try congruence; eauto.
      rewrite Hdone.
      destruct (run_task s); [congruence | exact Ht | exact Ht].
    + unfold loop_body. simpl. rewrite Hst.
      intros H; inversion H; subst s'; clear H.
      constructor; simpl; try congruence; auto.
      * intros _. now rewrite last_snoc.
      * intros _. exists (tr ++ [EvLogInfo token;
                       EvYield ("data: " ++ json_dumps env
                          (set_assistant (set_assistant base (last (response_tokens s) "")) token))])%list.
        rewrite Htr. split; [reflexivity|]. readings. exact Hcr.
      * readings. rewrite Hy, map_app. reflexivity.
      * readings. now rewrite Hl.
      * readings. rewrite Hq, <- app_assoc. reflexivity.
      * readings. exact Hf.
      * destruct (run_task s) as [|todo|r]; [congruence| |].
        -- destruct Ht as (H1 & H2 & H3 & H4 & H5 & H6).
           readings. repeat split; auto.
           intros Hd. apply in_snoc_l; auto.
        -- destruct Ht as (H1 & H2 & H3 & H4 & H5 & H6).
           readings. repeat split; auto using in_snoc_l.
  - (* AwaitRun *)
    assert (Hne : pc s <> Start) by congruence.
    pose proof (inv_streamed I Hne) as Hst.
    pose proof (inv_self I Hne) as Hself.
    destruct (inv_prefix I Hne) as [tr [Htr Hcr]].
    pose proof (inv_yielded I) as Hy.
    pose proof (inv_logged I) as Hl.
    pose proof (inv_queued I) as Hq.
    pose proof (inv_final I) as Hf.
    pose proof (inv_task I) as Ht.
    pose proof (inv_after_loop I) as Ha.
    rewrite Hpc in Hf, Ha.
    destruct (run_task s) as [|todo|[e|]] eqn:Hrun; try discriminate.
    + intros H; inversion H; subst s'; clear H.
      constructor; simpl; try congruence; eauto.
      rewrite Hrun. exact Ht.
    + unfold finalize. rewrite Hst.
      intros H; inversion H; subst s'; clear H.
      destruct Ht as (H1 & H2 & H3 & H4 & H5 & H6).
      constructor; simpl; try congruence; auto.
      * intros _. exists (tr ++ [EvUpdateMessageById (o_message_id base)
                       (Models.question question)
                       (String.concat "" (response_tokens s))])%list.
        rewrite Htr. split; [reflexivity|]. readings. exact Hcr.
      * readings. exact Hy.
      * readings. exact Hl.
      * readings. exact Hq.
      * readings. rewrite Hf. reflexivity.
      * rewrite Hrun. readings. repeat split; auto using in_snoc_l.
      * intros _. split; [exact Hrun|].
        exists (trace s). repeat split; auto.
Qed.


Lemma inv_step_task (s s' : State) :
  Inv s -> step_task s = Some s' -> Inv s'.
Proof.
  intros I. unfold step_task.
  pose proof (inv_task I) as Ht.
  pose proof (inv_start I) as Hs.
  pose proof (inv_finished I) as Hfin.
  pose proof (inv_crashed I) as Hcra.
  pose proof (inv_after_loop I) as Ha.
  destruct (run_task s) as [|todo|r] eqn:Hrun; try discriminate.
  assert (Hne : pc s <> Start).
  { intros E. rewrite (Hs E) in Hrun. discriminate. }
  pose proof (inv_streamed I Hne) as Hst.
  pose proof (inv_self I Hne) as Hself.
  destruct (inv_prefix I Hne) as [tr [Htr Hcr]].
  pose proof (inv_yielded I) as Hy.
  pose proof (inv_logged I) as Hl.
  pose proof (inv_queued I) as Hq.
  pose proof (inv_final I) as Hf.
  destruct Ht as (H1 & H2 & H3 & H4 & H5 & H6).
  assert (Hnf : pc s <> Finished).
  { intros E. destruct (Hfin E) as [E' _]. discriminate. }
  assert (Hnc : forall e, pc s <> Crashed e).
  { intros e E. specialize (Hcra e E). discriminate. }
  destruct (produced_tokens todo) as [|token rest] eqn:Htodo.
  - destruct (signals_end todo) eqn:Hsig.
    + (* the end of generation is signalled on the handler *)
      intros H; inversion H; subst s'; clear H.
      constructor; simpl; try congruence; eauto.
      * intros _. exists (tr ++ [EvDoneSet])%list. rewrite Htr.
        split; [reflexivity|]. readings. exact Hcr.
      * readings. exact Hy.
      * readings. exact Hl.
      * readings. exact Hq.
      * readings. exact Hf.
      * readings. rewrite app_nil_r in H1. repeat split; auto.
        intros _. apply in_or_app. right. left. reflexivity.
      * destruct (pc s); auto; destruct Ha; auto.
    + (* the call is over: wrap_done *)
      unfold wrap_done.
      intros H; inversion H; subst s'; clear H.
      destruct (outcome todo) as [u|e] eqn:Hout;
        [|destruct (isinstance_Exception e) eqn:Hexc];
        (constructor; simpl; try congruence; eauto;
         [ intros _; eexists; rewrite Htr; simpl; split; [reflexivity|];
           readings; exact Hcr
         | readings; exact Hy
         | readings; exact Hl
         | readings; exact Hq
         | readings; exact Hf
         | readings; rewrite <- H2; unfold task_exception, caught_log;
           rewrite ?Hexc; rewrite app_nil_r in H1;
           repeat split; auto;
           try (rewrite H5; reflexivity);
           rewrite !in_app_iff; simpl; tauto
         | destruct (pc s); auto; destruct Ha; auto ]).
  - (* one more token is put on the queue *)
    intros H; inversion H; subst s'; clear H.
    assert (Hnd : done s = false).
    { destruct (done s); [|reflexivity]. specialize (H3 eq_refl). discriminate. }
    constructor; simpl; try congruence; eauto.
    + intros _. exists (tr ++ [EvQueuePut token])%list. rewrite Htr.
      split; [reflexivity|]. readings. exact Hcr.
    + readings. exact Hy.
    + readings. exact Hl.
    + readings. rewrite Hq, <- app_assoc. reflexivity.
    + readings. exact Hf.
    + readings. repeat split; auto; try congruence.
      rewrite <- app_assoc. exact H1.
    + destruct (pc s); auto; destruct Ha; congruence.
Qed.

Lemma inv_step_disconnect (s s' : State) :
  Inv s -> step' Disconnect s = Some s' -> Inv s'.
Proof.
  intros I. simpl.
  pose proof (inv_task I) as Ht.
  pose proof (inv_final I) as Hf.
  destruct (pc s) eqn:Hpc; try discriminate;
    (intros H; inversion H; subst s'; clear H;
     assert (Hne : pc s <> Start) by congruence;
     pose proof (inv_streamed I Hne) as Hst;
     pose proof (inv_self I Hne) as Hself;
     pose proof (inv_prefix I Hne) as Hpre;
     pose proof (inv_yielded I) as Hy;
     pose proof (inv_logged I) as Hl;
     pose proof (inv_queued I) as Hq;
     constructor; simpl; try congruence; eauto;
     destruct (run_task s); [congruence | exact Ht | exact Ht]).
Qed.

Lemma inv_step (a : Action) (s s' : State) :
  Inv s -> step' a s = Some s' -> Inv s'.
Proof.
  destruct a.
  - apply inv_step_generator.
  - apply inv_step_task.
  - apply inv_step_disconnect.
Qed.

Lemma inv_run (sched : list Action) (s s' : State) :
  Inv s -> run' sched s = Some s' -> Inv s'.
Proof.
  revert s. induction sched as [|a sched IH]; intros s I; simpl.
  - intros H; inversion H; subst; exact I.
  - destruct (step' a s) as [s1|] eqn:E; [|discriminate].
    apply IH. eapply inv_step; eauto.
Qed.

Lemma inv_reachable (s : State) :
  reachable env chat_id question self0 s -> Inv s.
Proof.
  intros [sched H]. eapply inv_run; [apply inv_initial | exact H].
Qed.


(** The background task, left alone, runs to its end. *)
Lemma task_runs_to_end (toks : list string) :
  forall (sig : bool) (out : Result unit) (s : State),
    run_task s = Running (mkCompletion toks sig out) ->
    exists s',
      run' (repeat RunTask (length toks + (if sig then 1 else 0) + 1)) s
      = Some s'
      /\ pc s' = pc s
      /\ queue s' = (queue s ++ toks)%list
      /\ done s' = true
      /\ run_task s' = TaskDone (task_exception out)
      /\ response_tokens s' = response_tokens s
      /\ streamed_chat_history s' = streamed_chat_history s.
Proof.
  induction toks as [|t toks IH]; intros sig out s Hrun.
  - destruct sig; simpl; unfold step_task; rewrite Hrun; simpl.
    + unfold step_task; simpl.
      eexists; split; [reflexivity|].
      unfold wrap_done, task_exception.
      destruct out as [u|e]; [|destruct (isinstance_Exception e)]; simpl;
        rewrite app_nil_r; auto 10.
    + eexists; split; [reflexivity|].
      unfold wrap_done, task_exception.
      destruct out as [u|e]; [|destruct (isinstance_Exception e)]; simpl;
        rewrite app_nil_r; auto 10.
  - cbn [length repeat Nat.add run step]. unfold step_task at 1.
    rewrite Hrun. cbn [produced_tokens signals_end outcome].
    match goal with
    | |- context [run' _ ?s1] =>
        destruct (@IH sig out s1 eq_refl)
          as (s' & Hr & Hpc & Hq & Hd & Ht & Hrt & Hst)
    end.
    exists s'. split; [exact Hr|].
    simpl in *. rewrite <- app_assoc in Hq. auto 10.
Qed.

(** The generator, once the task is over without an exception, consumes
    the queue and reaches the final update. *)
Lemma generator_runs_to_end (toks : list string) :
  forall (s : State) (h : GetChatHistoryOutput),
    pc s = Loop -> queue s = toks -> done s = true ->
    run_task s = TaskDone None -> streamed_chat_history s = Some h ->
    exists s',
      run' (repeat RunGenerator (length toks + 2)) s = Some s'
      /\ pc s' = Finished.
Proof.
  induction toks as [|t toks IH]; intros s h Hpc Hq Hd Ht Hst.
  - simpl. unfold step_generator at 1. rewrite Hpc, Hq, Hd. simpl.
    unfold step_generator. simpl. rewrite Ht. unfold finalize. simpl.
    rewrite Hst. eexists; split; reflexivity.
  - cbn [length repeat Nat.add run step]. unfold step_generator at 1.
    rewrite Hpc, Hq. simpl. unfold loop_body. simpl. rewrite Hst.
    eapply IH; simpl; eauto.
Qed.

(** Unless the completion call ends in an exception outside [Exception],
    the sequential schedule takes the request to its final update. *)
Lemma sequential_schedule_finishes :
  task_exception (outcome c0) = None ->
  exists s,
    run' (sequential_schedule c0) (initial self0) = Some s
    /\ pc s = Finished.
Proof.
  intros Hexc. unfold sequential_schedule.
  cbn [run step]. unfold step_generator. cbn [pc initial].
  rewrite run_app.
  destruct (@task_runs_to_end (produced_tokens c0) (signals_end c0) (outcome c0)
              (prelude env chat_id question (initial self0)))
    as (s1 & Hr & Hpc & Hq & Hd & Ht & Hrt & Hst).
  { simpl. unfold completion. destruct (acall env chain); reflexivity. }
  rewrite Hr. simpl in Hpc, Hq, Hst.
  rewrite Hexc in Ht.
  eapply generator_runs_to_end; eauto.
Qed.


(** Every step of the generator or of the task uses up one of the steps
    left. *)
Lemma steps_left_step (a : Action) (s s' : State) :
  Inv s -> a <> Disconnect -> step' a s = Some s' ->
  steps_left s = S (steps_left s').
Proof.
  intros I Ha. pose proof (inv_task I) as Ht.
  pose proof (inv_start I) as Hs.
  destruct a; [| |congruence]; simpl.
  - unfold step_generator, steps_left.
    destruct (pc s) eqn:Hpc; try discriminate.
    + intros H; inversion H; subst s'; clear H.
      rewrite (Hs eq_refl). simpl. unfold completion. lia.
    + unfold aiter_next.
      destruct (queue s) as [|token rest] eqn:Hq.
      * destruct (done s) eqn:Hd; try discriminate.
        intros H; inversion H; subst s'; clear H. simpl.
        destruct (run_task s) as [|todo|r]; simpl; try lia.
        destruct Ht as (_ & _ & H3 & _). rewrite (H3 eq_refl). simpl. lia.
      * unfold loop_body.
        destruct (streamed_chat_history (set_queue s rest)); try discriminate.
        intros H; inversion H; subst s'; clear H. simpl. lia.
    + destruct (run_task s) as [|todo|[e|]] eqn:Hrun; try discriminate.
      * intros H; inversion H; subst s'; clear H. simpl. rewrite Hrun.
        simpl. lia.
      * unfold finalize.
        destruct (streamed_chat_history s); try discriminate.
        intros H; inversion H; subst s'; clear H. simpl. rewrite Hrun.
        simpl. lia.
  - unfold step_task, steps_left.
    destruct (run_task s) as [|todo|r] eqn:Hrun; try discriminate.
    assert (Hne : pc s <> Start).
    { intros E. rewrite (Hs E) in Hrun. discriminate. }
    destruct (produced_tokens todo) as [|token rest] eqn:Htodo.
    + destruct (signals_end todo) eqn:Hsig.
      * intros H; inversion H; subst s'; clear H. simpl.
        rewrite Htodo, Hsig.
        destruct (pc s); simpl; try lia; congruence.
      * intros H; inversion H; subst s'; clear H.
        unfold wrap_done.
        destruct (outcome todo) as [u|e];
          [|destruct (isinstance_Exception e)]; simpl;
          rewrite Htodo, Hsig; destruct (pc s); simpl; try lia; congruence.
    + intros H; inversion H; subst s'; clear H. simpl.
      rewrite Htodo, length_app. simpl.
      destruct (pc s); simpl; try lia; congruence.
Qed.

(** No deadlock: while the request is neither over nor abandoned, the
    generator or the task can run. *)
Lemma generator_or_task_can_run (s : State) :
  Inv s -> pc s <> Closed -> ~ over s ->
  exists a s', a <> Disconnect /\ step' a s = Some s'.
Proof.
  intros I Hcl Hov. pose proof (inv_task I) as Ht.
  destruct (pc s) eqn:Hpc.
  - exists RunGenerator. eexists. split; [discriminate|].
    simpl. unfold step_generator. rewrite Hpc. reflexivity.
  - assert (Hne : pc s <> Start) by congruence.
    pose proof (inv_streamed I Hne) as Hst.
    destruct (queue s) as [|token rest] eqn:Hq.
    + destruct (done s) eqn:Hd.
      * exists RunGenerator. eexists. split; [discriminate|].
        simpl. unfold step_generator. rewrite Hpc, Hq, Hd. reflexivity.
      * destruct (run_task s) as [|todo|r] eqn:Hrun.
        -- congruence.
        -- exists RunTask. simpl. unfold step_task. rewrite Hrun.
           destruct (produced_tokens todo); [destruct (signals_end todo)|];
             eexists; (split; [discriminate|reflexivity]).
        -- destruct Ht as (_ & Hd' & _). rewrite Hd' in Hd; discriminate.
    + exists RunGenerator. eexists. split; [discriminate|].
      simpl. unfold step_generator. rewrite Hpc, Hq. simpl.
      unfold loop_body. simpl. rewrite Hst. reflexivity.
  - assert (Hne : pc s <> Start) by congruence.
    pose proof (inv_streamed I Hne) as Hst.
    destruct (run_task s) as [|todo|[e|]] eqn:Hrun.
    + congruence.
    + exists RunTask. simpl. unfold step_task. rewrite Hrun.
      destruct (produced_tokens todo); [destruct (signals_end todo)|];
        eexists; (split; [discriminate|reflexivity]).
    + exists RunGenerator. eexists. split; [discriminate|].
      simpl. unfold step_generator. rewrite Hpc, Hrun. reflexivity.
    + exists RunGenerator. eexists. split; [discriminate|].
      simpl. unfold step_generator. rewrite Hpc, Hrun. unfold finalize.
      rewrite Hst. reflexivity.
  - exfalso. apply Hov. left. exact Hpc.
  - congruence.
  - exfalso. apply Hov. right. eauto.
Qed.

Lemma pc_over_dec (s : State) : {over s} + {~ over s}.
Proof.
  unfold over. destruct (pc s); try (right; intros [H|[e H]]; discriminate).
  - left; left; reflexivity.
  - left; right; eauto.
Qed.

Lemma step_keeps_open (a : Action) (s s' : State) :
  a <> Disconnect -> step' a s = Some s' -> pc s <> Closed -> pc s' <> Closed.
Proof.
  intros Ha. destruct a; [| |congruence]; simpl.
  - unfold step_generator.
    destruct (pc s) eqn:Hpc; try discriminate.
    + intros H; inversion H; subst; simpl; congruence.
    + destruct (aiter_next (queue s) (done s)); try discriminate.
      * unfold loop_body.
        destruct (streamed_chat_history _); try discriminate.
        intros H; inversion H; subst; simpl; congruence.
      * intros H; inversion H; subst; simpl; congruence.
    + destruct (run_task s) as [|todo|[e|]]; try discriminate.
      * intros H; inversion H; subst; simpl; congruence.
      * unfold finalize. destruct (streamed_chat_history s); try discriminate.
        intros H; inversion H; subst; simpl; congruence.
  - unfold step_task.
    destruct (run_task s) as [|todo|r]; try discriminate.
    destruct (produced_tokens todo); [destruct (signals_end todo)|];
      try (intros H; inversion H; subst; simpl; congruence).
    unfold wrap_done.
    destruct (outcome todo) as [u|e]; [|destruct (isinstance_Exception e)];
      intros H; inversion H; subst; simpl; congruence.
Qed.

(** Termination: from a state that its consumer has not abandoned, the
    generator and the task, however they are interleaved, run the request
    to its end within [steps_left] steps. *)
Lemma request_completes (n : nat) :
  forall s, Inv s -> pc s <> Closed -> steps_left s <= n ->
  exists sched s',
    run' sched s = Some s' /\ over s' /\ ~ In Disconnect sched
    /\ length sched <= n.
Proof.
  induction n as [|n IH]; intros s I Hcl Hn.
  - destruct (pc_over_dec s) as [Hov|Hov].
    + exists [], s. simpl. auto.
    + destruct (generator_or_task_can_run I Hcl Hov) as (a & s1 & Ha & Hs).
      pose proof (steps_left_step I Ha Hs). lia.
  - destruct (pc_over_dec s) as [Hov|Hov].
    + exists [], s. simpl. repeat split; auto. lia.
    + destruct (generator_or_task_can_run I Hcl Hov) as (a & s1 & Ha & Hs).
      pose proof (steps_left_step I Ha Hs) as Hm.
      destruct (IH s1) as (sched & s' & Hr & Hov' & Hnd & Hlen).
      * eapply inv_step; eauto.
      * eapply step_keeps_open; eauto.
      * lia.
      * exists (a :: sched), s'. simpl. rewrite Hs.
        repeat split; auto.
        -- intros [E|E]; [congruence | contradiction].
        -- lia.
Qed.


(** *** Shape of the trace *)

Lemma final_update_is_last (tr' : list Event) :
  forall (x y : Event) (l1 l2 : list Event),
    final_updates tr' = [] -> is_final_update y = true ->
    (tr' ++ [x])%list = (l1 ++ y :: l2)%list ->
    l1 = tr' /\ y = x /\ l2 = [].
Proof.
  induction tr' as [|e tr' IH]; intros x y l1 l2 Hno Hy Heq.
  - destruct l1 as [|e1 l1]; simpl in Heq.
    + inversion Heq; auto.
    + inversion Heq as [[E1 E2]]. destruct l1; discriminate.
  - destruct l1 as [|e1 l1]; simpl in Heq.
    + inversion Heq as [[E1 E2]]. subst y.
      destruct e; simpl in Hy; discriminate.
    + inversion Heq as [[E1 E2]]. subst e1.
      assert (Hno' : final_updates tr' = []).
      { destruct e; simpl in Hno; try discriminate; exact Hno. }
      destruct (IH x y l1 l2 Hno' Hy E2) as (-> & -> & ->). auto.
Qed.

Lemma final_updates_nonempty (l1 l2 : list Event) (i u a : string) :
  final_updates (l1 ++ EvUpdateMessageById i u a :: l2)%list <> [].
Proof.
  rewrite final_updates_app. simpl. intros H.
  apply app_eq_nil in H. destruct H; discriminate.
Qed.

Lemma finished_of_final_update (s : State) :
  Inv s -> final_updates (trace s) <> [] -> pc s = Finished.
Proof.
  intros I H. pose proof (inv_final I) as Hf.
  destruct (pc s); congruence.
Qed.

Lemma finished_consumed_all (s : State) :
  Inv s -> pc s = Finished -> response_tokens s = produced_tokens c0.
Proof.
  intros I Hpc.
  destruct (inv_finished I Hpc) as [Hrun _].
  pose proof (inv_task I) as Ht. rewrite Hrun in Ht.
  pose proof (inv_after_loop I) as Ha. rewrite Hpc in Ha.
  pose proof (inv_queued I) as Hq.
  destruct Ht as (H1 & _). destruct Ha as (Hqueue & _).
  rewrite Hqueue, app_nil_r in Hq. congruence.
Qed.

Lemma emitted_is_prefix (s : State) :
  Inv s ->
  exists rest, produced_tokens c0 = (response_tokens s ++ rest)%list.
Proof.
  intros I. pose proof (inv_task I) as Ht. pose proof (inv_queued I) as Hq.
  destruct (run_task s) as [|todo|r] eqn:Hrun.
  - rewrite (inv_start I Ht). simpl. eauto.
  - destruct Ht as (H1 & _). rewrite Hq, <- app_assoc in H1. eauto.
  - destruct Ht as (H1 & _). rewrite Hq in H1. eauto.
Qed.

Lemma created_is_placeholder (s : State) :
  Inv s -> pc s <> Start -> created_entries (trace s) = [ph].
Proof.
  intros I Hne. destruct (inv_prefix I Hne) as (tr & Htr & Hcr).
  rewrite Htr. simpl. now rewrite Hcr.
Qed.


Lemma finishes_from (s : State) :
  task_exception (outcome c0) = None ->
  Inv s -> pc s <> Closed ->
  exists sched' s',
    run' sched' s = Some s' /\ pc s' = Finished /\ ~ In Disconnect sched'.
Proof.
  intros Hexc I Hcl.
  destruct (@request_completes (steps_left s) s I Hcl (le_n _))
    as (sched' & s' & Hr & Hov & Hnd & _).
  exists sched', s'. repeat split; auto.
  destruct Hov as [Hf|[e He]]; [exact Hf|].
  pose proof (inv_run sched' I Hr) as I'.
  pose proof (inv_crashed I' He) as Hrun.
  pose proof (inv_task I') as Ht. rewrite Hrun in Ht.
  destruct Ht as (_ & _ & Hr' & _). congruence.
Qed.

(** Effects are only ever added: a step leaves the events so far as they
    are and in their order. *)
Lemma trace_grows_step (a : Action) (s s' : State) :
  step' a s = Some s' -> exists more, trace s' = (trace s ++ more)%list.
Proof.
  destruct a; simpl.
  - unfold step_generator.
    destruct (pc s); try discriminate.
    + intros H; inversion H; subst; simpl; eauto.
    + destruct (aiter_next (queue s) (done s)) as [token rest| |];
        try discriminate.
      * unfold loop_body. simpl.
        destruct (streamed_chat_history s); try discriminate.
        intros H; inversion H; subst; simpl; eauto.
      * intros H; inversion H; subst; simpl.
        exists []. now rewrite app_nil_r.
    + destruct (run_task s) as [|todo|[e|]]; try discriminate.
      * intros H; inversion H; subst; simpl.
        exists []. now rewrite app_nil_r.
      * unfold finalize. destruct (streamed_chat_history s); try discriminate.
        intros H; inversion H; subst; simpl; eauto.
  - unfold step_task.
    destruct (run_task s) as [|todo|r]; try discriminate.
    destruct (produced_tokens todo); [destruct (signals_end todo)|];
      try (intros H; inversion H; subst; simpl; eauto).
    unfold wrap_done.
    destruct (outcome todo) as [u|e]; [|destruct (isinstance_Exception e)];
      simpl; rewrite <- ?app_assoc; eauto.
  - destruct (pc s); try discriminate;
      intros H; inversion H; subst; simpl; exists []; now rewrite app_nil_r.
Qed.

Lemma trace_grows (sched : list Action) :
  forall s s',
    run' sched s = Some s' -> exists more, trace s' = (trace s ++ more)%list.
Proof.
  induction sched as [|a sched IH]; intros s s' Hrun; simpl in Hrun.
  - inversion Hrun; subst. exists []. now rewrite app_nil_r.
  - destruct (step' a s) as [s1|] eqn:Hs; [|discriminate].
    destruct (@trace_grows_step a s s1 Hs) as (m1 & E1).
    destruct (IH s1 s' Hrun) as (m2 & E2).
    exists (m1 ++ m2)%list. now rewrite E2, E1, app_assoc.
Qed.

(** The trace of a request that has made its final update: the update is
    the last event, and before it come the placeholder write, the frames
    of all tokens of the completion call and the end of the task. *)
Lemma finished_trace (s : State) :
  Inv s -> pc s = Finished ->
  exists tr',
    trace s
    = (tr' ++ [EvUpdateMessageById
                 (h_message_id (update_chat_history env ph))
                 (Models.question question)
                 (String.concat "" (produced_tokens c0))])%list
    /\ final_updates tr' = []
    /\ yielded tr'
       = map (frame env chat_id question self0) (produced_tokens c0)
    /\ In (EvUpdateChatHistory ph) tr'
    /\ In (EvTaskFinished None) tr'.
Proof.
  intros I Hpc.
  destruct (inv_finished I Hpc) as (_ & tr' & Htr & Hno & Hfin).
  pose proof (finished_consumed_all I Hpc) as Hall.
  pose proof (inv_yielded I) as Hy.
  assert (Hne : pc s <> Start) by congruence.
  destruct (inv_prefix I Hne) as (tr & Hpre & _).
  exists tr'. rewrite Hall in Htr. repeat split; auto.
  - rewrite Htr, yielded_app, Hall in Hy. simpl in Hy.
    now rewrite app_nil_r in Hy.
  - assert (Hin : In (EvUpdateChatHistory ph) (trace s))
      by (rewrite Hpre; right; left; reflexivity).
    rewrite Htr in Hin. apply in_app_or in Hin.
    destruct Hin as [Hin|[Hin|[]]]; [exact Hin | discriminate].
Qed.

(** *** The claims about [generate_stream] *)

(** C1. Once the loop has ended and the background task has been awaited
    (the generator stands past its last statement), exactly one
    [update_message_by_id] has been issued; it is the last effect of the
    request, it names the placeholder entry, and its assistant text is the
    tokens appended to [response_tokens] during the loop, joined in the
    order of emission.  Unless the completion call ends in an exception
    outside [Exception], that point is reached from every state the
    consumer has not abandoned. *)
Theorem final_text_is_concatenation :
  (forall sched s,
     run' sched (initial self0) = Some s -> pc s = Finished ->
     logged_tokens (trace s) = response_tokens s
     /\ final_updates (trace s)
        = [(h_message_id (update_chat_history env ph),
            Models.question question,
            String.concat "" (logged_tokens (trace s)))]
     /\ exists tr',
          trace s
          = (tr' ++ [EvUpdateMessageById
                       (h_message_id (update_chat_history env ph))
                       (Models.question question)
                       (String.concat "" (logged_tokens tr'))])%list
          /\ final_updates tr' = []
          /\ In (EvTaskFinished None) tr')
  /\ (task_exception (outcome c0) = None ->
      forall sched s,
        run' sched (initial self0) = Some s -> pc s <> Closed ->
        exists sched' s', run' sched' s = Some s' /\ pc s' = Finished).
Proof.
  split.
  - intros sched s Hrun Hpc.
    pose proof (inv_run sched inv_initial Hrun) as I.
    pose proof (inv_logged I) as Hl.
    pose proof (inv_final I) as Hf. rewrite Hpc in Hf.
    destruct (inv_finished I Hpc) as (_ & tr' & Htr & Hno & Hfin).
    split; [exact Hl|]. split.
    + rewrite Hf, Hl. reflexivity.
    + exists tr'. repeat split; auto.
      rewrite Htr. unfold final_update. simpl.
      rewrite <- Hl, Htr, logged_tokens_app. simpl.
      rewrite app_nil_r. reflexivity.
  - intros Hexc sched s Hrun Hcl.
    pose proof (inv_run sched inv_initial Hrun) as I.
    destruct (finishes_from Hexc I Hcl) as (sched' & s' & Hr & Hf & _).
    eauto.
Qed.

(** C2. In every state of every run: the tokens emitted so far are, in
    order, the first of those the completion client has produced so far,
    which are the first of all it produces; every frame comes after the
    placeholder write, whose assistant text is empty; and a final update
    comes after every frame and after the end of the background task,
    nothing following it.  The final update does happen: unless the
    completion call ends in an exception outside [Exception], from every
    state the consumer has not abandoned the request goes on, the events
    so far staying as they are, to the state in which the update has been
    made; and in that state the trace is the placeholder write, the frames
    of all tokens and the end of the task, and then the update with the
    tokens joined, as its last event. *)
Theorem stream_ordering (sched : list Action) (s : State) :
  run' sched (initial self0) = Some s ->
  yielded (trace s)
  = map (frame env chat_id question self0) (logged_tokens (trace s))
  /\ queued_tokens (trace s) = (logged_tokens (trace s) ++ queue s)%list
  /\ (exists rest,
        produced_tokens c0 = (queued_tokens (trace s) ++ rest)%list)
  /\ (pc s = Finished -> logged_tokens (trace s) = produced_tokens c0)
  /\ c_assistant ph = ""
  /\ (forall l1 f l2,
        trace s = (l1 ++ EvYield f :: l2)%list ->
        In (EvUpdateChatHistory ph) l1)
  /\ (forall l1 i u a l2,
        trace s = (l1 ++ EvUpdateMessageById i u a :: l2)%list ->
        l2 = [] /\ yielded l1 = yielded (trace s)
        /\ In (EvTaskFinished None) l1)
  /\ (pc s = Finished ->
      exists tr',
        trace s
        = (tr' ++ [EvUpdateMessageById
                     (h_message_id (update_chat_history env ph))
                     (Models.question question)
                     (String.concat "" (produced_tokens c0))])%list
        /\ final_updates tr' = []
        /\ yielded tr'
           = map (frame env chat_id question self0) (produced_tokens c0)
        /\ In (EvUpdateChatHistory ph) tr'
        /\ In (EvTaskFinished None) tr')
  /\ (task_exception (outcome c0) = None -> pc s <> Closed ->
      exists sched' s' more,
        run' sched' s = Some s'
        /\ pc s' = Finished
        /\ trace s' = (trace s ++ more)%list
        /\ final_updates (trace s')
           = [(h_message_id (update_chat_history env ph),
               Models.question question,
               String.concat "" (produced_tokens c0))]).
Proof.
  intros Hrun.
  pose proof (inv_run sched inv_initial Hrun) as I.
  pose proof (inv_logged I) as Hl.
  pose proof (inv_yielded I) as Hy.
  pose proof (inv_queued I) as Hq.
  assert (Hlast : forall l1 i u a l2,
            trace s = (l1 ++ EvUpdateMessageById i u a :: l2)%list ->
            exists tr',
              trace s
              = (tr' ++ [final_update env chat_id question self0
                           (response_tokens s)])%list
              /\ l1 = tr' /\ l2 = [] /\ In (EvTaskFinished None) tr').
  { intros l1 i u a l2 H.
    pose proof (finished_of_final_update I) as Hfin.
    rewrite H in Hfin. specialize (Hfin (@final_updates_nonempty _ _ _ _ _)).
    destruct (inv_finished I Hfin) as (_ & tr' & Htr & Hno & Hdone).
    exists tr'. split; [exact Htr|]. rewrite Htr in H.
    destruct (@final_update_is_last tr' _ (EvUpdateMessageById i u a) l1 l2
                Hno eq_refl H) as (E1 & _ & E2).
    auto. }
  split; [rewrite Hl; exact Hy|].
  split; [rewrite Hl; exact Hq|].
  split.
  { pose proof (inv_task I) as Ht.
    destruct (run_task s) as [|todo|r] eqn:Hr.
    - rewrite (inv_start I Ht). simpl. eauto.
    - destruct Ht as (H1 & _). eauto.
    - destruct Ht as (H1 & _). exists []. now rewrite app_nil_r. }
  split; [intros Hpc; rewrite Hl; now apply finished_consumed_all|].
  split; [reflexivity|].
  split.
  { intros l1 f l2 Htr.
    destruct (pc s) eqn:Hpc.
    1: { rewrite (inv_start I Hpc) in Htr. simpl in Htr.
         destruct l1; discriminate. }
    all: assert (Hne : pc s <> Start) by congruence;
      destruct (inv_prefix I Hne) as (tr & Htr' & _);
      rewrite Htr' in Htr;
      destruct l1 as [|e1 [|e2 l1]]; simpl in Htr; try discriminate;
      inversion Htr; subst; simpl; auto. }
  split.
  { intros l1 i u a l2 H.
    destruct (Hlast l1 i u a l2 H) as (tr' & Htr & -> & -> & Hdone).
    repeat split; auto.
    rewrite Htr, yielded_app. simpl. now rewrite app_nil_r. }
  split; [intros Hpc; now apply finished_trace|].
  intros Hexc Hcl.
  destruct (finishes_from Hexc I Hcl) as (sched' & s' & Hr & Hf & _).
  pose proof (inv_run sched' I Hr) as I'.
  destruct (trace_grows sched' s Hr) as (more & Hmore).
  exists sched', s', more. repeat split; auto.
  pose proof (inv_final I') as Hfu. rewrite Hf in Hfu.
  rewrite Hfu, (finished_consumed_all I' Hf). reflexivity.
Qed.


(** C3, as the code has it.  Whenever the background task has finished,
    whatever the outcome of the completion call, the done signal of the
    handler is set.  When the call raises an instance of [Exception], which
    is what [except Exception] catches: [wrap_done] logs it and the task holds no
    exception, so the generator never ends with it; from every state the
    consumer has not abandoned the request reaches its final update; and
    there the frames are those of the tokens produced before the failure,
    and the entry is finalized with these tokens joined. *)
Theorem background_failure_is_contained :
  (forall sched s r,
     run' sched (initial self0) = Some s -> run_task s = TaskDone r ->
     done s = true /\ In EvDoneSet (trace s))
  /\ (forall e,
        outcome c0 = Raise e -> isinstance_Exception e = true ->
        forall sched s,
          run' sched (initial self0) = Some s ->
          (forall e', pc s <> Crashed e')
          /\ (forall r,
                run_task s = TaskDone r ->
                r = None
                /\ logged_errors (trace s)
                   = ["Caught exception: " ++ exc_detail e])
          /\ (pc s <> Closed ->
              exists sched' s', run' sched' s = Some s' /\ pc s' = Finished)
          /\ (pc s = Finished ->
              yielded (trace s)
              = map (frame env chat_id question self0) (produced_tokens c0)
              /\ final_updates (trace s)
                 = [(h_message_id (update_chat_history env ph),
                     Models.question question,
                     String.concat "" (produced_tokens c0))])).
Proof.
  split.
  - intros sched s r Hrun Hr.
    pose proof (inv_run sched inv_initial Hrun) as I.
    pose proof (inv_task I) as Ht. rewrite Hr in Ht. tauto.
  - intros e Hout Hexc sched s Hrun.
    pose proof (inv_run sched inv_initial Hrun) as I.
    assert (Hte : task_exception (outcome c0) = None).
    { unfold task_exception. now rewrite Hout, Hexc. }
    assert (Hlog : caught_log (outcome c0)
                   = ["Caught exception: " ++ exc_detail e]).
    { unfold caught_log. now rewrite Hout, Hexc. }
    repeat split.
    + intros e' He'.
      pose proof (inv_crashed I He') as Hr.
      pose proof (inv_task I) as Ht. rewrite Hr in Ht.
      destruct Ht as (_ & _ & Hr' & _). congruence.
    + pose proof (inv_task I) as Ht. rewrite H in Ht.
      destruct Ht as (_ & _ & Hr' & _). congruence.
    + pose proof (inv_task I) as Ht. rewrite H in Ht.
      destruct Ht as (_ & _ & _ & Hl & _). congruence.
    + intros Hcl.
      destruct (finishes_from Hte I Hcl) as (sched' & s' & Hr & Hf & _).
      eauto.
    + rewrite (inv_yielded I), (finished_consumed_all I H). reflexivity.
    + pose proof (inv_final I) as Hf. rewrite H in Hf.
      rewrite Hf, (finished_consumed_all I H). reflexivity.
Qed.

(** C4. The frames emitted so far are, one for one and in order, those of
    the tokens pulled so far: each is [data: ] followed by the encoding of
    the entry state whose assistant field is that one token.  In the loop,
    with a token queued, the generator takes it and emits that one frame. *)
Theorem one_frame_per_token (sched : list Action) (s : State) :
  run' sched (initial self0) = Some s ->
  yielded (trace s)
  = map (fun token =>
           "data: " ++ json_dumps env (set_assistant base token))
      (logged_tokens (trace s))
  /\ (forall token, o_assistant (set_assistant base token) = token)
  /\ (forall token rest,
        pc s = Loop -> queue s = token :: rest ->
        exists s' h,
          step_generator env chat_id question s = Some s'
          /\ streamed_chat_history s' = Some h
          /\ o_assistant h = token
          /\ trace s'
             = (trace s ++ [EvLogInfo token;
                            EvYield ("data: " ++ json_dumps env h)])%list).
Proof.
  intros Hrun.
  pose proof (inv_run sched inv_initial Hrun) as I.
  repeat split.
  - rewrite (inv_logged I). exact (inv_yielded I).
  - intros token rest Hpc Hq.
    assert (Hne : pc s <> Start) by congruence.
    pose proof (inv_streamed I Hne) as Hst.
    unfold step_generator. rewrite Hpc, Hq. simpl.
    unfold loop_body. simpl. rewrite Hst.
    eexists. eexists. split; [reflexivity|]. simpl. auto.
Qed.


(** C7. Every frame of a request is the encoding of an entry state that
    carries the message identifier and the message time of the placeholder
    entry, and that differs from the entry state built before the loop in
    its assistant field only. *)
Theorem frames_share_entry_identity (sched : list Action) (s : State) :
  run' sched (initial self0) = Some s ->
  forall f,
    In f (yielded (trace s)) ->
    exists o,
      f = "data: " ++ json_dumps env o
      /\ o_message_id o = h_message_id (update_chat_history env ph)
      /\ o_message_time o = h_message_time (update_chat_history env ph)
      /\ set_assistant o "" = base.
Proof.
  intros Hrun f Hin.
  pose proof (inv_run sched inv_initial Hrun) as I.
  rewrite (inv_yielded I) in Hin.
  apply in_map_iff in Hin. destruct Hin as (token & Hf & _).
  exists (set_assistant base token). subst f. repeat split.
Qed.

End Run.

Lemma step_retemp (env : Env) (chat_id : UUID) (question : ChatQuestion)
    (t : float) (a : Action) (s : State) :
  step env chat_id question a (retemp t s)
  = option_map (retemp t) (step env chat_id question a s).
Proof.
  destruct s as [p self task q d rt h tr].
  destruct a; simpl.
  - unfold step_generator; simpl. destruct p; simpl; try reflexivity.
    + destruct q; simpl; [destruct d; reflexivity|].
      unfold loop_body; simpl. destruct h; reflexivity.
    + destruct task as [|todo|[e|]]; simpl; try reflexivity.
      unfold finalize; simpl. destruct h; reflexivity.
  - unfold step_task; simpl. destruct task as [|todo|r]; simpl; try reflexivity.
    destruct (produced_tokens todo); simpl; try reflexivity.
    destruct (signals_end todo); simpl; try reflexivity.
    unfold wrap_done.
    destruct (outcome todo) as [u|e]; [|destruct (isinstance_Exception e)];
      reflexivity.
  - destruct p; reflexivity.
Qed.

Lemma run_retemp (env : Env) (chat_id : UUID) (question : ChatQuestion)
    (t : float) (sched : list Action) :
  forall s,
    run env chat_id question sched (retemp t s)
    = option_map (retemp t) (run env chat_id question sched s).
Proof.
  induction sched as [|a sched IH]; intros s; simpl.
  - reflexivity.
  - rewrite step_retemp.
    destruct (step env chat_id question a s); simpl; [apply IH | reflexivity].
Qed.

(** C9. [_create_llm] gives the language model temperature 0.1 whatever
    temperature it is passed, and neither method reads the [temperature]
    field: two instances that differ in it only give the same result and
    the same effects in [generate_answer], and the same effects under
    every schedule in [generate_stream], among them the same completion
    client, of temperature 0.1. *)
Theorem temperature_is_ignored :
  (forall self model t streaming callbacks,
     llm_temperature (_create_llm self model t streaming callbacks)
     = 0.1%float
     /\ _create_llm self model t streaming callbacks
        = _create_llm self model default_temperature streaming callbacks)
  /\ (forall env self t chat_id question,
        generate_answer env (with_temperature self t) chat_id question
        = generate_answer env self chat_id question)
  /\ (forall env self t chat_id question sched,
        option_map trace
          (run env chat_id question sched (initial (with_temperature self t)))
        = option_map trace
            (run env chat_id question sched (initial self)))
  /\ (forall env self t question,
        headlessChain env question (stream_self env (with_temperature self t))
        = headlessChain env question (stream_self env self)
        /\ llm_temperature
             (chain_llm (headlessChain env question (stream_self env self)))
           = 0.1%float).
Proof.
  repeat split.
  intros env self t chat_id question sched.
  change (initial (with_temperature self t)) with (retemp t (initial self)).
  rewrite run_retemp.
  destruct (run env chat_id question sched (initial self)); reflexivity.
Qed.



(** *** The claims at work on two runs *)

Ltac by_evaluation := vm_compute; reflexivity.

Lemma final_text_is_concatenation_witness :
  run (Demo.headless_env Demo.hello) Demo.chat_42 Demo.hi Demo.interleaved
    (initial Demo.qa)
  = Some (Demo.final_state Demo.hello Demo.interleaved)
  /\ pc (Demo.final_state Demo.hello Demo.interleaved) = Finished
  /\ final_updates (trace (Demo.final_state Demo.hello Demo.interleaved))
     = [("msg-1", "Hi?", "Hello")].
Proof.
  assert (Hrun : run (Demo.headless_env Demo.hello) Demo.chat_42 Demo.hi
                   Demo.interleaved (initial Demo.qa)
                 = Some (Demo.final_state Demo.hello Demo.interleaved))
    by by_evaluation.
  assert (Hpc : pc (Demo.final_state Demo.hello Demo.interleaved) = Finished)
    by by_evaluation.
  split; [exact Hrun|]. split; [exact Hpc|].
  destruct (final_text_is_concatenation (Demo.headless_env Demo.hello)
              Demo.chat_42 Demo.hi Demo.qa) as [Hsafe _].
  destruct (Hsafe Demo.interleaved _ Hrun Hpc) as (_ & Hf & _).
  vm_compute in Hf. vm_compute. exact Hf.
Defined.

Lemma stream_ordering_witness :
  run (Demo.headless_env Demo.hello) Demo.chat_42 Demo.hi Demo.interleaved
    (initial Demo.qa)
  = Some (Demo.final_state Demo.hello Demo.interleaved)
  /\ logged_tokens (trace (Demo.final_state Demo.hello Demo.interleaved))
     = ["Hel"; "lo"]
  /\ (exists tr',
        trace (Demo.final_state Demo.hello Demo.interleaved)
        = (tr' ++ [EvUpdateMessageById "msg-1" "Hi?" "Hello"])%list
        /\ final_updates tr' = []
        /\ yielded tr'
           = ["data: {message_id: msg-1, message_time: 2023-11-01 10:00:00, assistant: Hel}";
              "data: {message_id: msg-1, message_time: 2023-11-01 10:00:00, assistant: lo}"]
        /\ In (EvUpdateChatHistory
                 (mkCreateChatHistory Demo.chat_42 "Hi?" "" None None)) tr'
        /\ In (EvTaskFinished None) tr')
  /\ run (Demo.headless_env Demo.hello) Demo.chat_42 Demo.hi
       [RunGenerator; RunTask; RunGenerator] (initial Demo.qa)
     = Some (Demo.final_state Demo.hello [RunGenerator; RunTask; RunGenerator])
  /\ final_updates
       (trace (Demo.final_state Demo.hello
                 [RunGenerator; RunTask; RunGenerator]))
     = []
  /\ (exists sched' s' more,
        run (Demo.headless_env Demo.hello) Demo.chat_42 Demo.hi sched'
          (Demo.final_state Demo.hello [RunGenerator; RunTask; RunGenerator])
        = Some s'
        /\ pc s' = Finished
        /\ trace s'
           = (trace (Demo.final_state Demo.hello
                       [RunGenerator; RunTask; RunGenerator]) ++ more)%list
        /\ final_updates (trace s') = [("msg-1", "Hi?", "Hello")]).
Proof.
  assert (Hrun : run (Demo.headless_env Demo.hello) Demo.chat_42 Demo.hi
                   Demo.interleaved (initial Demo.qa)
                 = Some (Demo.final_state Demo.hello Demo.interleaved))
    by by_evaluation.
  assert (Hpc : pc (Demo.final_state Demo.hello Demo.interleaved) = Finished)
    by by_evaluation.
  assert (Hmid : run (Demo.headless_env Demo.hello) Demo.chat_42 Demo.hi
                   [RunGenerator; RunTask; RunGenerator] (initial Demo.qa)
                 = Some (Demo.final_state Demo.hello
                           [RunGenerator; RunTask; RunGenerator]))
    by by_evaluation.
  assert (Hnone : final_updates
                    (trace (Demo.final_state Demo.hello
                              [RunGenerator; RunTask; RunGenerator]))
                  = [])
    by by_evaluation.
  assert (Hexc : task_exception
                   (outcome (completion (Demo.headless_env Demo.hello)
                               Demo.hi Demo.qa))
                 = None)
    by by_evaluation.
  assert (Hopen : pc (Demo.final_state Demo.hello
                        [RunGenerator; RunTask; RunGenerator])
                  <> Closed)
    by (vm_compute; discriminate).
  destruct (@stream_ordering (Demo.headless_env Demo.hello) Demo.chat_42
              Demo.hi Demo.qa Demo.interleaved _ Hrun)
    as (_ & _ & _ & Hall & _ & _ & _ & Hshape & _).
  destruct (@stream_ordering (Demo.headless_env Demo.hello) Demo.chat_42
              Demo.hi Demo.qa [RunGenerator; RunTask; RunGenerator] _ Hmid)
    as (_ & _ & _ & _ & _ & _ & _ & _ & Hreach).
  split; [exact Hrun|]. split.
  { specialize (Hall Hpc). vm_compute in Hall. vm_compute. exact Hall. }
  split.
  { destruct (Hshape Hpc) as (tr' & Htr & Hno & Hy & Hph & Hfin).
    exists tr'.
    split; [vm_compute in Htr; vm_compute; exact Htr|].
    split; [exact Hno|].
    split; [vm_compute in Hy; exact Hy|].
    split; [exact Hph | exact Hfin]. }
  split; [exact Hmid|]. split; [exact Hnone|].
  destruct (Hreach Hexc Hopen) as (sched' & s' & more & Hr & Hf & Hmore & Hfu).
  exists sched', s', more.
  split; [exact Hr|]. split; [exact Hf|]. split; [exact Hmore|].
  vm_compute in Hfu. exact Hfu.
Defined.

Lemma background_failure_is_contained_witness :
  outcome (completion (Demo.headless_env Demo.failing) Demo.hi Demo.qa)
  = Raise (mkExc (OtherException "APIError") "rate limit reached")
  /\ run (Demo.headless_env Demo.failing) Demo.chat_42 Demo.hi
       Demo.interleaved_failing (initial Demo.qa)
     = Some (Demo.final_state Demo.failing Demo.interleaved_failing)
  /\ pc (Demo.final_state Demo.failing Demo.interleaved_failing) = Finished
  /\ logged_errors
       (trace (Demo.final_state Demo.failing Demo.interleaved_failing))
     = ["Caught exception: rate limit reached"]
  /\ final_updates
       (trace (Demo.final_state Demo.failing Demo.interleaved_failing))
     = [("msg-1", "Hi?", "Hello!")].
Proof.
  assert (Hout : outcome (completion (Demo.headless_env Demo.failing)
                            Demo.hi Demo.qa)
                 = Raise (mkExc (OtherException "APIError")
                            "rate limit reached"))
    by by_evaluation.
  assert (Hrun : run (Demo.headless_env Demo.failing) Demo.chat_42 Demo.hi
                   Demo.interleaved_failing (initial Demo.qa)
                 = Some (Demo.final_state Demo.failing
                           Demo.interleaved_failing))
    by by_evaluation.
  assert (Hpc : pc (Demo.final_state Demo.failing Demo.interleaved_failing)
                = Finished)
    by by_evaluation.
  assert (Htask : run_task (Demo.final_state Demo.failing
                              Demo.interleaved_failing)
                  = TaskDone None)
    by by_evaluation.
  split; [exact Hout|]. split; [exact Hrun|]. split; [exact Hpc|].
  destruct (background_failure_is_contained (Demo.headless_env Demo.failing)
              Demo.chat_42 Demo.hi Demo.qa) as [_ Hfail].
  destruct (Hfail _ Hout eq_refl Demo.interleaved_failing _ Hrun)
    as (_ & Hlog & _ & Hfin).
  destruct (Hlog None Htask) as [_ Hlogged].
  destruct (Hfin Hpc) as [_ Hupdate].
  split.
  - vm_compute in Hlogged. vm_compute. exact Hlogged.
  - vm_compute in Hupdate. vm_compute. exact Hupdate.
Defined.

(** C3 as the specification states it fails on the code.  The completion
    call is cancelled after one token, and [CancelledError] is no
    [Exception]: [wrap_done] sets the done signal and logs nothing, the
    task keeps the exception, [await run] raises it in the generator, so
    that the consumer of the stream gets it after the one frame, and the
    placeholder entry is never finalized. *)
Lemma cancellation_reaches_the_consumer :
  outcome (completion (Demo.headless_env DemoMore.cancelled) Demo.hi Demo.qa)
  = Raise (mkExc (BaseExceptionOnly "CancelledError") "")
  /\ run (Demo.headless_env DemoMore.cancelled) Demo.chat_42 Demo.hi
       DemoMore.until_cancelled (initial Demo.qa)
     = Some (Demo.final_state DemoMore.cancelled DemoMore.until_cancelled)
  /\ run_task (Demo.final_state DemoMore.cancelled DemoMore.until_cancelled)
     = TaskDone (Some (mkExc (BaseExceptionOnly "CancelledError") ""))
  /\ done (Demo.final_state DemoMore.cancelled DemoMore.until_cancelled)
     = true
  /\ logged_errors
       (trace (Demo.final_state DemoMore.cancelled DemoMore.until_cancelled))
     = []
  /\ pc (Demo.final_state DemoMore.cancelled DemoMore.until_cancelled)
     = Crashed (mkExc (BaseExceptionOnly "CancelledError") "")
  /\ yielded
       (trace (Demo.final_state DemoMore.cancelled DemoMore.until_cancelled))
     = ["data: {message_id: msg-1, message_time: 2023-11-01 10:00:00, assistant: Hel}"]
  /\ final_updates
       (trace (Demo.final_state DemoMore.cancelled DemoMore.until_cancelled))
     = []
  /\ (forall sched' s',
        run (Demo.headless_env DemoMore.cancelled) Demo.chat_42 Demo.hi sched'
          (Demo.final_state DemoMore.cancelled DemoMore.until_cancelled)
        = Some s' ->
        sched' = []).
Proof.
  repeat (split; [by_evaluation|]).
  intros [|a sched'] s' H; [reflexivity|].
  exfalso. revert H. destruct a; vm_compute; discriminate.
Qed.

Lemma one_frame_per_token_witness :
  run (Demo.headless_env Demo.hello) Demo.chat_42 Demo.hi Demo.interleaved
    (initial Demo.qa)
  = Some (Demo.final_state Demo.hello Demo.interleaved)
  /\ yielded (trace (Demo.final_state Demo.hello Demo.interleaved))
     = ["data: {message_id: msg-1, message_time: 2023-11-01 10:00:00, assistant: Hel}";
        "data: {message_id: msg-1, message_time: 2023-11-01 10:00:00, assistant: lo}"].
Proof.
  assert (Hrun : run (Demo.headless_env Demo.hello) Demo.chat_42 Demo.hi
                   Demo.interleaved (initial Demo.qa)
                 = Some (Demo.final_state Demo.hello Demo.interleaved))
    by by_evaluation.
  split; [exact Hrun|].
  destruct (@one_frame_per_token (Demo.headless_env Demo.hello) Demo.chat_42
              Demo.hi Demo.qa Demo.interleaved _ Hrun) as (Hy & _).
  vm_compute in Hy. vm_compute. exact Hy.
Defined.


Lemma frames_share_entry_identity_witness :
  run (Demo.headless_env Demo.hello) Demo.chat_42 Demo.hi Demo.interleaved
    (initial Demo.qa)
  = Some (Demo.final_state Demo.hello Demo.interleaved)
  /\ exists o,
       "data: {message_id: msg-1, message_time: 2023-11-01 10:00:00, assistant: lo}"
       = "data: " ++ json_dumps (Demo.headless_env Demo.hello) o
       /\ o_message_id o = "msg-1"
       /\ o_message_time o = "2023-11-01 10:00:00".
Proof.
  assert (Hrun : run (Demo.headless_env Demo.hello) Demo.chat_42 Demo.hi
                   Demo.interleaved (initial Demo.qa)
                 = Some (Demo.final_state Demo.hello Demo.interleaved))
    by by_evaluation.
  split; [exact Hrun|].
  assert (Hin : In "data: {message_id: msg-1, message_time: 2023-11-01 10:00:00, assistant: lo}"
                  (yielded (trace (Demo.final_state Demo.hello
                                     Demo.interleaved))))
    by (vm_compute; right; left; reflexivity).
  destruct (@frames_share_entry_identity (Demo.headless_env Demo.hello)
              Demo.chat_42 Demo.hi Demo.qa Demo.interleaved _ Hrun _ Hin)
    as (o & Hf & Hid & Htime & _).
  exists o. split; [exact Hf|]. split.
  - vm_compute in Hid. exact Hid.
  - vm_compute in Htime. exact Htime.
Defined.

End StreamFacts.

(** ** routes/chat_routes.py *)

Module RoutesFacts.
Import Py Models ChatRoutes.

Lemma or_val_named (m d : string) :
  m <> "" -> or_val truthy_str (Some m) d = m.
Proof.
  intros Hm. unfold or_val, truthy_str.
  destruct (String.eqb_spec m ""); [contradiction | reflexivity].
Qed.

Lemma model_argument_fallback (user_settings : UserSettings)
    (q : ChatQuestion) :
  in_ (q_model q) (allowed_models user_settings) = false ->
  model_argument user_settings q = Some "gpt-3.5-turbo".
Proof.
  intros H. unfold model_argument. now rewrite H.
Qed.

Lemma generator_models_app (a b : list Call) :
  generator_models (a ++ b) = (generator_models a ++ generator_models b)%list.
Proof. apply flat_map_app. Qed.

Lemma brain_fallbacks_no_generator (env : Env) (brain_id : option UUID)
    (defaults : Fallbacks) :
  generator_models (snd (brain_fallbacks env brain_id defaults)) = [].
Proof.
  unfold brain_fallbacks.
  destruct brain_id as [b|]; [destruct (get_brain_by_id env b)|]; reflexivity.
Qed.

(** C6, as the code has it.  A request that names a model outside the
    allowed list of the user is not rejected for it by either question
    endpoint: once authorization has passed, the handler asks for exactly
    one answer generator, with model [gpt-3.5-turbo] in place of the named
    one, and its outcome is that of the generator. *)
Theorem unlisted_model_falls_back
    (env : Env) (chat_question : ChatQuestion) (chat_id : UUID)
    (brain_id : option UUID) (current_user : UserIdentity) (w : Utils.World)
    (m : string) :
  q_model chat_question = Some m ->
  m <> "" ->
  in_ (Some m)
    (allowed_models (Utils.get_user_settings (surroundings env) current_user))
  = false ->
  validate_authorization (get_chat_strategy env brain_id)
    (user_id current_user) brain_id = Return tt ->
  (exists args q',
     arg_model args = Some "gpt-3.5-turbo"
     /\ arg_streaming args = false
     /\ q_model q' = Some m
     /\ generator_models
          (snd (create_question_handler env chat_question chat_id brain_id
                  current_user w))
        = [Some "gpt-3.5-turbo"]
     /\ fst (fst (create_question_handler env chat_question chat_id brain_id
                    current_user w))
        = bind (get_answer_generator (get_chat_strategy env brain_id) args)
            (fun g => generate_answer g chat_id q'))
  /\ (exists args q',
        arg_model args = Some "gpt-3.5-turbo"
        /\ arg_streaming args = true
        /\ q_model q' = Some m
        /\ generator_models
             (snd (create_stream_question_handler env chat_question chat_id
                     brain_id current_user w))
           = [Some "gpt-3.5-turbo"]
        /\ fst (fst (create_stream_question_handler env chat_question chat_id
                       brain_id current_user w))
           = bind (get_answer_generator (get_chat_strategy env brain_id) args)
               (fun _ =>
                  Return (mkStreamingResponse (mkStreamCall args chat_id q')
                            "text/event-stream"))).
Proof.
  intros Hm Hne Hin Hauth. split.
  - unfold create_question_handler. rewrite Hauth.
    unfold Utils.check_user_requests_limit.
    match goal with
    | |- context [if ?c then _ else _] => destruct c
    end.
    + pose proof (brain_fallbacks_no_generator env brain_id
                    (mkFallbacks "gpt-3.5-turbo" 0.1%float 512%Z)) as Hb.
      destruct (brain_fallbacks env brain_id _) as [fb looked_up].
      simpl in Hb.
      assert (Hq : q_model (fill_question chat_question fb) = Some m).
      { simpl. rewrite Hm. now rewrite or_val_named. }
      rewrite (@model_argument_fallback _ (fill_question chat_question fb))
        by (rewrite Hq; exact Hin).
      match goal with
      | |- context [get_answer_generator _ ?a] => exists a
      end.
      exists (fill_question chat_question fb).
      split; [reflexivity|]. split; [reflexivity|]. split; [exact Hq|].
      destruct (get_answer_generator _ _) eqn:E; simpl;
        rewrite ?generator_models_app, Hb; simpl; split; reflexivity.
    + rewrite (@model_argument_fallback _ chat_question)
        by (rewrite Hm; exact Hin).
      match goal with
      | |- context [get_answer_generator _ ?a] => exists a
      end.
      exists chat_question.
      split; [reflexivity|]. split; [reflexivity|]. split; [exact Hm|].
      destruct (get_answer_generator _ _) eqn:E; simpl; split; reflexivity.
  - unfold create_stream_question_handler. rewrite Hauth.
    match goal with
    | |- context [if ?c then _ else _] => destruct c
    end.
    + pose proof (brain_fallbacks_no_generator env brain_id
                    (mkFallbacks "gpt-3.5-turbo" 0%float 256%Z)) as Hb.
      destruct (brain_fallbacks env brain_id _) as [fb looked_up].
      simpl in Hb.
      assert (Hq : q_model (fill_question chat_question fb) = Some m).
      { simpl. rewrite Hm. now rewrite or_val_named. }
      rewrite (@model_argument_fallback _ (fill_question chat_question fb))
        by (rewrite Hq; exact Hin).
      match goal with
      | |- context [get_answer_generator _ ?a] => exists a
      end.
      exists (fill_question chat_question fb).
      split; [reflexivity|]. split; [reflexivity|]. split; [exact Hq|].
      destruct (get_answer_generator _ _) eqn:E; simpl;
        rewrite ?generator_models_app, Hb; simpl; split; reflexivity.
    + rewrite (@model_argument_fallback _ chat_question)
        by (rewrite Hm; exact Hin).
      match goal with
      | |- context [get_answer_generator _ ?a] => exists a
      end.
      exists chat_question.
      split; [reflexivity|]. split; [reflexivity|]. split; [exact Hm|].
      destruct (get_answer_generator _ _) eqn:E; simpl; split; reflexivity.
Qed.

Lemma unlisted_model_falls_back_witness :
  q_model Demo.gpt4_question = Some "gpt-4"
  /\ in_ (Some "gpt-4") (allowed_models Demo.default_only) = false
  /\ generator_models
       (snd (create_question_handler Demo.routes_env Demo.gpt4_question
               Demo.chat_42 None Demo.alice Demo.empty_world))
     = [Some "gpt-3.5-turbo"]
  /\ generator_models
       (snd (create_stream_question_handler Demo.routes_env
               Demo.gpt4_question Demo.chat_42 None Demo.alice
               Demo.empty_world))
     = [Some "gpt-3.5-turbo"].
Proof.
  assert (Hm : q_model Demo.gpt4_question = Some "gpt-4") by reflexivity.
  assert (Hne : "gpt-4" <> "") by discriminate.
  assert (Hin : in_ (Some "gpt-4")
                  (allowed_models
                     (Utils.get_user_settings (surroundings Demo.routes_env)
                        Demo.alice))
                = false) by (vm_compute; reflexivity).
  assert (Hauth : validate_authorization
                    (get_chat_strategy Demo.routes_env None)
                    (user_id Demo.alice) None
                  = Return tt) by reflexivity.
  destruct (@unlisted_model_falls_back Demo.routes_env Demo.gpt4_question
              Demo.chat_42 None Demo.alice Demo.empty_world "gpt-4"
              Hm Hne Hin Hauth)
    as [(a1 & q1 & _ & _ & _ & H1 & _) (a2 & q2 & _ & _ & _ & H2 & _)].
  split; [exact Hm|]. split; [exact Hin|]. split; [exact H1 | exact H2].
Defined.

(** C6 as the specification states it fails on the code.  The question
    names [gpt-4], the user is allowed [gpt-3.5-turbo] only: the first
    handler returns the answer of a generator it has asked for, the second
    returns its streaming response, and neither raises an HTTP 400 or 429. *)
Lemma unlisted_model_is_not_rejected :
  in_ (q_model Demo.gpt4_question) (allowed_models Demo.default_only) = false
  /\ fst (fst (create_question_handler Demo.routes_env Demo.gpt4_question
                 Demo.chat_42 None Demo.alice Demo.empty_world))
     = Return Demo.canned_answer
  /\ is_400_or_429
       (fst (fst (create_question_handler Demo.routes_env Demo.gpt4_question
                    Demo.chat_42 None Demo.alice Demo.empty_world)))
     = false
  /\ generator_invoked
       (snd (create_question_handler Demo.routes_env Demo.gpt4_question
               Demo.chat_42 None Demo.alice Demo.empty_world))
     = true
  /\ is_400_or_429
       (fst (fst (create_stream_question_handler Demo.routes_env
                    Demo.gpt4_question Demo.chat_42 None Demo.alice
                    Demo.empty_world)))
     = false
  /\ generator_invoked
       (snd (create_stream_question_handler Demo.routes_env
               Demo.gpt4_question Demo.chat_42 None Demo.alice
               Demo.empty_world))
     = true.
Proof.
  vm_compute. repeat split.
Qed.

End RoutesFacts.

(** ** llm/qa_headless.py: further properties of [generate_stream] *)

Module StreamMore.
Import Py Models QAHeadless StreamInvariant StreamFacts InstanceFields.

Section Run.

Variable env : Env.
Variable chat_id : UUID.
Variable question : ChatQuestion.
Variable self0 : HeadlessQA.

Local Abbreviation c0 := (completion env question self0).
Local Abbreviation ph :=
  (placeholder env chat_id question (stream_self env self0)).
Local Abbreviation step' := (step env chat_id question).
Local Abbreviation run' := (run env chat_id question).
Local Abbreviation Inv := (StreamInvariant.Inv env chat_id question self0).
Local Abbreviation steps_left :=
  (StreamInvariant.steps_left env question self0).

Lemma steps_left_run (sched : list Action) :
  forall s s',
    Inv s -> ~ In Disconnect sched -> run' sched s = Some s' ->
    steps_left s = length sched + steps_left s'.
Proof.
  induction sched as [|a sched IH]; intros s s' I Hnd Hrun; simpl in *.
  - inversion Hrun; subst; reflexivity.
  - destruct (step' a s) as [s1|] eqn:Hs; [|discriminate].
    assert (Ha : a <> Disconnect) by (intros E; apply Hnd; left; auto).
    rewrite (steps_left_step I Ha Hs).
    rewrite (IH s1 s'); auto.
    eapply inv_step; eauto.
Qed.

(** The steps of a whole request: start, one step of the task and one of
    the generator per token, the end signal if the client gives one, the
    end of the task, the end of the loop and the final update. *)
Theorem generate_stream_is_bounded (sched : list Action) (s : State) :
  run' sched (initial self0) = Some s ->
  ~ In Disconnect sched ->
  length sched + steps_left s
  = 2 * length (produced_tokens c0)
    + (if signals_end c0 then 1 else 0) + 4
  /\ (over s -> steps_left s = 0).
Proof.
  intros Hrun Hnd.
  pose proof (inv_run sched (inv_initial env chat_id question self0) Hrun)
    as I.
  split.
  - rewrite <- (@steps_left_run sched (initial self0) s
               (inv_initial env chat_id question self0) Hnd Hrun).
    unfold StreamInvariant.steps_left. simpl. lia.
  - intros [Hf|[e He]]; unfold StreamInvariant.steps_left.
    + rewrite Hf. now rewrite (proj1 (inv_finished I Hf)).
    + rewrite He. now rewrite (inv_crashed I He).
Qed.

(** While a request is not over and its consumer has not gone away, the
    generator or the background task can take a step: the generator never
    waits for a token or for the task after the task has ended. *)
Theorem generate_stream_never_deadlocks (sched : list Action) (s : State) :
  run' sched (initial self0) = Some s ->
  pc s <> Closed -> ~ over s ->
  (exists s', step' RunGenerator s = Some s')
  \/ (exists s', step' RunTask s = Some s').
Proof.
  intros Hrun Hcl Hov.
  pose proof (inv_run sched (inv_initial env chat_id question self0) Hrun)
    as I.
  destruct (generator_or_task_can_run I Hcl Hov) as (a & s' & Ha & Hs).
  destruct a; [left | right | congruence]; eauto.
Qed.

Lemma closed_stays_closed (a : Action) (s s' : State) :
  pc s = Closed -> step' a s = Some s' -> pc s' = Closed.
Proof.
  intros Hpc. destruct a; simpl.
  - unfold step_generator. rewrite Hpc. discriminate.
  - unfold step_task.
    destruct (run_task s) as [|todo|r]; try discriminate.
    destruct (produced_tokens todo); [destruct (signals_end todo)|];
      try (intros H; inversion H; subst; simpl; exact Hpc).
    unfold wrap_done.
    destruct (outcome todo) as [u|e]; [|destruct (isinstance_Exception e)];
      intros H; inversion H; subst; simpl; exact Hpc.
  - rewrite Hpc. discriminate.
Qed.

Lemma closed_run (sched : list Action) :
  forall s s', pc s = Closed -> run' sched s = Some s' -> pc s' = Closed.
Proof.
  induction sched as [|a sched IH]; intros s s' Hpc Hrun; simpl in *.
  - inversion Hrun; subst; exact Hpc.
  - destruct (step' a s) as [s1|] eqn:Hs; [|discriminate].
    eapply IH; [|exact Hrun]. eapply closed_stays_closed; eauto.
Qed.

(** A consumer that goes away leaves the placeholder as it is: whatever
    runs afterwards (the background task is not cancelled and goes on
    queueing tokens), the entry created with an empty assistant text is
    never updated, and no further frame is produced. *)
Theorem disconnect_leaves_placeholder
    (sched sched' : list Action) (s s' : State) :
  run' sched (initial self0) = Some s ->
  pc s = Closed ->
  run' sched' s = Some s' ->
  pc s' = Closed
  /\ created_entries (trace s') = [ph]
  /\ c_assistant ph = ""
  /\ final_updates (trace s') = []
  /\ yielded (trace s') = yielded (trace s).
Proof.
  intros Hrun Hpc Hrun'.
  pose proof (inv_run sched (inv_initial env chat_id question self0) Hrun)
    as I.
  pose proof (inv_run sched' I Hrun') as I'.
  pose proof (@closed_run sched' s s' Hpc Hrun') as Hpc'.
  split; [exact Hpc'|]. split.
  { apply created_is_placeholder; [exact I' | congruence]. }
  split; [reflexivity|]. split.
  { pose proof (inv_final I') as Hf. now rewrite Hpc' in Hf. }
  clear I I' Hrun. revert s s' Hpc Hpc' Hrun'.
  induction sched' as [|a sched' IH]; intros s s' Hpc Hpc' Hrun'; simpl in *.
  - inversion Hrun'; subst; reflexivity.
  - destruct (step' a s) as [s1|] eqn:Hs; [|discriminate].
    pose proof (@closed_stays_closed a s s1 Hpc Hs) as Hpc1.
    rewrite (IH s1 s' Hpc1 Hpc' Hrun'). clear IH Hrun'.
    destruct a; simpl in Hs.
    + unfold step_generator in Hs. rewrite Hpc in Hs. discriminate.
    + unfold step_task in Hs.
      destruct (run_task s) as [|todo|r]; try discriminate.
      destruct (produced_tokens todo); [destruct (signals_end todo)|];
        try (inversion Hs; subst; simpl; rewrite yielded_app; simpl;
             now rewrite app_nil_r).
      unfold wrap_done in Hs.
      destruct (outcome todo) as [u|e]; [|destruct (isinstance_Exception e)];
        inversion Hs; subst; simpl; rewrite !yielded_app; simpl;
        now rewrite !app_nil_r.
    + rewrite Hpc in Hs. discriminate.
Qed.

(** When the completion call ends in an exception outside [Exception]
    (a cancellation, say), [wrap_done] logs nothing and the task keeps the
    exception: the request never reaches its final update, the placeholder
    is never updated, and unless the consumer goes away the generator ends
    with that very exception, after the frames of all tokens produced. *)
Theorem base_exception_ends_generator (e : Exc) (sched : list Action)
    (s : State) :
  outcome c0 = Raise e ->
  isinstance_Exception e = false ->
  run' sched (initial self0) = Some s ->
  pc s <> Finished
  /\ final_updates (trace s) = []
  /\ logged_errors (trace s) = []
  /\ (forall e',
        pc s = Crashed e' ->
        e' = e
        /\ yielded (trace s)
           = map (frame env chat_id question self0) (produced_tokens c0))
  /\ (pc s <> Closed ->
      exists sched' s', run' sched' s = Some s' /\ pc s' = Crashed e).
Proof.
  intros Hout Hexc Hrun.
  pose proof (inv_run sched (inv_initial env chat_id question self0) Hrun)
    as I.
  assert (Hte : task_exception (outcome c0) = Some e).
  { unfold task_exception. now rewrite Hout, Hexc. }
  assert (Hnf : forall s1, Inv s1 -> pc s1 <> Finished).
  { intros s1 I1 Hf. destruct (inv_finished I1 Hf) as [Hr _].
    pose proof (inv_task I1) as Ht. rewrite Hr in Ht.
    destruct Ht as (_ & _ & Hr' & _). congruence. }
  split; [exact (Hnf s I)|]. split.
  { pose proof (inv_final I) as Hf. pose proof (Hnf s I).
    destruct (pc s); congruence. }
  split.
  { pose proof (inv_task I) as Ht.
    destruct (run_task s) as [|todo|r] eqn:Hr.
    - rewrite (inv_start I Ht). reflexivity.
    - tauto.
    - destruct Ht as (_ & _ & _ & Hl & _). rewrite Hl.
      unfold caught_log. now rewrite Hout, Hexc. }
  split.
  { intros e' He'.
    pose proof (inv_crashed I He') as Hr.
    pose proof (inv_task I) as Ht. rewrite Hr in Ht.
    destruct Ht as (Hq & _ & Hr' & _).
    pose proof (inv_after_loop I) as Ha. rewrite He' in Ha.
    pose proof (inv_queued I) as Hqq.
    destruct Ha as [Hqueue _]. rewrite Hqueue, app_nil_r in Hqq.
    split; [congruence|].
    rewrite (inv_yielded I). congruence. }
  intros Hcl.
  destruct (@request_completes env chat_id question self0
              (steps_left s) s I Hcl (le_n _))
    as (sched' & s' & Hr & Hov & _).
  exists sched', s'. split; [exact Hr|].
  pose proof (inv_run sched' I Hr) as I'.
  destruct Hov as [Hf|[e' He']].
  - exfalso. exact (Hnf s' I' Hf).
  - pose proof (inv_crashed I' He') as Hr'.
    pose proof (inv_task I') as Ht. rewrite Hr' in Ht.
    destruct Ht as (_ & _ & Hr'' & _). congruence.
Qed.

End Run.

(** *** What a request reads of its instance *)

Lemma same_step (env : Env) (chat_id : UUID) (question : ChatQuestion)
    (a : Action) (s1 s2 : State) :
  same_but_instance s1 s2 ->
  same_outcome (step env chat_id question a s1)
    (step env chat_id question a s2).
Proof.
  destruct s1 as [p1 self1 t1 q1 d1 r1 h1 tr1].
  destruct s2 as [p2 self2 t2 q2 d2 r2 h2 tr2].
  unfold same_but_instance, same_request. simpl.
  intros (Hp & (Hm & Hc & Hpr) & Ht & Hq & Hd & Hr & Hh & Htr).
  subst p2 t2 q2 d2 r2 h2 tr2.
  destruct a; simpl.
  - unfold step_generator; simpl. destruct p1; simpl; auto.
    + destruct self1 as [m1 te1 mt1 st1 c1 cb1 pr1].
      destruct self2 as [m2 te2 mt2 st2 c2 cb2 pr2].
      simpl in Hm, Hc, Hpr. subst m2 c2 pr2.
      unfold same_but_instance, same_request. simpl.
      repeat split; reflexivity.
    + destruct q1; simpl; [destruct d1; simpl; auto|].
      * unfold same_but_instance, same_request; simpl. tauto.
      * unfold loop_body; simpl. destruct h1; simpl; auto.
        unfold same_but_instance, same_request; simpl. tauto.
    + destruct t1 as [|todo|[e|]]; simpl; auto.
      * unfold same_but_instance, same_request; simpl. tauto.
      * unfold finalize; simpl. destruct h1; simpl; auto.
        unfold same_but_instance, same_request; simpl. tauto.
  - unfold step_task; simpl. destruct t1 as [|todo|r]; simpl; auto.
    destruct (produced_tokens todo); simpl.
    + destruct (signals_end todo); simpl.
      * unfold same_but_instance, same_request; simpl. tauto.
      * unfold wrap_done.
        destruct (outcome todo) as [u|e];
          [|destruct (isinstance_Exception e)]; simpl;
          unfold same_but_instance, same_request; simpl; tauto.
    + unfold same_but_instance, same_request; simpl. tauto.
  - destruct p1; simpl; auto;
      unfold same_but_instance, same_request; simpl; tauto.
Qed.

Lemma same_run (env : Env) (chat_id : UUID) (question : ChatQuestion)
    (sched : list Action) :
  forall s1 s2,
    same_but_instance s1 s2 ->
    same_outcome (run env chat_id question sched s1)
      (run env chat_id question sched s2).
Proof.
  induction sched as [|a sched IH]; intros s1 s2 H; simpl.
  - exact H.
  - pose proof (same_step env chat_id question a H) as Hs.
    destruct (step env chat_id question a s1) as [s1'|],
             (step env chat_id question a s2) as [s2'|];
      simpl in Hs; try contradiction; auto.
Qed.

(** Of its instance a streaming request reads [model], [chat_id] and
    [prompt_id] and nothing else: [max_tokens], [temperature], [streaming]
    and the callbacks set at construction have no influence on what it
    does.  Two instances that agree on the three fields go, under every
    schedule, through the same control points with the same effects. *)
Theorem generate_stream_reads_three_fields
    (env : Env) (chat_id : UUID) (question : ChatQuestion)
    (a b : HeadlessQA) (sched : list Action) :
  same_request a b ->
  option_map trace (run env chat_id question sched (initial a))
  = option_map trace (run env chat_id question sched (initial b))
  /\ option_map pc (run env chat_id question sched (initial a))
     = option_map pc (run env chat_id question sched (initial b))
  /\ (callbacks a = callbacks b ->
      generate_answer env a chat_id question
      = generate_answer env b chat_id question).
Proof.
  intros Hsame.
  assert (Hanswer : callbacks a = callbacks b ->
                    generate_answer env a chat_id question
                    = generate_answer env b chat_id question).
  { destruct Hsame as (Hm & Hc & Hp). intros Hcb.
    unfold generate_answer, build_messages, prompt_content_of,
      prompt_title_of, prompt_to_use, prompt_to_use_id, _create_llm.
    now rewrite Hm, Hc, Hp, Hcb. }
  assert (H : same_but_instance (initial a) (initial b)).
  { unfold same_but_instance. simpl. tauto. }
  pose proof (same_run env chat_id question sched H) as Hr.
  destruct (run env chat_id question sched (initial a)) as [s1|],
           (run env chat_id question sched (initial b)) as [s2|];
    simpl in Hr; try contradiction; [|repeat split; auto].
  unfold same_but_instance in Hr. simpl.
  destruct Hr as (Hp & _ & _ & _ & _ & _ & _ & Htr).
  rewrite Hp, Htr. auto.
Qed.


(** *** The properties at work *)

Lemma generate_stream_reads_three_fields_witness :
  same_request Demo.qa DemoMore.other_qa
  /\ option_map trace
       (run (Demo.headless_env Demo.hello) Demo.chat_42 Demo.hi
          Demo.interleaved (initial Demo.qa))
     = option_map trace
         (run (Demo.headless_env Demo.hello) Demo.chat_42 Demo.hi
            Demo.interleaved (initial DemoMore.other_qa)).
Proof.
  assert (Hsame : same_request Demo.qa DemoMore.other_qa)
    by (repeat split; reflexivity).
  split; [exact Hsame|].
  exact (proj1 (@generate_stream_reads_three_fields
                  (Demo.headless_env Demo.hello) Demo.chat_42 Demo.hi
                  Demo.qa DemoMore.other_qa Demo.interleaved Hsame)).
Defined.

Lemma generate_stream_is_bounded_witness :
  run (Demo.headless_env Demo.hello) Demo.chat_42 Demo.hi Demo.interleaved
    (initial Demo.qa)
  = Some (Demo.final_state Demo.hello Demo.interleaved)
  /\ length Demo.interleaved
     + steps_left (Demo.headless_env Demo.hello) Demo.hi Demo.qa
         (Demo.final_state Demo.hello Demo.interleaved)
     = 9.
Proof.
  assert (Hrun : run (Demo.headless_env Demo.hello) Demo.chat_42 Demo.hi
                   Demo.interleaved (initial Demo.qa)
                 = Some (Demo.final_state Demo.hello Demo.interleaved))
    by by_evaluation.
  assert (Hnd : ~ In Disconnect Demo.interleaved).
  { vm_compute. intros H.
    repeat (destruct H as [H|H]; [discriminate|]). exact H. }
  split; [exact Hrun|].
  destruct (@generate_stream_is_bounded (Demo.headless_env Demo.hello)
              Demo.chat_42 Demo.hi Demo.qa Demo.interleaved _ Hrun Hnd)
    as [Hsum _].
  vm_compute in Hsum. vm_compute. exact Hsum.
Defined.

Lemma generate_stream_never_deadlocks_witness :
  run (Demo.headless_env Demo.hello) Demo.chat_42 Demo.hi [RunGenerator]
    (initial Demo.qa)
  = Some (Demo.final_state Demo.hello [RunGenerator])
  /\ ((exists s',
         step (Demo.headless_env Demo.hello) Demo.chat_42 Demo.hi RunGenerator
           (Demo.final_state Demo.hello [RunGenerator]) = Some s')
      \/ (exists s',
            step (Demo.headless_env Demo.hello) Demo.chat_42 Demo.hi RunTask
              (Demo.final_state Demo.hello [RunGenerator]) = Some s')).
Proof.
  assert (Hrun : run (Demo.headless_env Demo.hello) Demo.chat_42 Demo.hi
                   [RunGenerator] (initial Demo.qa)
                 = Some (Demo.final_state Demo.hello [RunGenerator]))
    by by_evaluation.
  assert (Hpc : pc (Demo.final_state Demo.hello [RunGenerator]) = Loop)
    by by_evaluation.
  split; [exact Hrun|].
  apply (@generate_stream_never_deadlocks (Demo.headless_env Demo.hello)
           Demo.chat_42 Demo.hi Demo.qa [RunGenerator] _ Hrun).
  - rewrite Hpc. discriminate.
  - unfold over. rewrite Hpc. intros [H|[e H]]; discriminate.
Defined.

Lemma disconnect_leaves_placeholder_witness :
  run (Demo.headless_env Demo.hello) Demo.chat_42 Demo.hi
    DemoMore.until_disconnect (initial Demo.qa)
  = Some (Demo.final_state Demo.hello DemoMore.until_disconnect)
  /\ pc (Demo.final_state Demo.hello DemoMore.until_disconnect) = Closed
  /\ run (Demo.headless_env Demo.hello) Demo.chat_42 Demo.hi
       DemoMore.task_goes_on
       (Demo.final_state Demo.hello DemoMore.until_disconnect)
     = Some (Demo.final_state Demo.hello
               (DemoMore.until_disconnect ++ DemoMore.task_goes_on))
  /\ final_updates
       (trace (Demo.final_state Demo.hello
                 (DemoMore.until_disconnect ++ DemoMore.task_goes_on)))
     = [].
Proof.
  assert (Hrun : run (Demo.headless_env Demo.hello) Demo.chat_42 Demo.hi
                   DemoMore.until_disconnect (initial Demo.qa)
                 = Some (Demo.final_state Demo.hello
                           DemoMore.until_disconnect))
    by by_evaluation.
  assert (Hpc : pc (Demo.final_state Demo.hello DemoMore.until_disconnect)
                = Closed)
    by by_evaluation.
  assert (Hrun' : run (Demo.headless_env Demo.hello) Demo.chat_42 Demo.hi
                    DemoMore.task_goes_on
                    (Demo.final_state Demo.hello DemoMore.until_disconnect)
                  = Some (Demo.final_state Demo.hello
                            (DemoMore.until_disconnect
                             ++ DemoMore.task_goes_on)))
    by by_evaluation.
  split; [exact Hrun|]. split; [exact Hpc|]. split; [exact Hrun'|].
  destruct (@disconnect_leaves_placeholder (Demo.headless_env Demo.hello)
              Demo.chat_42 Demo.hi Demo.qa DemoMore.until_disconnect
              DemoMore.task_goes_on _ _ Hrun Hpc Hrun')
    as (_ & _ & _ & Hf & _).
  exact Hf.
Defined.

Lemma base_exception_ends_generator_witness :
  outcome (completion (Demo.headless_env DemoMore.cancelled) Demo.hi Demo.qa)
  = Raise (mkExc (BaseExceptionOnly "CancelledError") "")
  /\ run (Demo.headless_env DemoMore.cancelled) Demo.chat_42 Demo.hi
       DemoMore.until_cancelled (initial Demo.qa)
     = Some (Demo.final_state DemoMore.cancelled DemoMore.until_cancelled)
  /\ pc (Demo.final_state DemoMore.cancelled DemoMore.until_cancelled)
     = Crashed (mkExc (BaseExceptionOnly "CancelledError") "")
  /\ final_updates
       (trace (Demo.final_state DemoMore.cancelled DemoMore.until_cancelled))
     = [].
Proof.
  assert (Hout : outcome (completion (Demo.headless_env DemoMore.cancelled)
                            Demo.hi Demo.qa)
                 = Raise (mkExc (BaseExceptionOnly "CancelledError") ""))
    by by_evaluation.
  assert (Hrun : run (Demo.headless_env DemoMore.cancelled) Demo.chat_42
                   Demo.hi DemoMore.until_cancelled (initial Demo.qa)
                 = Some (Demo.final_state DemoMore.cancelled
                           DemoMore.until_cancelled))
    by by_evaluation.
  split; [exact Hout|]. split; [exact Hrun|]. split; [by_evaluation|].
  destruct (@base_exception_ends_generator
              (Demo.headless_env DemoMore.cancelled) Demo.chat_42 Demo.hi
              Demo.qa _ DemoMore.until_cancelled _ Hout eq_refl Hrun)
    as (_ & Hf & _).
  exact Hf.
Defined.

End StreamMore.

(** ** routes/chat_routes.py: further properties of the question handlers *)

Module RoutesMore.
Import Py Models ChatRoutes ChatMetadata.

Lemma or_val_truthy (A : Type) (truthy : option A -> bool) (x : option A)
    (d : A) :
  truthy (Some d) = true -> truthy (Some (or_val truthy x d)) = true.
Proof.
  intros Hd. unfold or_val. destruct x as [a|]; [|exact Hd].
  destruct (truthy (Some a)) eqn:E; [exact E | exact Hd].
Qed.

Lemma brain_fallbacks_truthy (env : Env) (brain_id : option UUID)
    (defaults : Fallbacks) :
  truthy_str (Some (fallback_model defaults)) = true ->
  truthy_int (Some (fallback_max_tokens defaults)) = true ->
  truthy_str
    (Some (fallback_model (fst (brain_fallbacks env brain_id defaults))))
  = true
  /\ truthy_int
       (Some (fallback_max_tokens
                (fst (brain_fallbacks env brain_id defaults))))
     = true
  /\ (truthy_float (Some (fallback_temperature defaults)) = true ->
      truthy_float
        (Some (fallback_temperature
                 (fst (brain_fallbacks env brain_id defaults))))
      = true).
Proof.
  intros Hm Ht. unfold brain_fallbacks.
  destruct brain_id as [b|]; [destruct (get_brain_by_id env b)|];
    cbn [fst fallback_model fallback_temperature fallback_max_tokens];
    repeat split; intros; try apply or_val_truthy; assumption.
Qed.

Lemma in_allowed (m : string) (l : list string) :
  in_ (Some m) l = true -> In m l.
Proof.
  simpl. intros H. apply existsb_exists in H. destruct H as (x & Hx & E).
  apply String.eqb_eq in E. now subst.
Qed.

(** The first handler, once authorization has passed. *)
Lemma create_question_handler_authorized
    (env : Env) (q : ChatQuestion) (chat_id : UUID) (brain_id : option UUID)
    (user : UserIdentity) (w : Utils.World) (u : unit) :
  validate_authorization (get_chat_strategy env brain_id) (user_id user)
    brain_id = Return u ->
  let p := prepared env question_defaults (complete q) q brain_id in
  let args := arguments_for env (fst p) chat_id brain_id user false in
  create_question_handler env q chat_id brain_id user w
  = (bind (get_answer_generator (get_chat_strategy env brain_id) args)
       (fun g => generate_answer g chat_id (fst p)),
     snd (Utils.check_user_requests_limit (surroundings env) user w),
     ([CallValidateAuthorization (user_id user) brain_id] ++ snd p
      ++ [CallCheckUserRequestsLimit user; CallGetAnswerGenerator args]
      ++ match get_answer_generator (get_chat_strategy env brain_id) args
         with
         | Return _ => [CallGenerateAnswer chat_id (fst p)]
         | Raise _ => []
         end)%list).
Proof.
  intros Hauth. unfold create_question_handler. rewrite Hauth.
  unfold prepared, complete, arguments_for, question_defaults.
  unfold Utils.check_user_requests_limit.
  destruct (truthy_str (q_model q)), (truthy_float (q_temperature q)),
    (truthy_int (q_max_tokens q)); simpl;
    try destruct (brain_fallbacks env brain_id _) as [fb looked_up]; simpl;
    destruct (get_answer_generator _ _); simpl;
    rewrite <- ?app_assoc; reflexivity.
Qed.

(** The second handler, once authorization has passed. *)
Lemma create_stream_question_handler_authorized
    (env : Env) (q : ChatQuestion) (chat_id : UUID) (brain_id : option UUID)
    (user : UserIdentity) (w : Utils.World) (u : unit) :
  validate_authorization (get_chat_strategy env brain_id) (user_id user)
    brain_id = Return u ->
  let p := prepared env stream_defaults (complete_for_stream q) q brain_id in
  let args := arguments_for env (fst p) chat_id brain_id user true in
  create_stream_question_handler env q chat_id brain_id user w
  = (bind (get_answer_generator (get_chat_strategy env brain_id) args)
       (fun _ =>
          Return (mkStreamingResponse (mkStreamCall args chat_id (fst p))
                    "text/event-stream")),
     w,
     ([CallValidateAuthorization (user_id user) brain_id] ++ snd p
      ++ [CallLogInfo ("Streaming request for "
                       ++ fmt_model (q_model (fst p)));
          CallLogInfo "PASSSSSSS"; CallGetAnswerGenerator args]
      ++ match get_answer_generator (get_chat_strategy env brain_id) args
         with
         | Return _ => [CallGenerateStream chat_id (fst p)]
         | Raise _ => []
         end)%list).
Proof.
  intros Hauth. unfold create_stream_question_handler. rewrite Hauth.
  unfold prepared, complete_for_stream, arguments_for, stream_defaults.
  destruct (truthy_str (q_model q)), (q_temperature q),
    (truthy_int (q_max_tokens q)); simpl;
    try destruct (brain_fallbacks env brain_id _) as [fb looked_up]; simpl;
    destruct (get_answer_generator _ _); simpl;
    rewrite <- ?app_assoc; reflexivity.
Qed.


Lemma generator_args_app (a b : list Call) :
  generator_args (a ++ b) = (generator_args a ++ generator_args b)%list.
Proof. apply flat_map_app. Qed.

Lemma brain_lookups_app (a b : list Call) :
  brain_lookups (a ++ b) = (brain_lookups a ++ brain_lookups b)%list.
Proof. apply flat_map_app. Qed.

Lemma prepared_no_generator (env : Env) (defaults : Fallbacks) (c : bool)
    (q : ChatQuestion) (brain_id : option UUID) :
  generator_args (snd (prepared env defaults c q brain_id)) = [].
Proof.
  unfold prepared, brain_fallbacks. destruct c; [reflexivity|].
  destruct brain_id as [b|]; [destruct (get_brain_by_id env b)|]; reflexivity.
Qed.

Lemma limit_checks_app (a b : list Call) :
  limit_checks (a ++ b) = (limit_checks a ++ limit_checks b)%list.
Proof. apply flat_map_app. Qed.

Lemma prepared_no_limit_check (env : Env) (defaults : Fallbacks) (c : bool)
    (q : ChatQuestion) (brain_id : option UUID) :
  limit_checks (snd (prepared env defaults c q brain_id)) = [].
Proof.
  unfold prepared, brain_fallbacks. destruct c; [reflexivity|].
  destruct brain_id as [b|]; [destruct (get_brain_by_id env b)|]; reflexivity.
Qed.

Lemma prepared_lookups (env : Env) (defaults : Fallbacks) (c : bool)
    (q : ChatQuestion) (brain_id : option UUID) :
  brain_lookups (snd (prepared env defaults c q brain_id))
  = if c then []
    else match brain_id with Some b => [b] | None => [] end.
Proof.
  unfold prepared, brain_fallbacks. destruct c; [reflexivity|].
  destruct brain_id as [b|]; [destruct (get_brain_by_id env b)|]; reflexivity.
Qed.

Lemma generator_args_question (env : Env) (q : ChatQuestion) (chat_id : UUID)
    (brain_id : option UUID) (user : UserIdentity) (w : Utils.World) :
  generator_args
    (snd (create_question_handler env q chat_id brain_id user w))
  = match validate_authorization (get_chat_strategy env brain_id)
            (user_id user) brain_id with
    | Return _ =>
        [arguments_for env
           (fst (prepared env question_defaults (complete q) q brain_id))
           chat_id brain_id user false]
    | Raise _ => []
    end.
Proof.
  destruct (validate_authorization _ _ _) as [u|e] eqn:Hauth.
  - rewrite (create_question_handler_authorized env q chat_id brain_id user w
               Hauth).
    cbn [snd]. rewrite !generator_args_app, prepared_no_generator.
    destruct (get_answer_generator _ _); reflexivity.
  - unfold create_question_handler. rewrite Hauth. reflexivity.
Qed.

Lemma generator_args_stream (env : Env) (q : ChatQuestion) (chat_id : UUID)
    (brain_id : option UUID) (user : UserIdentity) (w : Utils.World) :
  generator_args
    (snd (create_stream_question_handler env q chat_id brain_id user w))
  = match validate_authorization (get_chat_strategy env brain_id)
            (user_id user) brain_id with
    | Return _ =>
        [arguments_for env
           (fst (prepared env stream_defaults (complete_for_stream q) q
                   brain_id))
           chat_id brain_id user true]
    | Raise _ => []
    end.
Proof.
  destruct (validate_authorization _ _ _) as [u|e] eqn:Hauth.
  - rewrite (create_stream_question_handler_authorized env q chat_id brain_id
               user w Hauth).
    cbn [snd]. rewrite !generator_args_app, prepared_no_generator.
    destruct (get_answer_generator _ _); reflexivity.
  - unfold create_stream_question_handler. rewrite Hauth. reflexivity.
Qed.

Lemma prepared_filled (env : Env) (q : ChatQuestion)
    (brain_id : option UUID) :
  let q' := fst (prepared env question_defaults (complete q) q brain_id) in
  truthy_str (q_model q') = true
  /\ truthy_float (q_temperature q') = true
  /\ truthy_int (q_max_tokens q') = true.
Proof.
  unfold prepared. destruct (complete q) eqn:Hc; cbn [fst].
  - unfold complete in Hc. apply andb_prop in Hc. destruct Hc as [Hc H3].
    apply andb_prop in Hc. tauto.
  - destruct (@brain_fallbacks_truthy env brain_id question_defaults
                eq_refl eq_refl) as (Hm & Ht & Hf).
    specialize (Hf eq_refl).
    cbn [fill_question q_model q_temperature q_max_tokens].
    repeat split; apply or_val_truthy; assumption.
Qed.

Lemma prepared_filled_stream (env : Env) (q : ChatQuestion)
    (brain_id : option UUID) :
  let q' :=
    fst (prepared env stream_defaults (complete_for_stream q) q brain_id) in
  truthy_str (q_model q') = true
  /\ q_temperature q' <> None
  /\ truthy_int (q_max_tokens q') = true.
Proof.
  unfold prepared. destruct (complete_for_stream q) eqn:Hc; cbn [fst].
  - unfold complete_for_stream in Hc.
    apply andb_prop in Hc. destruct Hc as [Hc H3].
    apply andb_prop in Hc. destruct Hc as [H1 H2].
    repeat split; auto. destruct (q_temperature q); discriminate.
  - destruct (@brain_fallbacks_truthy env brain_id stream_defaults
                eq_refl eq_refl) as (Hm & Ht & _).
    cbn [fill_question q_model q_temperature q_max_tokens].
    repeat split; try (apply or_val_truthy; assumption). discriminate.
Qed.

Lemma model_argument_cases (user_settings : UserSettings) (q : ChatQuestion) :
  truthy_str (q_model q) = true ->
  exists m,
    model_argument user_settings q = Some m
    /\ m <> ""
    /\ (In m (allowed_models user_settings) \/ m = "gpt-3.5-turbo").
Proof.
  intros Ht. unfold model_argument.
  destruct (in_ (q_model q) (allowed_models user_settings)) eqn:Hin.
  - destruct (q_model q) as [m|]; [|discriminate].
    exists m. repeat split; auto using in_allowed.
    simpl in Ht. destruct (String.eqb_spec m ""); [discriminate | assumption].
  - exists "gpt-3.5-turbo". repeat split; auto. discriminate.
Qed.

(** The model an answer generator is asked for is never empty and is
    always one the user is allowed or the default [gpt-3.5-turbo],
    whatever the request and the brain say. *)
Theorem generator_model_is_allowed_or_default
    (env : Env) (q : ChatQuestion) (chat_id : UUID) (brain_id : option UUID)
    (user : UserIdentity) (w : Utils.World) (args : GeneratorArgs) :
  In args
    (generator_args
       (snd (create_question_handler env q chat_id brain_id user w)))
  \/ In args
       (generator_args
          (snd (create_stream_question_handler env q chat_id brain_id user
                  w))) ->
  exists m,
    arg_model args = Some m
    /\ m <> ""
    /\ (In m (allowed_models
                (Utils.get_user_settings (surroundings env) user))
        \/ m = "gpt-3.5-turbo").
Proof.
  rewrite generator_args_question, generator_args_stream.
  destruct (validate_authorization _ _ _); simpl; [|tauto].
  intros [[E|[]]|[E|[]]]; subst args; cbn [arg_model arguments_for];
    apply model_argument_cases.
  - apply (prepared_filled env q brain_id).
  - apply (prepared_filled_stream env q brain_id).
Qed.

(** A user whose settings have no [models] key gets the default model
    whatever model the request names. *)
Theorem without_models_setting_default_model
    (env : Env) (q : ChatQuestion) (chat_id : UUID) (brain_id : option UUID)
    (user : UserIdentity) (w : Utils.World) (args : GeneratorArgs) :
  settings_models (Utils.get_user_settings (surroundings env) user) = None ->
  In args
    (generator_args
       (snd (create_question_handler env q chat_id brain_id user w)))
  \/ In args
       (generator_args
          (snd (create_stream_question_handler env q chat_id brain_id user
                  w))) ->
  arg_model args = Some "gpt-3.5-turbo".
Proof.
  intros Hnone.
  rewrite generator_args_question, generator_args_stream.
  destruct (validate_authorization _ _ _); simpl; [|tauto].
  assert (H : forall q', truthy_str (q_model q') = true ->
              model_argument
                (Utils.get_user_settings (surroundings env) user) q'
              = Some "gpt-3.5-turbo").
  { intros q' Ht. destruct (model_argument_cases
                              (Utils.get_user_settings (surroundings env) user)
                              q' Ht) as (m & Hm & _ & Hcase).
    rewrite Hm. unfold allowed_models in Hcase. rewrite Hnone in Hcase.
    simpl in Hcase. destruct Hcase as [[E|[]]|E]; now subst. }
  intros [[E|[]]|[E|[]]]; subst args; cbn [arg_model arguments_for]; apply H.
  - apply (prepared_filled env q brain_id).
  - apply (prepared_filled_stream env q brain_id).
Qed.

(** The generator of the first handler is never asked with a missing or
    zero temperature or token limit (a requested temperature of 0 is
    replaced by a fallback); that of the second never with a missing
    temperature or a missing or zero token limit. *)
Theorem generator_arguments_are_filled
    (env : Env) (q : ChatQuestion) (chat_id : UUID) (brain_id : option UUID)
    (user : UserIdentity) (w : Utils.World) (args : GeneratorArgs) :
  (In args
     (generator_args
        (snd (create_question_handler env q chat_id brain_id user w))) ->
   truthy_float (arg_temperature args) = true
   /\ truthy_int (arg_max_tokens args) = true
   /\ arg_streaming args = false)
  /\ (In args
        (generator_args
           (snd (create_stream_question_handler env q chat_id brain_id user
                   w))) ->
      arg_temperature args <> None
      /\ truthy_int (arg_max_tokens args) = true
      /\ arg_streaming args = true).
Proof.
  rewrite generator_args_question, generator_args_stream.
  destruct (validate_authorization _ _ _); simpl; [|tauto].
  split; intros [E|[]]; subst args;
    cbn [arg_temperature arg_max_tokens arg_streaming arguments_for].
  - destruct (prepared_filled env q brain_id) as (_ & H2 & H3). auto.
  - destruct (prepared_filled_stream env q brain_id) as (_ & H2 & H3). auto.
Qed.

(** A handler looks a brain up for fallback values at most once, and not
    at all when authorization fails, when the question is complete or when
    the request has no brain. *)
Theorem brain_is_looked_up_when_needed
    (env : Env) (q : ChatQuestion) (chat_id : UUID) (brain_id : option UUID)
    (user : UserIdentity) (w : Utils.World) :
  brain_lookups (snd (create_question_handler env q chat_id brain_id user w))
  = match validate_authorization (get_chat_strategy env brain_id)
            (user_id user) brain_id, brain_id with
    | Return _, Some b => if complete q then [] else [b]
    | _, _ => []
    end
  /\ brain_lookups
       (snd (create_stream_question_handler env q chat_id brain_id user w))
     = match validate_authorization (get_chat_strategy env brain_id)
               (user_id user) brain_id, brain_id with
       | Return _, Some b => if complete_for_stream q then [] else [b]
       | _, _ => []
       end.
Proof.
  destruct (validate_authorization _ _ _) as [u|e] eqn:Hauth.
  - rewrite (create_question_handler_authorized env q chat_id brain_id user w
               Hauth).
    rewrite (create_stream_question_handler_authorized env q chat_id brain_id
               user w Hauth).
    cbn [snd]. rewrite !brain_lookups_app, !prepared_lookups.
    split.
    + destruct (get_answer_generator _ _); simpl; rewrite app_nil_r;
        destruct (complete q), brain_id; reflexivity.
    + destruct (get_answer_generator _ _); simpl; rewrite app_nil_r;
        destruct (complete_for_stream q), brain_id; reflexivity.
  - unfold create_question_handler, create_stream_question_handler.
    rewrite Hauth. split; reflexivity.
Qed.

(** A request that fails authorization has no effect: the handler raises
    the error of [validate_authorization], the usage counters are as they
    were, and no answer generator is asked for. *)
Theorem unauthorized_request_has_no_effect
    (env : Env) (q : ChatQuestion) (chat_id : UUID) (brain_id : option UUID)
    (user : UserIdentity) (w : Utils.World) (e : Exc) :
  validate_authorization (get_chat_strategy env brain_id) (user_id user)
    brain_id = Raise e ->
  create_question_handler env q chat_id brain_id user w
  = (Raise e, w, [CallValidateAuthorization (user_id user) brain_id])
  /\ create_stream_question_handler env q chat_id brain_id user w
     = (Raise e, w, [CallValidateAuthorization (user_id user) brain_id]).
Proof.
  intros Hauth. unfold create_question_handler, create_stream_question_handler.
  rewrite Hauth. split; reflexivity.
Qed.

(** An authorized request to the first handler goes through
    [check_user_requests_limit] once, before the answer generator is asked
    for and also when that then fails; the second handler never does (its
    call is commented out) and leaves the usage counters as they were. *)
Theorem only_the_first_handler_counts_requests
    (env : Env) (q : ChatQuestion) (chat_id : UUID) (brain_id : option UUID)
    (user : UserIdentity) (w : Utils.World) :
  (forall u,
     validate_authorization (get_chat_strategy env brain_id) (user_id user)
       brain_id = Return u ->
     snd (fst (create_question_handler env q chat_id brain_id user w))
     = snd (Utils.check_user_requests_limit (surroundings env) user w)
     /\ limit_checks
          (snd (create_question_handler env q chat_id brain_id user w))
        = [user])
  /\ snd (fst (create_stream_question_handler env q chat_id brain_id user w))
     = w
  /\ limit_checks
       (snd (create_stream_question_handler env q chat_id brain_id user w))
     = [].
Proof.
  split; [|split].
  - intros u Hauth.
    rewrite (create_question_handler_authorized env q chat_id brain_id user w
               Hauth).
    cbn [fst snd]. split; [reflexivity|].
    rewrite !limit_checks_app, prepared_no_limit_check.
    destruct (get_answer_generator _ _); reflexivity.
  - destruct (validate_authorization (get_chat_strategy env brain_id)
                (user_id user) brain_id) as [u|e] eqn:Hauth.
    + rewrite (create_stream_question_handler_authorized env q chat_id
                 brain_id user w Hauth). reflexivity.
    + unfold create_stream_question_handler. rewrite Hauth. reflexivity.
  - destruct (validate_authorization (get_chat_strategy env brain_id)
                (user_id user) brain_id) as [u|e] eqn:Hauth.
    + rewrite (create_stream_question_handler_authorized env q chat_id
                 brain_id user w Hauth).
      cbn [snd]. rewrite !limit_checks_app, prepared_no_limit_check.
      destruct (get_answer_generator _ _); reflexivity.
    + unfold create_stream_question_handler. rewrite Hauth. reflexivity.
Qed.


(** *** The properties at work *)

Ltac evaluated := vm_compute; reflexivity.

Lemma generator_model_is_allowed_or_default_witness :
  In (arguments_for Demo.routes_env Demo.gpt4_question Demo.chat_42 None
        Demo.alice false)
    (generator_args
       (snd (create_question_handler Demo.routes_env Demo.gpt4_question
               Demo.chat_42 None Demo.alice Demo.empty_world)))
  /\ exists m,
       arg_model
         (arguments_for Demo.routes_env Demo.gpt4_question Demo.chat_42 None
            Demo.alice false)
       = Some m
       /\ m <> ""
       /\ (In m (allowed_models Demo.default_only) \/ m = "gpt-3.5-turbo").
Proof.
  assert (Hin : In (arguments_for Demo.routes_env Demo.gpt4_question
                      Demo.chat_42 None Demo.alice false)
                  (generator_args
                     (snd (create_question_handler Demo.routes_env
                             Demo.gpt4_question Demo.chat_42 None Demo.alice
                             Demo.empty_world))))
    by (vm_compute; left; reflexivity).
  split; [exact Hin|].
  exact (@generator_model_is_allowed_or_default Demo.routes_env
           Demo.gpt4_question Demo.chat_42 None Demo.alice Demo.empty_world
           _ (or_introl Hin)).
Defined.

Lemma without_models_setting_default_model_witness :
  settings_models
    (Utils.get_user_settings (surroundings DemoMore.bare_env) Demo.alice)
  = None
  /\ arg_model
       (arguments_for DemoMore.bare_env Demo.gpt4_question Demo.chat_42 None
          Demo.alice true)
     = Some "gpt-3.5-turbo".
Proof.
  assert (Hnone : settings_models
                    (Utils.get_user_settings (surroundings DemoMore.bare_env)
                       Demo.alice)
                  = None) by reflexivity.
  assert (Hin : In (arguments_for DemoMore.bare_env Demo.gpt4_question
                      Demo.chat_42 None Demo.alice true)
                  (generator_args
                     (snd (create_stream_question_handler DemoMore.bare_env
                             Demo.gpt4_question Demo.chat_42 None Demo.alice
                             Demo.empty_world))))
    by (vm_compute; left; reflexivity).
  split; [exact Hnone|].
  exact (@without_models_setting_default_model DemoMore.bare_env
           Demo.gpt4_question Demo.chat_42 None Demo.alice Demo.empty_world
           _ Hnone (or_intror Hin)).
Defined.

Lemma generator_arguments_are_filled_witness :
  q_temperature DemoMore.cold_question = Some 0%float
  /\ In (arguments_for Demo.routes_env
           (fst (prepared Demo.routes_env question_defaults
                   (complete DemoMore.cold_question) DemoMore.cold_question
                   None))
           Demo.chat_42 None Demo.alice false)
       (generator_args
          (snd (create_question_handler Demo.routes_env
                  DemoMore.cold_question Demo.chat_42 None Demo.alice
                  Demo.empty_world)))
  /\ truthy_float
       (arg_temperature
          (arguments_for Demo.routes_env
             (fst (prepared Demo.routes_env question_defaults
                     (complete DemoMore.cold_question)
                     DemoMore.cold_question None))
             Demo.chat_42 None Demo.alice false))
     = true.
Proof.
  assert (Hin : In (arguments_for Demo.routes_env
                      (fst (prepared Demo.routes_env question_defaults
                              (complete DemoMore.cold_question)
                              DemoMore.cold_question None))
                      Demo.chat_42 None Demo.alice false)
                  (generator_args
                     (snd (create_question_handler Demo.routes_env
                             DemoMore.cold_question Demo.chat_42 None
                             Demo.alice Demo.empty_world))))
    by (vm_compute; left; reflexivity).
  split; [reflexivity|]. split; [exact Hin|].
  destruct (@generator_arguments_are_filled Demo.routes_env
              DemoMore.cold_question Demo.chat_42 None Demo.alice
              Demo.empty_world
              (arguments_for Demo.routes_env
                 (fst (prepared Demo.routes_env question_defaults
                         (complete DemoMore.cold_question)
                         DemoMore.cold_question None))
                 Demo.chat_42 None Demo.alice false))
    as [Hfirst _].
  exact (proj1 (Hfirst Hin)).
Defined.

Lemma unauthorized_request_has_no_effect_witness :
  validate_authorization (get_chat_strategy DemoMore.closed_env None)
    (user_id Demo.alice) None
  = Raise (mkExc (HTTPException 403) "Forbidden")
  /\ create_question_handler DemoMore.closed_env Demo.hi Demo.chat_42 None
       Demo.alice Demo.empty_world
     = (Raise (mkExc (HTTPException 403) "Forbidden"), Demo.empty_world,
        [CallValidateAuthorization (user_id Demo.alice) None]).
Proof.
  assert (Hauth : validate_authorization
                    (get_chat_strategy DemoMore.closed_env None)
                    (user_id Demo.alice) None
                  = Raise (mkExc (HTTPException 403) "Forbidden"))
    by reflexivity.
  split; [exact Hauth|].
  exact (proj1 (@unauthorized_request_has_no_effect DemoMore.closed_env
                  Demo.hi Demo.chat_42 None Demo.alice Demo.empty_world _
                  Hauth)).
Defined.

Lemma only_the_first_handler_counts_requests_witness :
  validate_authorization (get_chat_strategy Demo.routes_env None)
    (user_id Demo.alice) None
  = Return tt
  /\ Utils.usage
       (snd (fst (create_question_handler Demo.routes_env Demo.hi
                    Demo.chat_42 None Demo.alice Demo.empty_world)))
     = [((7%N, "20231101"), 1%Z)]
  /\ Utils.usage
       (snd (fst (create_stream_question_handler Demo.routes_env Demo.hi
                    Demo.chat_42 None Demo.alice Demo.empty_world)))
     = [].
Proof.
  assert (Hauth : validate_authorization
                    (get_chat_strategy Demo.routes_env None)
                    (user_id Demo.alice) None
                  = Return tt) by reflexivity.
  destruct (@only_the_first_handler_counts_requests Demo.routes_env Demo.hi
              Demo.chat_42 None Demo.alice Demo.empty_world)
    as (Hfirst & Hsecond & _).
  destruct (Hfirst tt Hauth) as [Hworld _].
  split; [exact Hauth|]. split.
  - rewrite Hworld. evaluated.
  - rewrite Hsecond. reflexivity.
Defined.

End RoutesMore.

(** ** routes/chat/utils.py: deleting a chat *)

Module DeletionFacts.
Import Py Models ChatDeletion.

(** [delete_chat_from_db] attempts both deletions: an [Exception] raised
    by the first is printed and does not keep the second from running, and
    one raised by the second is printed as well; the function returns
    normally, the store being what the two calls in turn leave. *)
Theorem delete_chat_from_db_attempts_both
    (S : Type) (supabase_db : SupabaseDB S) (chat_id : UUID)
    (w : DeletionWorld S) :
  no_base_exception (delete_chat_history supabase_db chat_id (store w)) ->
  no_base_exception
    (delete_chat supabase_db chat_id
       (snd (delete_chat_history supabase_db chat_id (store w)))) ->
  fst (delete_chat_from_db supabase_db chat_id w) = Return tt
  /\ store (snd (delete_chat_from_db supabase_db chat_id w))
     = snd (delete_chat supabase_db chat_id
              (snd (delete_chat_history supabase_db chat_id (store w))))
  /\ printed (snd (delete_chat_from_db supabase_db chat_id w))
     = (printed w
        ++ printed_by (delete_chat_history supabase_db chat_id (store w))
        ++ printed_by
             (delete_chat supabase_db chat_id
                (snd (delete_chat_history supabase_db chat_id (store w)))))%list.
Proof.
  unfold delete_chat_from_db, try_print, no_base_exception, printed_by.
  destruct (delete_chat_history supabase_db chat_id (store w)) as [[u1|e1] st1];
    simpl; intros H1.
  - destruct (delete_chat supabase_db chat_id st1) as [[u2|e2] st2]; simpl;
      intros H2.
    + now rewrite app_nil_r.
    + rewrite H2. simpl. auto.
  - rewrite H1. simpl.
    destruct (delete_chat supabase_db chat_id st1) as [[u2|e2] st2]; simpl;
      intros H2.
    + auto.
    + rewrite H2. simpl. rewrite <- app_assoc. auto.
Qed.

(** An exception outside [Exception] raised by the first deletion leaves
    the function at once: the second deletion is not attempted. *)
Theorem delete_chat_from_db_stops_on_base_exception
    (S : Type) (supabase_db : SupabaseDB S) (chat_id : UUID)
    (w : DeletionWorld S) (e : Exc) :
  fst (delete_chat_history supabase_db chat_id (store w)) = Raise e ->
  isinstance_Exception e = false ->
  delete_chat_from_db supabase_db chat_id w
  = (Raise e,
     mkDeletionWorld
       (snd (delete_chat_history supabase_db chat_id (store w)))
       (printed w)).
Proof.
  unfold delete_chat_from_db, try_print.
  destruct (delete_chat_history supabase_db chat_id (store w)) as [r st1].
  simpl. intros -> He. now rewrite He.
Qed.

Lemma delete_chat_from_db_attempts_both_witness :
  fst (delete_chat_history DemoMore.flaky_db Demo.chat_42
         (store DemoMore.two_rows))
  = Raise (mkExc (OtherException "APIError") "history: timeout")
  /\ delete_chat_from_db DemoMore.flaky_db Demo.chat_42 DemoMore.two_rows
     = (Return tt, mkDeletionWorld ["chat-43"] ["history: timeout"]).
Proof.
  split; [reflexivity|].
  destruct (@delete_chat_from_db_attempts_both (list string)
              DemoMore.flaky_db Demo.chat_42 DemoMore.two_rows
              eq_refl I) as (Hr & Hs & Hp).
  destruct (delete_chat_from_db DemoMore.flaky_db Demo.chat_42
              DemoMore.two_rows) as [r [st out]].
  simpl in Hr, Hs, Hp. now subst.
Defined.

Lemma delete_chat_from_db_stops_on_base_exception_witness :
  fst (delete_chat_history DemoMore.interrupted_db Demo.chat_42
         (store DemoMore.two_rows))
  = Raise (mkExc (BaseExceptionOnly "KeyboardInterrupt") "")
  /\ delete_chat_from_db DemoMore.interrupted_db Demo.chat_42
       DemoMore.two_rows
     = (Raise (mkExc (BaseExceptionOnly "KeyboardInterrupt") ""),
        DemoMore.two_rows).
Proof.
  split; [reflexivity|].
  exact (@delete_chat_from_db_stops_on_base_exception (list string)
           DemoMore.interrupted_db Demo.chat_42 DemoMore.two_rows _
           eq_refl eq_refl).
Defined.

End DeletionFacts.

(** ** routes/chat_routes.py: chat metadata *)

Module MetadataFacts.
Import Py Models ChatMetadata.

(** Only the owner updates a chat: for anybody else the handler raises
    HTTP 403 and [update_chat] is not called; for the owner the result is
    that of [update_chat] on the chat and the data of the request. *)
Theorem only_the_owner_updates_chat
    (env : MetadataEnv) (chat_data : ChatUpdatableProperties)
    (chat_id : UUID) (current_user : UserIdentity) :
  (str_UUID env (user_id current_user)
   <> chat_user_id (get_chat_by_id env chat_id) ->
   Utils.http_status
     (fst (update_chat_metadata_handler env chat_data chat_id current_user))
   = Some 403%Z
   /\ forall c d,
        ~ In (CallUpdateChat c d)
            (snd (update_chat_metadata_handler env chat_data chat_id
                    current_user)))
  /\ (str_UUID env (user_id current_user)
      = chat_user_id (get_chat_by_id env chat_id) ->
      update_chat_metadata_handler env chat_data chat_id current_user
      = (update_chat env chat_id chat_data,
         [CallGetChatById chat_id; CallUpdateChat chat_id chat_data])).
Proof.
  unfold update_chat_metadata_handler.
  destruct (String.eqb_spec (str_UUID env (user_id current_user))
              (chat_user_id (get_chat_by_id env chat_id))) as [E|E]; simpl.
  - split; [contradiction | reflexivity].
  - split; [|contradiction]. intros _. split; [reflexivity|].
    intros c d [H|[]]. discriminate.
Qed.

Lemma only_the_owner_updates_chat_witness :
  str_UUID DemoMore.metadata_env (user_id DemoMore.bob) = "8"
  /\ chat_user_id (get_chat_by_id DemoMore.metadata_env Demo.chat_42) = "7"
  /\ Utils.http_status
       (fst (update_chat_metadata_handler DemoMore.metadata_env
               DemoMore.renaming Demo.chat_42 DemoMore.bob))
     = Some 403%Z
  /\ fst (update_chat_metadata_handler DemoMore.metadata_env
            DemoMore.renaming Demo.chat_42 Demo.alice)
     = Return (mkChat "7" "new name").
Proof.
  destruct (@only_the_owner_updates_chat DemoMore.metadata_env
              DemoMore.renaming Demo.chat_42 DemoMore.bob) as [Hother _].
  destruct (@only_the_owner_updates_chat DemoMore.metadata_env
              DemoMore.renaming Demo.chat_42 Demo.alice) as [_ Howner].
  split; [reflexivity|]. split; [reflexivity|]. split.
  - apply Hother. discriminate.
  - rewrite (Howner eq_refl). reflexivity.
Defined.

End MetadataFacts.

(** ** routes/brain_routes.py *)

Module BrainFacts.
Import Py Models BrainRoutes.

(** [create_new_brain] keeps the quota: with as many brains as
    [max_brains] allows (5 when the setting is absent) or more, it raises
    HTTP 429 and creates nothing, so with a quota of zero or less it never
    creates a brain; below the quota it creates the brain and makes the
    user its owner, the brain being the default one exactly when the user
    had none. *)
Theorem create_new_brain_keeps_quota
    (env : Env) (brain : CreateBrainProperties) (current_user : UserIdentity) :
  let owned := Z.of_nat (length (get_user_brains env (user_id current_user))) in
  let max_brains := dict_get (settings_max_brains env current_user) 5%Z in
  ((max_brains <= owned)%Z ->
   Utils.http_status (fst (create_new_brain env brain current_user))
   = Some 429%Z
   /\ snd (create_new_brain env brain current_user) = [])
  /\ ((max_brains <= 0)%Z ->
      snd (create_new_brain env brain current_user) = [])
  /\ ((owned < max_brains)%Z ->
      create_new_brain env brain current_user
      = (Return (BrainCreated
                   (create_brain env brain (user_id current_user))
                   (brain_name brain) "Owner"),
         [CreateBrain brain (user_id current_user);
          CreateBrainUser (user_id current_user)
            (create_brain env brain (user_id current_user)) Owner
            (match get_user_default_brain env (user_id current_user) with
             | Some _ => false
             | None => true
             end)])).
Proof.
  unfold create_new_brain. simpl.
  destruct (Z.geb_spec
              (Z.of_nat (length (get_user_brains env (user_id current_user))))
              (dict_get (settings_max_brains env current_user) 5%Z))
    as [H|H]; simpl.
  - repeat split; auto. lia.
  - repeat split; intros; try lia; reflexivity.
Qed.

Lemma update_secrets_valid (secrets_names : list string) (user brain : UUID)
    (items : list (string * string)) :
  (forall kv, In kv items -> not_in (fst kv) secrets_names = false) ->
  update_secrets secrets_names user brain items
  = (Return tt, updates_of user brain items).
Proof.
  induction items as [|[key value] rest IH]; intros Hvalid; simpl.
  - reflexivity.
  - pose proof (Hvalid (key, value) (or_introl eq_refl)) as Hk.
    simpl in Hk. rewrite Hk.
    rewrite IH by (intros kv Hkv; apply Hvalid; right; exact Hkv).
    reflexivity.
Qed.

Lemma update_secrets_invalid (secrets_names : list string) (user brain : UUID)
    (before : list (string * string)) :
  forall key value after,
    (forall kv, In kv before -> not_in (fst kv) secrets_names = false) ->
    not_in key secrets_names = true ->
    update_secrets secrets_names user brain
      (before ++ (key, value) :: after)
    = (http_error 400 ("Secret " ++ key ++ " is not a valid secret."),
       updates_of user brain before).
Proof.
  induction before as [|[k v] rest IH]; intros key value after Hvalid Hkey;
    simpl.
  - now rewrite Hkey.
  - pose proof (Hvalid (k, v) (or_introl eq_refl)) as Hk.
    simpl in Hk. rewrite Hk.
    rewrite (IH key value after);
      [reflexivity | intros kv Hkv; apply Hvalid; right; exact Hkv | exact Hkey].
Qed.

Section Secrets.

Variable env : Env.
Variable brain_id : UUID.
Variable current_user : UserIdentity.
Variable existing_brain : BrainDetails.
Variable definition : BrainDefinition.
Variable brain_secrets : list Secret.

Hypothesis brain_exists : get_brain_details env brain_id = Some existing_brain.
Hypothesis has_definition :
  details_brain_definition existing_brain = Some definition.
Hypothesis has_secrets : definition_secrets definition = Some brain_secrets.
Hypothesis is_member :
  get_brain_for_user env (user_id current_user) brain_id = true.

(** A request whose keys are all secrets of the brain sets exactly the
    values that are not empty, in the order of the request, and succeeds;
    an empty value leaves its secret as it is. *)
Theorem valid_secrets_are_updated (secrets : list (string * string)) :
  (forall kv,
     In kv secrets -> In (fst kv) (map secret_name brain_secrets)) ->
  update_existing_brain_secrets env brain_id secrets current_user
  = (Return (Message ("Brain " ++ UUID_str env brain_id
                      ++ " has been updated.")),
     updates_of (user_id current_user) brain_id secrets).
Proof.
  intros Hvalid. unfold update_existing_brain_secrets.
  rewrite brain_exists, has_definition, has_secrets, is_member. simpl.
  rewrite update_secrets_valid; [reflexivity|].
  intros kv Hkv. unfold not_in.
  apply negb_false_iff, existsb_exists.
  exists (fst kv). split; [auto | apply String.eqb_refl].
Qed.

(** The update is not atomic: at the first key that is no secret of the
    brain the handler raises HTTP 400 naming that key, and the values that
    come before it in the request have been set already; nothing after it
    is looked at. *)
Theorem invalid_secret_stops_the_update
    (before after : list (string * string)) (key value : string) :
  (forall kv,
     In kv before -> In (fst kv) (map secret_name brain_secrets)) ->
  ~ In key (map secret_name brain_secrets) ->
  update_existing_brain_secrets env brain_id
    (before ++ (key, value) :: after) current_user
  = (http_error 400 ("Secret " ++ key ++ " is not a valid secret."),
     updates_of (user_id current_user) brain_id before).
Proof.
  intros Hvalid Hkey. unfold update_existing_brain_secrets.
  rewrite brain_exists, has_definition, has_secrets, is_member. simpl.
  rewrite update_secrets_invalid; [reflexivity| |].
  - intros kv Hkv. unfold not_in.
    apply negb_false_iff, existsb_exists.
    exists (fst kv). split; [auto | apply String.eqb_refl].
  - unfold not_in. apply negb_true_iff.
    destruct (existsb (String.eqb key) (map secret_name brain_secrets))
      eqn:E; [|reflexivity].
    exfalso. apply Hkey. apply existsb_exists in E.
    destruct E as (x & Hx & Ex). apply String.eqb_eq in Ex. now subst.
Qed.

End Secrets.

(** Somebody who is no user of the brain sets no secret; what the handler
    answers depends on the brain: HTTP 404 when it does not exist, 400 when
    it has no secrets, and 403 only then. *)
Theorem stranger_sets_no_secret
    (env : Env) (brain_id : UUID) (secrets : list (string * string))
    (current_user : UserIdentity) :
  get_brain_for_user env (user_id current_user) brain_id = false ->
  snd (update_existing_brain_secrets env brain_id secrets current_user) = []
  /\ Utils.http_status
       (fst (update_existing_brain_secrets env brain_id secrets current_user))
     = match get_brain_details env brain_id with
       | None => Some 404%Z
       | Some existing_brain =>
           match details_brain_definition existing_brain with
           | None => Some 400%Z
           | Some definition =>
               match definition_secrets definition with
               | None => Some 400%Z
               | Some _ => Some 403%Z
               end
           end
       end.
Proof.
  intros Hno. unfold update_existing_brain_secrets.
  destruct (get_brain_details env brain_id) as [eb|]; [|split; reflexivity].
  destruct (details_brain_definition eb) as [def|]; [|split; reflexivity].
  destruct (definition_secrets def) as [secs|]; [|split; reflexivity].
  rewrite Hno. split; reflexivity.
Qed.

(** What [update_existing_brain] deletes besides updating the brain: the
    prompt the brain had, only when the update names no prompt and that
    prompt is private; the users of the brain, exactly when the brain goes
    from public to private.  A brain that does not exist is not touched. *)
Theorem update_existing_brain_deletions
    (env : Env) (brain_id : UUID)
    (brain_update_data : BrainUpdatableProperties) :
  (get_brain_details env brain_id = None ->
   update_existing_brain env brain_id brain_update_data
   = (http_error 404 "Brain not found", []))
  /\ (forall existing_brain,
        get_brain_details env brain_id = Some existing_brain ->
        let writes :=
          snd (update_existing_brain env brain_id brain_update_data) in
        hd_error writes = Some (UpdateBrainById brain_id brain_update_data)
        /\ (forall p,
              In (DeletePromptById p) writes <->
              update_prompt_id brain_update_data = None
              /\ details_prompt_id existing_brain = Some p
              /\ exists prompt,
                   get_prompt_by_id env p = Some prompt
                   /\ prompt_status prompt = "private")
        /\ (forall b,
              In (DeleteBrainUsers b) writes <->
              b = brain_id
              /\ update_status brain_update_data = Some "private"
              /\ details_status existing_brain = Some "public")).
Proof.
  split.
  - intros H. unfold update_existing_brain. now rewrite H.
  - intros eb H. unfold update_existing_brain. rewrite H. cbn [snd].
    assert (Hst : forall x s, is_status x s = true <-> x = Some s).
    { intros [y|] s; simpl; [|split; discriminate].
      rewrite String.eqb_eq. split; congruence. }
    destruct (is_status (update_status brain_update_data) "private"
              && is_status (details_status eb) "public") eqn:Hs.
    + apply andb_prop in Hs. destruct Hs as [Hs1 Hs2].
      apply Hst in Hs1. apply Hst in Hs2.
      destruct (update_prompt_id brain_update_data) as [np|],
               (details_prompt_id eb) as [op|];
        try destruct (get_prompt_by_id env op) as [prompt|] eqn:Hp;
        try destruct (String.eqb_spec (prompt_status prompt) "private");
        simpl; (split; [reflexivity|]); split; intros x;
        split; intros Hx;
        repeat match goal with
               | H : _ \/ _ |- _ => destruct H
               | H : _ /\ _ |- _ => destruct H
               | H : exists _, _ |- _ => destruct H
               | H : False |- _ => destruct H
               end;
        try discriminate; try congruence; auto 10;
        try (match goal with
             | H : DeletePromptById _ = DeletePromptById _ |- _ =>
                 inversion H; subst; eauto 10
             | H : DeleteBrainUsers _ = DeleteBrainUsers _ |- _ =>
                 inversion H; subst; eauto 10
             end).
      all: try (subst; auto 10).
      all: try (match goal with
                | H : Some _ = Some _ |- _ => inversion H; subst
                end; simpl; auto 10; congruence).
    + assert (Hno : ~ (update_status brain_update_data = Some "private"
                       /\ details_status eb = Some "public")).
      { intros [H1 H2]. apply Hst in H1. apply Hst in H2.
        rewrite H1, H2 in Hs. discriminate. }
      destruct (update_prompt_id brain_update_data) as [np|],
               (details_prompt_id eb) as [op|];
        try destruct (get_prompt_by_id env op) as [prompt|] eqn:Hp;
        try destruct (String.eqb_spec (prompt_status prompt) "private");
        simpl; (split; [reflexivity|]); split; intros x;
        split; intros Hx;
        repeat match goal with
               | H : _ \/ _ |- _ => destruct H
               | H : _ /\ _ |- _ => destruct H
               | H : exists _, _ |- _ => destruct H
               | H : False |- _ => destruct H
               end;
        try discriminate; try congruence; try tauto; auto 10;
        try (match goal with
             | H : DeletePromptById _ = DeletePromptById _ |- _ =>
                 inversion H; subst; eauto 10
             end).
      all: try (match goal with
                | H : Some _ = Some _ |- _ => inversion H; subst
                end; simpl; auto 10; congruence).
Qed.


(** *** The properties at work *)

Lemma create_new_brain_keeps_quota_witness :
  length (get_user_brains DemoMore.brain_env (user_id Demo.alice)) = 2
  /\ settings_max_brains DemoMore.brain_env Demo.alice = Some 2%Z
  /\ Utils.http_status
       (fst (create_new_brain DemoMore.brain_env DemoMore.new_brain
               Demo.alice))
     = Some 429%Z
  /\ settings_max_brains DemoMore.brain_env DemoMore.bob = None
  /\ snd (create_new_brain DemoMore.brain_env DemoMore.new_brain DemoMore.bob)
     = [CreateBrain DemoMore.new_brain (user_id DemoMore.bob);
        CreateBrainUser (user_id DemoMore.bob) (mkUUID 9) Owner true].
Proof.
  destruct (@create_new_brain_keeps_quota DemoMore.brain_env
              DemoMore.new_brain Demo.alice) as (Hfull & _ & _).
  destruct (@create_new_brain_keeps_quota DemoMore.brain_env
              DemoMore.new_brain DemoMore.bob) as (_ & _ & Hfree).
  split; [reflexivity|]. split; [reflexivity|]. split.
  - apply Hfull. vm_compute. discriminate.
  - split; [reflexivity|]. rewrite Hfree; [reflexivity|].
    vm_compute. reflexivity.
Defined.

Lemma valid_secrets_are_updated_witness :
  update_existing_brain_secrets DemoMore.brain_env DemoMore.brain_1
    [("api_key", "k1"); ("token", "")] Demo.alice
  = (Return (Message "Brain 0000002a has been updated."),
     [UpdateSecretValue (user_id Demo.alice) DemoMore.brain_1 "api_key" "k1"]).
Proof.
  apply (@valid_secrets_are_updated DemoMore.brain_env DemoMore.brain_1
           Demo.alice _ _ [mkSecret "api_key"; mkSecret "token"]
           eq_refl eq_refl eq_refl eq_refl).
  intros kv [H|[H|[]]]; subst kv; simpl; auto.
Defined.

Lemma invalid_secret_stops_the_update_witness :
  update_existing_brain_secrets DemoMore.brain_env DemoMore.brain_1
    ([("api_key", "k1")] ++ ("bogus", "x") :: [("token", "t1")]) Demo.alice
  = (http_error 400 "Secret bogus is not a valid secret.",
     [UpdateSecretValue (user_id Demo.alice) DemoMore.brain_1 "api_key" "k1"]).
Proof.
  apply (@invalid_secret_stops_the_update DemoMore.brain_env DemoMore.brain_1
           Demo.alice _ _ [mkSecret "api_key"; mkSecret "token"]
           eq_refl eq_refl eq_refl eq_refl).
  - intros kv [H|[]]; subst kv; simpl; auto.
  - simpl. intros [H|[H|[]]]; discriminate.
Defined.

Lemma stranger_sets_no_secret_witness :
  get_brain_for_user DemoMore.brain_env (user_id DemoMore.bob)
    DemoMore.brain_1 = false
  /\ snd (update_existing_brain_secrets DemoMore.brain_env DemoMore.brain_1
            [("api_key", "k1")] DemoMore.bob)
     = [].
Proof.
  split; [reflexivity|].
  exact (proj1 (@stranger_sets_no_secret DemoMore.brain_env DemoMore.brain_1
                  [("api_key", "k1")] DemoMore.bob eq_refl)).
Defined.

Lemma update_existing_brain_deletions_witness :
  get_brain_details DemoMore.brain_env DemoMore.brain_1
  = Some (mkBrainDetails (Some (mkUUID 3)) (Some "public")
            (Some (mkBrainDefinition
                     (Some [mkSecret "api_key"; mkSecret "token"]))))
  /\ In (DeleteBrainUsers DemoMore.brain_1)
       (snd (update_existing_brain DemoMore.brain_env DemoMore.brain_1
               (mkBrainUpdatableProperties (Some (mkUUID 4))
                  (Some "private"))))
  /\ ~ In (DeletePromptById (mkUUID 3))
         (snd (update_existing_brain DemoMore.brain_env DemoMore.brain_1
                 (mkBrainUpdatableProperties (Some (mkUUID 4))
                    (Some "private")))).
Proof.
  destruct (@update_existing_brain_deletions DemoMore.brain_env
              DemoMore.brain_1
              (mkBrainUpdatableProperties (Some (mkUUID 4)) (Some "private")))
    as [_ Hexists].
  destruct (Hexists _ eq_refl) as (_ & Hprompt & Husers).
  split; [reflexivity|]. split.
  - apply Husers. repeat split; reflexivity.
  - intros H. apply Hprompt in H. destruct H as [H _]. discriminate.
Defined.

End BrainFacts.
